(** * API surface normalization and tool generation: a shallow embedding

    The Python sources under [app/] are embedded function by function:
    [models.py], [api_discoverer.py], [mcp_server_generator.py],
    [mcp_server.py], [json_analyzer.py], [pdf_analyzer.py] and
    [enhanced_analyzer.py].

    Conventions of the embedding.
    - A Python [str] is a [string]; case mapping and character classes act
      on the ASCII range, the other characters carry no case.
    - A value obtained from [json.loads] is a [json]; a [dict] is an
      association list in insertion order, numbers are integers.
    - A function that can raise returns a [result]: [Ok a] or [Raise e]. *)

From Stdlib Require Import String Ascii ZArith Bool.
From stdpp Require Import base decidable option list sets gmap strings pretty.

Local Open Scope string_scope.
Local Open Scope list_scope.
Set Warnings "-register-all,-clear-no-such-hyp".

(** ** Python runtime: exceptions and the error monad *)

Inductive exn : Type :=
| AttributeError
| TypeError
| ValueError
| KeyError
| IndexError
| ValidationError.

Inductive result (A : Type) : Type :=
| Ok (a : A)
| Raise (e : exn).
Arguments Ok {A} a.
Arguments Raise {A} e.

#[global] Instance result_ret : MRet result := fun A a => Ok a.
#[global] Instance result_bind : MBind result := fun A B k c =>
  match c with
  | Ok a => k a
  | Raise e => Raise e
  end.
#[global] Instance result_fmap : FMap result := fun A B f c =>
  match c with
  | Ok a => Ok (f a)
  | Raise e => Raise e
  end.

Definition is_ok {A : Type} (c : result A) : bool :=
  match c with Ok _ => true | Raise _ => false end.

(** [try: c except Exception: h] *)
Definition try_except {A : Type} (c : result A) (h : A) : A :=
  match c with Ok a => a | Raise _ => h end.

(** ** Python strings *)

Module PyStr.

Definition nl : string := String (ascii_of_nat 10) EmptyString.
Definition dquote : string := String (ascii_of_nat 34) EmptyString.

Definition is_upper (c : ascii) : bool :=
  (65 <=? nat_of_ascii c)%nat && (nat_of_ascii c <=? 90)%nat.
Definition is_lower (c : ascii) : bool :=
  (97 <=? nat_of_ascii c)%nat && (nat_of_ascii c <=? 122)%nat.
Definition is_alpha (c : ascii) : bool := is_upper c || is_lower c.

(** [c.isdigit()]: the decimal digits, and the superscript digits of the
    Latin-1 range, which Python counts as digits too. *)
Definition isdigit (c : ascii) : bool :=
  let n := nat_of_ascii c in
  ((48 <=? n)%nat && (n <=? 57)%nat)
  || (n =? 178)%nat || (n =? 179)%nat || (n =? 185)%nat.

Definition upper_char (c : ascii) : ascii :=
  if is_lower c then ascii_of_nat (nat_of_ascii c - 32) else c.
Definition lower_char (c : ascii) : ascii :=
  if is_upper c then ascii_of_nat (nat_of_ascii c + 32) else c.

Fixpoint map (f : ascii -> ascii) (s : string) : string :=
  match s with
  | EmptyString => EmptyString
  | String c r => String (f c) (map f r)
  end.

(** [s.upper()] and [s.lower()] *)
Definition upper (s : string) : string := map upper_char s.
Definition lower (s : string) : string := map lower_char s.

(** [s.startswith(p)] *)
Definition startswith (s p : string) : bool := String.prefix p s.

(** [c in s] for a single character [c] *)
Fixpoint contains_char (c : ascii) (s : string) : bool :=
  match s with
  | EmptyString => false
  | String a r => Ascii.eqb a c || contains_char c r
  end.

(** [p in s]: substring test *)
Fixpoint contains (s p : string) : bool :=
  if String.prefix p s then true
  else match s with
       | EmptyString => false
       | String _ r => contains r p
       end.

(** [s.replace(old, new)]: left to right, occurrences do not overlap.
    [skip] counts the characters of a replaced occurrence still to drop. *)
Fixpoint replace_from (old new : string) (skip : nat) (s : string) : string :=
  match s with
  | EmptyString =>
      match skip, old with
      | O, EmptyString => new
      | _, _ => EmptyString
      end
  | String c r =>
      match skip with
      | S k => replace_from old new k r
      | O =>
          if String.prefix old s
          then new +:+ (match old with
                       | EmptyString => String c (replace_from old new 0 r)
                       | String _ o => replace_from old new (String.length o) r
                       end)
          else String c (replace_from old new 0 r)
      end
  end.

Definition replace (old new s : string) : string := replace_from old new 0 s.

(** [s.rstrip(c)] for a one-character set [c] *)
Fixpoint rstrip_char (c : ascii) (s : string) : string :=
  match s with
  | EmptyString => EmptyString
  | String a r =>
      match rstrip_char c r with
      | EmptyString => if Ascii.eqb a c then EmptyString else String a EmptyString
      | r' => String a r'
      end
  end.

(** [s[k:]] *)
Fixpoint drop (k : nat) (s : string) : string :=
  match k, s with
  | O, _ => s
  | S _, EmptyString => EmptyString
  | S k', String _ r => drop k' r
  end.

(** The character classes [[a-zA-Z_]] and [[a-zA-Z0-9_]] of a pattern. *)
Definition ident_start (c : ascii) : bool := is_alpha c || Ascii.eqb c "_".
Definition ident_char (c : ascii) : bool :=
  ident_start c || ((48 <=? nat_of_ascii c)%nat && (nat_of_ascii c <=? 57)%nat).

Fixpoint all_chars (p : ascii -> bool) (s : string) : bool :=
  match s with
  | EmptyString => true
  | String c r => p c && all_chars p r
  end.

(** The text is an identifier: one [ident_start] character, then
    [ident_char] characters up to its end. *)
Definition is_identifier (s : string) : bool :=
  match s with
  | EmptyString => false
  | String c r => ident_start c && all_chars ident_char r
  end.

(** [s in l] for a list of texts *)
Definition str_in_list (s : string) (l : list string) : bool :=
  existsb (String.eqb s) l.

(** [sep.join(l)] *)
Fixpoint join (sep : string) (l : list string) : string :=
  match l with
  | [] => EmptyString
  | [x] => x
  | x :: r => x +:+ sep +:+ join sep r
  end.

End PyStr.

(** ** models.py *)

Inductive HTTPMethod : Type := GET | POST | PUT | DELETE | PATCH.

#[global] Instance HTTPMethod_eq_dec : EqDecision HTTPMethod.
Proof. solve_decision. Defined.

(** [m.value] *)
Definition method_value (m : HTTPMethod) : string :=
  match m with
  | GET => "GET" | POST => "POST" | PUT => "PUT"
  | DELETE => "DELETE" | PATCH => "PATCH"
  end.

(** [HTTPMethod(s)]: lookup by value, [ValueError] when there is none. *)
Definition HTTPMethod_of_value (s : string) : result HTTPMethod :=
  if String.eqb s "GET" then Ok GET
  else if String.eqb s "POST" then Ok POST
  else if String.eqb s "PUT" then Ok PUT
  else if String.eqb s "DELETE" then Ok DELETE
  else if String.eqb s "PATCH" then Ok PATCH
  else Raise ValueError.

(** What [f"{m}"] prints for a member of a [str]-mixed [Enum].  Up to
    Python 3.10 the mixed-in [str.__format__] gives the value; from 3.11
    on [Enum.__format__] gives [str(m)], the qualified member name. *)
Definition format_method (py311 : bool) (m : HTTPMethod) : string :=
  if py311 then "HTTPMethod." +:+ method_value m else method_value m.

(** Values as [json.loads] builds them. *)
Inductive json : Type :=
| JNull
| JBool (b : bool)
| JNum (n : Z)
| JStr (s : string)
| JArr (l : list json)
| JObj (d : list (string * json)).

(** A [dict] with [str] keys, in insertion order. *)
Abbreviation dict := (list (string * json)).

(** [class APIEndpoint(BaseModel)] *)
Record APIEndpoint : Type := mkAPIEndpoint {
  url : string;
  method : HTTPMethod;
  description : option string;
  parameters : option dict;
  request_body : option json;
  response_schema : option json;
  authentication_required : bool;
  tags : list string
}.

(** ** Python values: truth, lookup, update *)

Module Py.

(** [bool(v)] *)
Definition truthy (v : json) : bool :=
  match v with
  | JNull => false
  | JBool b => b
  | JNum n => negb (n =? 0)%Z
  | JStr s => negb (String.eqb s "")
  | JArr l => match l with [] => false | _ => true end
  | JObj d => match d with [] => false | _ => true end
  end.

(** [k in d] and [d.get(k)] on the association list of a [dict] *)
Fixpoint lookup (k : string) (d : dict) : option json :=
  match d with
  | [] => None
  | (k', v) :: r => if String.eqb k' k then Some v else lookup k r
  end.

Definition mem (k : string) (d : dict) : bool :=
  match lookup k d with Some _ => true | None => false end.

(** [d.get(k, dflt)] *)
Definition get (d : dict) (k : string) (dflt : json) : json :=
  match lookup k d with Some v => v | None => dflt end.

(** [v.get(k, dflt)] on any value: only a [dict] has the method. *)
Definition get_attr (v : json) (k : string) (dflt : json) : result json :=
  match v with
  | JObj d => Ok (get d k dflt)
  | _ => Raise AttributeError
  end.

(** [hash(v)] succeeds: lists and dicts are unhashable. *)
Definition hashable (v : json) : bool :=
  match v with
  | JArr _ | JObj _ => false
  | _ => true
  end.

(** [for x in v]: the elements of a list, the keys of a [dict], the
    characters of a [str]; nothing else can be iterated. *)
Fixpoint chars (s : string) : list json :=
  match s with
  | EmptyString => []
  | String c r => JStr (String c EmptyString) :: chars r
  end.

Definition iter (v : json) : result (list json) :=
  match v with
  | JArr l => Ok l
  | JObj d => Ok (List.map (fun kv => JStr (fst kv)) d)
  | JStr s => Ok (chars s)
  | _ => Raise TypeError
  end.

(** [v.items()]: only a [dict] has the method. *)
Definition items (v : json) : result dict :=
  match v with
  | JObj d => Ok d
  | _ => Raise AttributeError
  end.

Definition is_str (k : string) (v : json) : bool :=
  match v with
  | JStr s => String.eqb s k
  | _ => false
  end.

(** [k in v] for a [str] [k]: a key of a [dict], an element of a list, a
    substring of a [str]; on anything else the test raises. *)
Definition contains (k : string) (v : json) : result bool :=
  match v with
  | JObj d => Ok (mem k d)
  | JArr l => Ok (existsb (is_str k) l)
  | JStr s => Ok (PyStr.contains s k)
  | _ => Raise TypeError
  end.

(** [v[k]] for a [str] [k] *)
Definition subscript (v : json) (k : string) : result json :=
  match v with
  | JObj d => match lookup k d with Some x => Ok x | None => Raise KeyError end
  | _ => Raise TypeError
  end.

(** [v[0]] *)
Definition first (v : json) : result json :=
  match v with
  | JArr (x :: _) => Ok x
  | JArr [] => Raise IndexError
  | JStr (String c _) => Ok (JStr (String c EmptyString))
  | JStr EmptyString => Raise IndexError
  | JObj _ => Raise KeyError
  | _ => Raise TypeError
  end.

(** Equality of two hashable keys: [True == 1] and [False == 0]. *)
Definition key_eqb (a b : json) : bool :=
  match a, b with
  | JNull, JNull => true
  | JStr x, JStr y => String.eqb x y
  | JNum x, JNum y => (x =? y)%Z
  | JBool x, JBool y => Bool.eqb x y
  | JBool x, JNum y | JNum y, JBool x => (y =? (if x then 1 else 0))%Z
  | _, _ => false
  end.

(** [str(v)] on the scalars; used where a concrete printer is needed. *)
Definition str_scalar (v : json) : string :=
  match v with
  | JNull => "None"
  | JBool true => "True"
  | JBool false => "False"
  | JNum n => pretty n
  | JStr s => s
  | JArr _ => "[...]"
  | JObj _ => "{...}"
  end.

Section Format.

(** Python's built-in [str()], which an f-string applies to a value; on
    a [str] it is the identity. *)
Variable py_str : json -> string.

Definition format (v : json) : string :=
  match v with
  | JStr s => s
  | _ => py_str v
  end.

End Format.

End Py.

(** A [dict] under construction, whose keys are whatever was stored. *)
Abbreviation pdict := (list (json * json)).

Module PDict.

Fixpoint lookup (k : json) (d : pdict) : option json :=
  match d with
  | [] => None
  | (k', v) :: r => if Py.key_eqb k' k then Some v else lookup k r
  end.

Definition mem (k : json) (d : pdict) : bool :=
  match lookup k d with Some _ => true | None => false end.

Fixpoint set_loop (k v : json) (d : pdict) : pdict :=
  match d with
  | [] => [(k, v)]
  | (k', v') :: r =>
      if Py.key_eqb k' k then (k', v) :: r else (k', v') :: set_loop k v r
  end.

(** [d[k] = v]: the key is hashed first. *)
Definition set (k v : json) (d : pdict) : result pdict :=
  if Py.hashable k then Ok (set_loop k v d) else Raise TypeError.

(** A [dict] whose keys are all texts, as [Dict[str, Any]] asks. *)
Fixpoint to_dict (d : pdict) : option dict :=
  match d with
  | [] => Some []
  | (JStr k, v) :: r =>
      match to_dict r with
      | Some r' => Some ((k, v) :: r')
      | None => None
      end
  | _ => None
  end.

End PDict.

(** ** api_discoverer.py *)

Module ApiDiscoverer.

Section Dedup.

Variable py311 : bool.

(** [key = f"{endpoint.url}:{endpoint.method}"] *)
Definition endpoint_key (endpoint : APIEndpoint) : string :=
  url endpoint +:+ ":" +:+ format_method py311 (method endpoint).

(** The loop of [_deduplicate_endpoints], with its two locals. *)
Fixpoint dedup_loop (seen : gset string) (unique : list APIEndpoint)
    (endpoints : list APIEndpoint) : list APIEndpoint :=
  match endpoints with
  | [] => unique
  | endpoint :: rest =>
      let key := endpoint_key endpoint in
      if decide (key ∈ seen) then dedup_loop seen unique rest
      else dedup_loop ({[key]} ∪ seen) (unique ++ [endpoint]) rest
  end.

Definition _deduplicate_endpoints (endpoints : list APIEndpoint)
  : list APIEndpoint :=
  dedup_loop ∅ [] endpoints.

End Dedup.

(** The identity of a record: its [(method, url)] pair. *)
Definition identity (endpoint : APIEndpoint) : HTTPMethod * string :=
  (method endpoint, url endpoint).

Definition has_identity (k : HTTPMethod * string) (endpoint : APIEndpoint) : bool :=
  bool_decide (identity endpoint = k).

(** The two records of the scenario: the same identity, two descriptions. *)
Definition users_A : APIEndpoint :=
  mkAPIEndpoint "/users" GET (Some "A") None None None false [].
Definition users_B : APIEndpoint :=
  mkAPIEndpoint "/users" GET (Some "B") None None None false [].

End ApiDiscoverer.

(** ** mcp_server_generator.py *)

Module McpServerGenerator.

(** The chain of [.replace(old, new)] calls applied to [endpoint.url]. *)
Definition name_replacements : list (string * string) :=
  [("/", "_"); ("{", ""); ("}", ""); ("-", "_"); (":", "_"); (".", "_");
   ("?", "_"); ("&", "_"); ("=", "_"); ("+", "_"); ("@", "_"); ("#", "_");
   ("$", "_"); ("%", "_"); ("^", "_"); ("*", "_"); ("(", "_"); (")", "_");
   ("[", "_"); ("]", "_"); ("{", "_"); ("}", "_"); ("|", "_"); ("\", "_");
   (";", "_"); (PyStr.dquote, "_"); ("'", "_"); ("<", "_"); (">", "_");
   (",", "_"); ("!", "_"); ("~", "_"); ("`", "_")].

Definition clean_url (u : string) : string :=
  fold_left (fun acc r => PyStr.replace (fst r) (snd r) acc) name_replacements u.

(** [re.sub(r'_+', '_', s)] *)
Fixpoint collapse_underscores (s : string) : string :=
  match s with
  | EmptyString => EmptyString
  | String c r =>
      if Ascii.eqb c "_" then
        match r with
        | String c' _ =>
            if Ascii.eqb c' "_" then collapse_underscores r
            else String c (collapse_underscores r)
        | EmptyString => String c EmptyString
        end
      else String c (collapse_underscores r)
  end.

(** [tool_name and tool_name[0].isdigit()] *)
Definition starts_with_digit (s : string) : bool :=
  match s with
  | EmptyString => false
  | String c _ => PyStr.isdigit c
  end.

(** The three statements that compute [tool_name]. *)
Definition tool_name (endpoint : APIEndpoint) : string :=
  let tool_name :=
    PyStr.lower (method_value (method endpoint)) +:+ "_" +:+ clean_url (url endpoint) in
  let tool_name :=
    if starts_with_digit tool_name then "endpoint_" +:+ tool_name else tool_name in
  PyStr.rstrip_char "_" (collapse_underscores tool_name).

(** The literal [dict] that maps parameter types to annotations. *)
Definition python_type_table : list (string * string) :=
  [("string", "str"); ("integer", "int"); ("boolean", "bool");
   ("array", "List[str]"); ("object", "Dict[str, Any]"); ("float", "float");
   ("unknown", "str")].

Fixpoint table_get (k : string) (t : list (string * string)) (dflt : string) : string :=
  match t with
  | [] => dflt
  | (k', v) :: r => if String.eqb k' k then v else table_get k r dflt
  end.

(** [{...}.get(param_type, 'str')]: the key is hashed first. *)
Definition python_type_of (param_type : json) : result string :=
  match param_type with
  | JArr _ | JObj _ => Raise TypeError
  | JStr t => Ok (table_get t python_type_table "str")
  | _ => Ok "str"
  end.

(** The four reads of one parameter: [.get] on a [dict], [getattr] with
    the same defaults on anything else (a value of JSON shape has none of
    the four attributes). *)
Definition param_fields (param_name : string) (param_info : json)
  : json * json * json * json :=
  match param_info with
  | JObj d =>
      (Py.get d "type" (JStr "str"),
       Py.get d "source" (JStr "unknown"),
       Py.get d "description" (JStr (param_name +:+ " parameter")),
       Py.get d "required" (JBool true))
  | _ =>
      (JStr "str", JStr "unknown", JStr (param_name +:+ " parameter"), JBool true)
  end.

(** [required] as the loop tests it. *)
Definition is_required (p : string * json) : bool :=
  let '(_, _, _, required) := param_fields (fst p) (snd p) in Py.truthy required.

(** The annotation the loop derives for a parameter. *)
Definition param_annotation (p : string * json) : string :=
  let '(param_type, _, _, _) := param_fields (fst p) (snd p) in
  try_except (python_type_of param_type) "str".

(** The entry of the signature for a required and for an optional one. *)
Definition render_required (p : string * json) : string :=
  fst p +:+ ": " +:+ param_annotation p.
Definition render_optional (p : string * json) : string :=
  fst p +:+ ": Optional[" +:+ param_annotation p +:+ "] = None".

(** The two ways a parameter can stop the generator: its value is no
    [dict], or its type cannot be hashed. *)
Definition is_dict_item (p : string * json) : bool :=
  match snd p with JObj _ => true | _ => false end.

Definition type_hashable (p : string * json) : bool :=
  let '(t, _, _, _) := param_fields (fst p) (snd p) in Py.hashable t.

(** A parameter the generator can process: a [dict] whose [type] can be
    hashed. *)
Definition processable (p : string * json) : bool :=
  match snd p with
  | JObj d => Py.hashable (Py.get d "type" (JStr "str"))
  | _ => false
  end.

(** The locals the parameter loop appends to. *)
Record ParamLists : Type := mkParamLists {
  description_lines : list string;
  required_params : list string;
  optional_params : list string
}.

Section Generator.

(** Python's built-in [str()], see [Py.format]. *)
Variable py_str : json -> string.

Fixpoint params_loop (items : dict) (acc : ParamLists) : result ParamLists :=
  match items with
  | [] => Ok acc
  | (param_name, param_info) :: rest =>
      let '(param_type, param_source, param_desc, required) :=
        param_fields param_name param_info in
      python_type ← python_type_of param_type;
      let line := "        " +:+ param_name +:+ ": " +:+ python_type +:+ " - "
                  +:+ Py.format py_str param_desc +:+ " ("
                  +:+ Py.format py_str param_source +:+ " parameter)" in
      let acc := mkParamLists (description_lines acc ++ [line])
                   (required_params acc) (optional_params acc) in
      let acc :=
        if Py.truthy required
        then mkParamLists (description_lines acc)
               (required_params acc ++ [param_name +:+ ": " +:+ python_type])
               (optional_params acc)
        else mkParamLists (description_lines acc)
               (required_params acc)
               (optional_params acc ++ [param_name +:+ ": Optional[" +:+ python_type +:+ "] = None"]) in
      params_loop rest acc
  end.

(** [hasattr(endpoint, 'parameters') and endpoint.parameters]: the items to
    loop over, none for [None] and for the empty [dict]. *)
Definition parameter_items (endpoint : APIEndpoint) : dict :=
  match parameters endpoint with
  | Some d => d
  | None => []
  end.

Definition description_or_default (endpoint : APIEndpoint) : string :=
  match description endpoint with
  | Some d => if String.eqb d "" then
                "Execute " +:+ method_value (method endpoint) +:+ " operation on " +:+ url endpoint
              else d
  | None => "Execute " +:+ method_value (method endpoint) +:+ " operation on " +:+ url endpoint
  end.

Definition headers_param : string := "headers: Dict[str, str] = None".

(** [func_params] after [func_params.append("headers: ...")], together
    with the finished [description_lines]. *)
Definition collect_params (endpoint : APIEndpoint) : result (list string * list string) :=
  let description_lines :=
    [method_value (method endpoint) +:+ " request to " +:+ url endpoint;
     "";
     description_or_default endpoint;
     "";
     "Args:"] in
  acc ← params_loop (parameter_items endpoint) (mkParamLists description_lines [] []);
  let func_params := required_params acc ++ optional_params acc in
  let description_lines := McpServerGenerator.description_lines acc ++
    ["        headers: Optional headers for the request (e.g., {" +:+ PyStr.dquote
       +:+ "Authorization" +:+ PyStr.dquote +:+ ": " +:+ PyStr.dquote +:+ "Bearer token"
       +:+ PyStr.dquote +:+ "})";
     "";
     "Returns:";
     "        Response data including status_code, data, success flag, and headers"] in
  Ok (description_lines, func_params ++ [headers_param]).

Definition func_params (endpoint : APIEndpoint) : result (list string) :=
  snd <$> collect_params endpoint.

(** [production_base_url.rstrip("/")] in quotes, or the name [BASE_URL]. *)
Definition url_base (production_base_url : option string) : string :=
  match production_base_url with
  | Some b => if String.eqb b "" then "BASE_URL"
              else PyStr.dquote +:+ PyStr.rstrip_char "/" b +:+ PyStr.dquote
  | None => "BASE_URL"
  end.

(** The loop that builds [url_template]: every path-sourced parameter is
    replaced in the path by its own placeholder. *)
Fixpoint url_template_loop (items : dict) (url_template : string) : result string :=
  match items with
  | [] => Ok url_template
  | (param_name, param_info) :: rest =>
      source ← Py.get_attr param_info "source" JNull;
      if Py.is_str "path" source then
        url_template_loop rest
          (PyStr.replace ("{" +:+ param_name +:+ "}") ("{" +:+ param_name +:+ "}")
             url_template)
      else url_template_loop rest url_template
  end.

Definition url_template (endpoint : APIEndpoint) : result string :=
  url_template_loop (parameter_items endpoint) (url endpoint).

(** [[name for name, info in ... if info.get('source') == 'body']] *)
Fixpoint body_params (items : dict) : result (list string) :=
  match items with
  | [] => Ok []
  | (name, info) :: rest =>
      source ← Py.get_attr info "source" JNull;
      names ← body_params rest;
      if Py.is_str "body" source then Ok (name :: names) else Ok names
  end.

Definition is_mutating (m : HTTPMethod) : bool :=
  match m with
  | POST | PUT | PATCH => true
  | GET | DELETE => false
  end.

Definition data_prep_lines (endpoint : APIEndpoint) : result (list string) :=
  match parameter_items endpoint with
  | [] => Ok []
  | items =>
      body_params ← body_params items;
      match body_params with
      | [] => Ok []
      | _ =>
          if is_mutating (method endpoint) then
            let body_dict :=
              "{" +:+ PyStr.join ", "
                       (List.map (fun p => PyStr.dquote +:+ p +:+ PyStr.dquote +:+ ": " +:+ p) body_params)
              +:+ "}" in
            Ok ["data = " +:+ body_dict;
                "data = {k: v for k, v in data.items() if v is not None}"]
          else Ok []
      end
  end.

Definition _generate_fastmcp_tool (endpoint : APIEndpoint)
    (production_base_url : option string) : result string :=
  let tool_name := tool_name endpoint in
  '(description_lines, func_params) ← collect_params endpoint;
  let func_signature := PyStr.join ", " func_params in
  let description := PyStr.join (PyStr.nl +:+ "    ") description_lines in
  let url_base := url_base production_base_url in
  url_template ← url_template endpoint;
  let url_construction :=
    "url = f" +:+ PyStr.dquote +:+ url_base +:+ url_template +:+ PyStr.dquote in
  data_prep_lines ← data_prep_lines endpoint;
  let method_call :=
    match data_prep_lines with
    | [] => "return asyncio.run(make_request(" +:+ PyStr.dquote
            +:+ method_value (method endpoint) +:+ PyStr.dquote +:+ ", url, None, headers))"
    | _ => "return asyncio.run(make_request(" +:+ PyStr.dquote
           +:+ method_value (method endpoint) +:+ PyStr.dquote +:+ ", url, data, headers))"
    end in
  let tool_code_lines :=
    ["";
     "@mcp.tool";
     "def " +:+ tool_name +:+ "(" +:+ func_signature +:+ ") -> Dict[str, Any]:";
     "    " +:+ PyStr.dquote +:+ PyStr.dquote +:+ PyStr.dquote;
     "    " +:+ description;
     "    " +:+ PyStr.dquote +:+ PyStr.dquote +:+ PyStr.dquote;
     "    " +:+ url_construction]
    ++ List.map (fun line => "    " +:+ line) data_prep_lines
    ++ ["    " +:+ method_call] in
  Ok (PyStr.join PyStr.nl tool_code_lines).

(** The loop of [_generate_fastmcp_python_code] that fills
    [endpoint_tools]: no handler around the call, the first exception
    leaves the loop and the function. *)
Fixpoint endpoint_tools (endpoints : list APIEndpoint)
    (production_base_url : option string) : result (list string) :=
  match endpoints with
  | [] => Ok []
  | endpoint :: rest =>
      tool_code ← _generate_fastmcp_tool endpoint production_base_url;
      tools ← endpoint_tools rest production_base_url;
      Ok (tool_code :: tools)
  end.

End Generator.

(** An endpoint whose path has a placeholder and which has no parameter. *)
Definition user_by_id : APIEndpoint :=
  mkAPIEndpoint "/users/{id}" GET None None None None false [].

(** An endpoint whose path holds a space. *)
Definition search_items : APIEndpoint :=
  mkAPIEndpoint "/search items" GET None None None None false [].

(** An endpoint with an optional parameter found before two required ones. *)
Definition create_order : APIEndpoint :=
  mkAPIEndpoint "/orders/{id}" POST (Some "Create an order")
    (Some [("note", JObj [("type", JStr "string"); ("source", JStr "body");
                          ("required", JBool false)]);
           ("id", JObj [("type", JStr "integer"); ("source", JStr "path");
                        ("required", JBool true)]);
           ("qty", JObj [("type", JStr "integer"); ("source", JStr "body")])])
    None None false [].

End McpServerGenerator.

(** ** json_analyzer.py: parameter extraction *)

Module JsonAnalyzer.

(** [re.findall(r'\{([^}]+)\}', path)].  [inside] holds the characters
    read since the opening brace of the attempt under way.  An attempt
    that meets the closing brace at once, or the end of the text, fails,
    and so does every attempt that starts later inside it. *)
Fixpoint brace_scan (inside : option string) (s : string) : list string :=
  match s with
  | EmptyString => []
  | String c r =>
      match inside with
      | None =>
          if Ascii.eqb c "{" then brace_scan (Some EmptyString) r
          else brace_scan None r
      | Some acc =>
          if Ascii.eqb c "}" then
            match acc with
            | EmptyString => brace_scan None r
            | _ => acc :: brace_scan None r
            end
          else brace_scan (Some (acc +:+ String c EmptyString)) r
      end
  end.

Definition find_brace_params (path : string) : list string :=
  brace_scan None path.

Inductive colon_state : Type :=
| Outside
| AfterColon
| InName (acc : string).

(** [re.findall] of a colon followed by a captured identifier (a letter
    or underscore, then letters, digits and underscores, as many as
    there are) in [url_path]. *)
Fixpoint colon_scan (st : colon_state) (s : string) : list string :=
  match s with
  | EmptyString =>
      match st with
      | InName acc => [acc]
      | _ => []
      end
  | String c r =>
      match st with
      | Outside =>
          if Ascii.eqb c ":" then colon_scan AfterColon r else colon_scan Outside r
      | AfterColon =>
          if PyStr.ident_start c then colon_scan (InName (String c EmptyString)) r
          else if Ascii.eqb c ":" then colon_scan AfterColon r
          else colon_scan Outside r
      | InName acc =>
          if PyStr.ident_char c then colon_scan (InName (acc +:+ String c EmptyString)) r
          else acc :: (if Ascii.eqb c ":" then colon_scan AfterColon r
                       else colon_scan Outside r)
      end
  end.

Definition find_colon_params (url_path : string) : list string :=
  colon_scan Outside url_path.

(** The five-key [dict] every extractor stores for a parameter. *)
Definition param_entry (name type source required description : json) : json :=
  JObj [("name", name); ("type", type); ("source", source);
        ("required", required); ("description", description)].

Definition path_entry (param_name : string) : json :=
  param_entry (JStr param_name) (JStr "string") (JStr "path") (JBool true)
    (JStr (param_name +:+ " path parameter")).

(** [source_map.get(param_in, "query")] over a literal table *)
Definition source_map_get (table : list (string * string)) (param_in : json)
  : result string :=
  match param_in with
  | JArr _ | JObj _ => Raise TypeError
  | JStr s => Ok (McpServerGenerator.table_get s table "query")
  | _ => Ok "query"
  end.

Definition openapi_source_map : list (string * string) :=
  [("query", "query"); ("path", "path"); ("header", "header"); ("cookie", "header")].

(** The source an OpenAPI location is given. *)
Definition openapi_source (location : string) : string :=
  McpServerGenerator.table_get location openapi_source_map "query".

Definition swagger_source_map : list (string * string) :=
  [("query", "query"); ("path", "path"); ("header", "header");
   ("formData", "body"); ("body", "body")].

Section Extractors.

Variable py_str : json -> string.

(** [json.loads] on the text of a raw request body; [None] stands for
    [json.JSONDecodeError]. *)
Variable json_loads : string -> option json.

(** One turn of the first loop of [_extract_openapi_parameters]. *)
Definition openapi_declared_step (param : json) (parameters : pdict) : result pdict :=
  param_name ← Py.get_attr param "name" JNull;
  if negb (Py.truthy param_name) then Ok parameters
  else
    schema ← Py.get_attr param "schema" (JObj []);
    param_type ← Py.get_attr schema "type" (JStr "string");
    param_in ← Py.get_attr param "in" (JStr "query");
    required ← Py.get_attr param "required" (JBool false);
    description ← Py.get_attr param "description"
                    (JStr (Py.format py_str param_name +:+ " parameter"));
    source ← source_map_get openapi_source_map param_in;
    PDict.set param_name
      (param_entry param_name param_type (JStr source) required description)
      parameters.

(** One turn of the loop of [_extract_swagger_parameters]. *)
Definition swagger_declared_step (param : json) (parameters : pdict) : result pdict :=
  param_name ← Py.get_attr param "name" JNull;
  if negb (Py.truthy param_name) then Ok parameters
  else
    param_type ← Py.get_attr param "type" (JStr "string");
    param_in ← Py.get_attr param "in" (JStr "query");
    required ← Py.get_attr param "required" (JBool false);
    description ← Py.get_attr param "description"
                    (JStr (Py.format py_str param_name +:+ " parameter"));
    source ← source_map_get swagger_source_map param_in;
    PDict.set param_name
      (param_entry param_name param_type (JStr source) required description)
      parameters.

(** [for x in xs: parameters = step x parameters], leaving at the first
    exception. *)
Fixpoint for_each {A : Type} (step : A -> pdict -> result pdict) (xs : list A)
    (parameters : pdict) : result pdict :=
  match xs with
  | [] => Ok parameters
  | x :: r => parameters ← step x parameters; for_each step r parameters
  end.

(** The second loop of [_extract_openapi_parameters]: a placeholder is
    added only when its name is not a key yet. *)
Definition add_missing_path_param (param_name : string) (parameters : pdict)
  : result pdict :=
  if PDict.mem (JStr param_name) parameters then Ok parameters
  else PDict.set (JStr param_name) (path_entry param_name) parameters.

(** The collection exports store the placeholder whatever is there. *)
Definition put_path_param (param_name : string) (parameters : pdict)
  : result pdict :=
  PDict.set (JStr param_name) (path_entry param_name) parameters.

(** The innermost loop over [properties.items()] of the request body. *)
Definition openapi_property_step (schema : json) (prop : string * json)
    (parameters : pdict) : result pdict :=
  let '(prop_name, prop_data) := prop in
  prop_type ← Py.get_attr prop_data "type" (JStr "string");
  required_names ← Py.get_attr schema "required" (JArr []);
  required ← Py.contains prop_name required_names;
  description ← Py.get_attr prop_data "description"
                  (JStr (prop_name +:+ " body parameter"));
  PDict.set (JStr prop_name)
    (param_entry (JStr prop_name) prop_type (JStr "body") (JBool required) description)
    parameters.

(** The loop over [content.items()] of the request body. *)
Definition openapi_content_step (content : string * json) (parameters : pdict)
  : result pdict :=
  let '(content_type, content_data) := content in
  if PyStr.contains content_type "application/json" then
    schema ← Py.get_attr content_data "schema" (JObj []);
    properties ← Py.get_attr schema "properties" (JObj []);
    props ← Py.items properties;
    for_each (openapi_property_step schema) props parameters
  else Ok parameters.

Definition openapi_request_body (method_data : json) (parameters : pdict)
  : result pdict :=
  has_body ← Py.contains "requestBody" method_data;
  if (has_body : bool) then
    request_body ← Py.subscript method_data "requestBody";
    content ← Py.get_attr request_body "content" (JObj []);
    contents ← Py.items content;
    for_each openapi_content_step contents parameters
  else Ok parameters.

(** The first loop, over [method_data.get("parameters", [])]. *)
Definition openapi_declared (method_data : json) : result pdict :=
  declared ← Py.get_attr method_data "parameters" (JArr []);
  params ← Py.iter declared;
  for_each openapi_declared_step params [].

Definition _extract_openapi_parameters (method_data : json) (path : string)
  : result pdict :=
  parameters ← openapi_declared method_data;
  parameters ← for_each add_missing_path_param (find_brace_params path) parameters;
  openapi_request_body method_data parameters.

Definition _extract_swagger_parameters (method_data : json) (path : string)
  : result pdict :=
  declared ← Py.get_attr method_data "parameters" (JArr []);
  params ← Py.iter declared;
  for_each swagger_declared_step params [].

(** [x.lower() not in ["content-type", "accept"]] for a truthy [x] *)
Definition not_content_header (header_name : json) : result bool :=
  match header_name with
  | JStr h =>
      let l := PyStr.lower h in
      Ok (negb (String.eqb l "content-type" || String.eqb l "accept"))
  | _ => Raise AttributeError
  end.

Definition not_disabled (d : dict) : json :=
  JBool (negb (Py.truthy (Py.get d "disabled" (JBool false)))).

(** One turn of the query loop of [_extract_postman_parameters]. *)
Definition postman_query_step (param : json) (parameters : pdict) : result pdict :=
  match param with
  | JObj d =>
      let param_name := Py.get d "key" JNull in
      if Py.truthy param_name then
        PDict.set param_name
          (param_entry param_name (JStr "string") (JStr "query") (not_disabled d)
             (Py.get d "description"
                (JStr (Py.format py_str param_name +:+ " query parameter"))))
          parameters
      else Ok parameters
  | _ => Ok parameters
  end.

(** One turn of its header loop. *)
Definition postman_header_step (header : json) (parameters : pdict) : result pdict :=
  match header with
  | JObj d =>
      let header_name := Py.get d "key" JNull in
      if Py.truthy header_name then
        keep ← not_content_header header_name;
        if (keep : bool) then
          PDict.set header_name
            (param_entry header_name (JStr "string") (JStr "header") (not_disabled d)
               (Py.get d "description"
                  (JStr (Py.format py_str header_name +:+ " header"))))
            parameters
        else Ok parameters
      else Ok parameters
  | _ => Ok parameters
  end.

Definition body_entry (key : string) : json :=
  param_entry (JStr key) (JStr "string") (JStr "body") (JBool true)
    (JStr (key +:+ " body parameter")).

Definition postman_body_key_step (kv : string * json) (parameters : pdict)
  : result pdict :=
  PDict.set (JStr (fst kv)) (body_entry (fst kv)) parameters.

(** The [try] block over a raw body: a decoding error is swallowed, a
    body text that is no [str] is a [TypeError] of [json.loads]. *)
Definition postman_raw_body (body : json) (parameters : pdict) : result pdict :=
  raw_body ← Py.get_attr body "raw" (JStr "");
  if Py.truthy raw_body then
    match raw_body with
    | JStr text =>
        match json_loads text with
        | Some (JObj body_data) => for_each postman_body_key_step body_data parameters
        | Some _ => Ok parameters
        | None => Ok parameters
        end
    | _ => Raise TypeError
    end
  else Ok parameters.

(** The query block of [_extract_postman_parameters]. *)
Definition postman_query (request : json) : result pdict :=
  url_data ← Py.get_attr request "url" (JObj []);
  match url_data with
  | JObj d =>
      query_params ← Py.iter (Py.get d "query" (JArr []));
      for_each postman_query_step query_params []
  | _ => Ok []
  end.

(** Its header and body blocks, which follow the scan of the path. *)
Definition postman_header_body (request : json) (parameters : pdict) : result pdict :=
  headers ← Py.get_attr request "header" (JArr []);
  headers ← Py.iter headers;
  parameters ← for_each postman_header_step headers parameters;
  body ← Py.get_attr request "body" (JObj []);
  mode ← Py.get_attr body "mode" JNull;
  if Py.is_str "raw" mode then postman_raw_body body parameters
  else Ok parameters.

Definition _extract_postman_parameters (request : json) (url_path : string)
  : result pdict :=
  parameters ← postman_query request;
  parameters ← for_each put_path_param (find_colon_params url_path) parameters;
  postman_header_body request parameters.

(** One turn of the query loop of [_extract_insomnia_parameters]. *)
Definition insomnia_query_step (param : json) (parameters : pdict) : result pdict :=
  param_name ← Py.get_attr param "name" JNull;
  if Py.truthy param_name then
    disabled ← Py.get_attr param "disabled" (JBool false);
    PDict.set param_name
      (param_entry param_name (JStr "string") (JStr "query")
         (JBool (negb (Py.truthy disabled)))
         (JStr (Py.format py_str param_name +:+ " query parameter")))
      parameters
  else Ok parameters.

(** One turn of its header loop. *)
Definition insomnia_header_step (header : json) (parameters : pdict) : result pdict :=
  header_name ← Py.get_attr header "name" JNull;
  if Py.truthy header_name then
    keep ← not_content_header header_name;
    if (keep : bool) then
      disabled ← Py.get_attr header "disabled" (JBool false);
      PDict.set header_name
        (param_entry header_name (JStr "string") (JStr "header")
           (JBool (negb (Py.truthy disabled)))
           (JStr (Py.format py_str header_name +:+ " header")))
        parameters
    else Ok parameters
  else Ok parameters.

(** The query block of [_extract_insomnia_parameters]. *)
Definition insomnia_query (resource : json) : result pdict :=
  params ← Py.get_attr resource "parameters" (JArr []);
  params ← Py.iter params;
  for_each insomnia_query_step params [].

(** Its header block, which follows the scan of the path. *)
Definition insomnia_headers (resource : json) (parameters : pdict) : result pdict :=
  headers ← Py.get_attr resource "headers" (JArr []);
  headers ← Py.iter headers;
  for_each insomnia_header_step headers parameters.

Definition _extract_insomnia_parameters (resource : json) (url_path : string)
  : result pdict :=
  parameters ← insomnia_query resource;
  parameters ← for_each put_path_param (find_brace_params url_path) parameters;
  insomnia_headers resource parameters.

(** The innermost loop of [_extract_custom_parameters]. *)
Definition custom_param_step (p : string * json) (parameters : pdict) : result pdict :=
  let '(param_name, param_info) := p in
  match param_info with
  | JObj d =>
      PDict.set (JStr param_name)
        (param_entry (JStr param_name)
           (Py.get d "type" (JStr "string"))
           (Py.get d "in" (Py.get d "source" (JStr "query")))
           (Py.get d "required" (JBool false))
           (Py.get d "description" (JStr (param_name +:+ " parameter"))))
        parameters
  | _ =>
      PDict.set (JStr param_name)
        (param_entry (JStr param_name) (JStr "string") (JStr "query") (JBool false)
           (JStr (param_name +:+ " parameter")))
        parameters
  end.

Definition custom_source_step (item : dict) (source : string) (parameters : pdict)
  : result pdict :=
  match Py.lookup source item with
  | Some (JObj param_data) => for_each custom_param_step param_data parameters
  | _ => Ok parameters
  end.

Definition param_sources : list string := ["parameters"; "params"; "args"; "fields"].

Definition _extract_custom_parameters (item : dict) : result pdict :=
  for_each (custom_source_step item) param_sources [].

End Extractors.

(** *** Format detection and the custom endpoint list *)

Inductive AuthType : Type :=
| AuthNONE | AuthBASIC | AuthBEARER | AuthAPI_KEY | AuthOAUTH | AuthSESSION.

(** [class AuthenticationInfo(BaseModel)] *)
Record AuthenticationInfo : Type := mkAuthenticationInfo {
  auth_type : AuthType;
  auth_endpoints : list string;
  auth_parameters : option dict;
  auth_headers : option (list (string * string))
}.

(** [class APIDiscovery(BaseModel)], the fields the analyzers fill. *)
Record APIDiscovery : Type := mkAPIDiscovery {
  base_url : string;
  endpoints : list APIEndpoint;
  authentication : option AuthenticationInfo;
  schemas : dict;
  openapi_specs : list json
}.

(** [v.startswith(p)]: only a [str] has the method. *)
Definition startswith_attr (v : json) (p : string) : result bool :=
  match v with
  | JStr s => Ok (PyStr.startswith s p)
  | _ => Raise AttributeError
  end.

(** [v.upper()] *)
Definition upper_attr (v : json) : result string :=
  match v with
  | JStr s => Ok (PyStr.upper s)
  | _ => Raise AttributeError
  end.

(** [v.lower()] *)
Definition lower_attr (v : json) : result string :=
  match v with
  | JStr s => Ok (PyStr.lower s)
  | _ => Raise AttributeError
  end.

(** [a and b], the right operand evaluated only when the left holds. *)
Definition and_then (a : result bool) (b : result bool) : result bool :=
  x ← a; if (x : bool) then b else Ok false.

(** [a or b], the right operand evaluated only when the left fails. *)
Definition or_else (a : result bool) (b : result bool) : result bool :=
  x ← a; if (x : bool) then Ok true else b.

Definition is_list (v : json) : bool :=
  match v with JArr _ => true | _ => false end.

(** The test on a top-level list: it is not empty and its first item is
    a [dict] with one of the three keys. *)
Definition looks_like_endpoint_list (json_data : json) : bool :=
  match json_data with
  | JArr (JObj first_item :: _) =>
      Py.mem "path" first_item || Py.mem "url" first_item || Py.mem "method" first_item
  | _ => false
  end.

Definition _detect_json_format (json_data : json) : result string :=
  openapi ← and_then (Py.contains "openapi" json_data)
               (v ← Py.get_attr json_data "openapi" (JStr ""); startswith_attr v "3.");
  if (openapi : bool) then Ok "openapi" else
  swagger ← and_then (Py.contains "swagger" json_data)
               (v ← Py.get_attr json_data "swagger" JNull; Ok (Py.is_str "2.0" v));
  if (swagger : bool) then Ok "swagger" else
  postman ← and_then (Py.contains "info" json_data)
              (and_then (Py.contains "item" json_data)
                 (info ← Py.get_attr json_data "info" (JObj []);
                  schema ← Py.get_attr info "schema" JNull;
                  Ok (Py.truthy schema)));
  if (postman : bool) then Ok "postman" else
  insomnia ← and_then (Py.contains "resources" json_data)
               (resources ← Py.subscript json_data "resources"; Ok (is_list resources));
  if (insomnia : bool) then Ok "insomnia" else
  custom ← or_else (Py.contains "endpoints" json_data)
             (or_else (Py.contains "apis" json_data) (Py.contains "routes" json_data));
  if (custom : bool) then Ok "custom_endpoints" else
  if looks_like_endpoint_list json_data then Ok "custom_endpoints"
  else Ok "generic".

Definition auth_type_map : list (string * AuthType) :=
  [("bearer", AuthBEARER); ("basic", AuthBASIC); ("apikey", AuthAPI_KEY);
   ("api_key", AuthAPI_KEY); ("oauth", AuthOAUTH); ("oauth2", AuthOAUTH)].

Fixpoint auth_table_get (k : string) (t : list (string * AuthType)) : AuthType :=
  match t with
  | [] => AuthBEARER
  | (k', v) :: r => if String.eqb k' k then v else auth_table_get k r
  end.

Definition _parse_custom_auth (auth_data : json) : result AuthenticationInfo :=
  t ← Py.get_attr auth_data "type" (JStr "");
  auth_type_str ← lower_attr t;
  match auth_data with
  | JObj d =>
      Ok (mkAuthenticationInfo (auth_table_get auth_type_str auth_type_map) [] (Some d) None)
  | _ => Raise AttributeError
  end.

Definition spec_method_names : list string :=
  ["GET"; "POST"; "PUT"; "DELETE"; "PATCH"; "HEAD"; "OPTIONS"].

(** The common body of [_extract_openapi_auth] and
    [_extract_swagger_auth], from the mapping of the schemes on: the
    first scheme decides. *)
Definition first_scheme_auth (table : list (string * AuthType)) (schemes : json)
  : result (option AuthenticationInfo) :=
  if negb (Py.truthy schemes) then Ok None
  else
    items ← Py.items schemes;
    match items with
    | [] => Ok None
    | (scheme_name, scheme_data) :: _ =>
        t ← Py.get_attr scheme_data "type" (JStr "");
        scheme_type ← lower_attr t;
        Ok (Some (mkAuthenticationInfo (auth_table_get scheme_type table) []
                    (Some [("scheme", scheme_data)]) None))
    end.

Definition _extract_openapi_auth (json_data : json) : result (option AuthenticationInfo) :=
  components ← Py.get_attr json_data "components" (JObj []);
  security_schemes ← Py.get_attr components "securitySchemes" (JObj []);
  first_scheme_auth
    [("apikey", AuthAPI_KEY); ("http", AuthBEARER); ("oauth2", AuthOAUTH);
     ("openidconnect", AuthOAUTH)]
    security_schemes.

Definition _extract_swagger_auth (json_data : json) : result (option AuthenticationInfo) :=
  security_definitions ← Py.get_attr json_data "securityDefinitions" (JObj []);
  first_scheme_auth
    [("apikey", AuthAPI_KEY); ("basic", AuthBASIC); ("oauth2", AuthOAUTH)]
    security_definitions.

Section Parsers.

Variable py_str : json -> string.

(** The constructor [APIEndpoint(url=, method=, description=,
    parameters=, tags=)]: pydantic validates the three untyped arguments
    and raises [ValidationError], or builds the record. *)
Variable new_APIEndpoint :
  string -> HTTPMethod -> json -> pdict -> json -> result APIEndpoint.

(** The constructor [APIDiscovery(base_url=, endpoints=, authentication=,
    schemas=, openapi_specs=)], validated the same way. *)
Variable new_APIDiscovery :
  json -> list APIEndpoint -> option AuthenticationInfo -> json -> list json
  -> result APIDiscovery.

(** The parsers of the two collection formats and of the generic
    format, by format name. *)
Variable parse_other_format : string -> json -> result APIDiscovery.

(** The body of the loop over [path_data.items()], shared by the two
    specification parsers up to the extractor they call. *)
Definition operation_step (extract : json -> string -> result pdict) (path : string)
    (operation : string * json) (endpoints : list APIEndpoint)
  : result (list APIEndpoint) :=
  let '(method, method_data) := operation in
  if negb (PyStr.str_in_list (PyStr.upper method) spec_method_names) then Ok endpoints
  else
    match HTTPMethod_of_value (PyStr.upper method) with
    | Raise _ => Ok endpoints
    | Ok http_method =>
        fallback ← Py.get_attr method_data "description" (JStr "");
        description ← Py.get_attr method_data "summary" fallback;
        parameters ← extract method_data path;
        tags ← Py.get_attr method_data "tags" (JArr []);
        endpoint ← new_APIEndpoint path http_method description parameters tags;
        Ok (endpoints ++ [endpoint])
    end.

Fixpoint operations_loop (extract : json -> string -> result pdict) (path : string)
    (operations : dict) (endpoints : list APIEndpoint) : result (list APIEndpoint) :=
  match operations with
  | [] => Ok endpoints
  | operation :: rest =>
      endpoints ← operation_step extract path operation endpoints;
      operations_loop extract path rest endpoints
  end.

(** The loop over [paths.items()]. *)
Fixpoint paths_loop (extract : json -> string -> result pdict) (paths : dict)
    (endpoints : list APIEndpoint) : result (list APIEndpoint) :=
  match paths with
  | [] => Ok endpoints
  | (path, JObj path_data) :: rest =>
      endpoints ← operations_loop extract path path_data endpoints;
      paths_loop extract rest endpoints
  | _ :: rest => paths_loop extract rest endpoints
  end.

Definition _parse_openapi_spec (json_data : json) : result APIDiscovery :=
  has_servers ← and_then (Py.contains "servers" json_data)
                  (Py.truthy <$> Py.subscript json_data "servers");
  base_url ←
    (if (has_servers : bool) then
       servers ← Py.subscript json_data "servers";
       server ← Py.first servers;
       Py.get_attr server "url" (JStr "https://api.example.com")
     else Ok (JStr "https://api.example.com"));
  paths ← Py.get_attr json_data "paths" (JObj []);
  paths ← Py.items paths;
  endpoints ← paths_loop (_extract_openapi_parameters py_str) paths [];
  auth_info ← _extract_openapi_auth json_data;
  components ← Py.get_attr json_data "components" (JObj []);
  schemas ← Py.get_attr components "schemas" (JObj []);
  new_APIDiscovery base_url endpoints auth_info schemas [json_data].

Definition _parse_swagger_spec (json_data : json) : result APIDiscovery :=
  host ← Py.get_attr json_data "host" (JStr "api.example.com");
  schemes ← Py.get_attr json_data "schemes" (JArr [JStr "https"]);
  base_path ← Py.get_attr json_data "basePath" (JStr "");
  scheme ← Py.first schemes;
  let base_url :=
    JStr (Py.format py_str scheme +:+ "://" +:+ Py.format py_str host
          +:+ Py.format py_str base_path) in
  paths ← Py.get_attr json_data "paths" (JObj []);
  paths ← Py.items paths;
  endpoints ← paths_loop (_extract_swagger_parameters py_str) paths [];
  auth_info ← _extract_swagger_auth json_data;
  schemas ← Py.get_attr json_data "definitions" (JObj []);
  new_APIDiscovery base_url endpoints auth_info schemas [json_data].

(** [endpoint_data] of [_parse_custom_endpoints]: the list itself, or the
    value under the first of the three keys that is present. *)
Definition custom_endpoint_data (json_data : json) : result json :=
  match json_data with
  | JArr _ => Ok json_data
  | _ =>
      e ← Py.contains "endpoints" json_data;
      if (e : bool) then Py.subscript json_data "endpoints" else
      a ← Py.contains "apis" json_data;
      if (a : bool) then Py.subscript json_data "apis" else
      r ← Py.contains "routes" json_data;
      if (r : bool) then Py.subscript json_data "routes" else
      Ok (JArr [])
  end.

(** One turn of the loop over [endpoint_data]; [continue] leaves the
    list of endpoints as it is, and a path that is no text has no
    [startswith]. *)
Definition custom_item_step (item : json) (endpoints : list APIEndpoint)
  : result (list APIEndpoint) :=
  match item with
  | JObj d =>
      method_str ← upper_attr (Py.get d "method" (Py.get d "httpMethod" (JStr "GET")));
      match HTTPMethod_of_value method_str with
      | Raise _ => Ok endpoints
      | Ok http_method =>
          match Py.get d "path" (Py.get d "url" (Py.get d "route" (JStr "/"))) with
          | JStr url_path =>
              let url_path :=
                if PyStr.startswith url_path "/" then url_path else "/" +:+ url_path in
              let description :=
                Py.get d "description" (Py.get d "summary" (Py.get d "name" (JStr ""))) in
              parameters ← _extract_custom_parameters d;
              let tags := Py.get d "tags" (JArr []) in
              let tags := match tags with JStr _ => JArr [tags] | _ => tags end in
              endpoint ← new_APIEndpoint url_path http_method description parameters tags;
              Ok (endpoints ++ [endpoint])
          | _ => Raise AttributeError
          end
      end
  | _ => Ok endpoints
  end.

Fixpoint custom_items_loop (items : list json) (endpoints : list APIEndpoint)
  : result (list APIEndpoint) :=
  match items with
  | [] => Ok endpoints
  | item :: rest =>
      endpoints ← custom_item_step item endpoints;
      custom_items_loop rest endpoints
  end.

Definition _parse_custom_endpoints (json_data : json) : result APIDiscovery :=
  endpoint_data ← custom_endpoint_data json_data;
  items ← Py.iter endpoint_data;
  endpoints ← custom_items_loop items [];
  host ← Py.get_attr json_data "host" (JStr "https://api.example.com");
  base_url ← Py.get_attr json_data "baseUrl" host;
  has_auth ← or_else (Py.contains "auth" json_data) (Py.contains "authentication" json_data);
  auth_info ←
    (if (has_auth : bool) then
       authentication ← Py.get_attr json_data "authentication" (JObj []);
       auth_data ← Py.get_attr json_data "auth" authentication;
       Some <$> _parse_custom_auth auth_data
     else Ok None);
  schemas ← Py.get_attr json_data "schemas" (JObj []);
  new_APIDiscovery base_url endpoints auth_info schemas [].

(** [analyze_json] once [json.loads] has decoded the file. *)
Definition analyze_json (json_data : json) : result APIDiscovery :=
  api_spec_format ← _detect_json_format json_data;
  if String.eqb api_spec_format "openapi" then _parse_openapi_spec json_data
  else if String.eqb api_spec_format "swagger" then _parse_swagger_spec json_data
  else if String.eqb api_spec_format "custom_endpoints"
  then _parse_custom_endpoints json_data
  else parse_other_format api_spec_format json_data.

End Parsers.


(** *** The constructors under pydantic 2

    On values of JSON shape, the default mode of pydantic 2 accepts a
    [str] field only from a text, [Optional[str]] also from [None],
    [List[str]] from a list of texts and [Dict[str, Any]] from a [dict]
    whose keys are texts. *)

Fixpoint texts (l : list json) : option (list string) :=
  match l with
  | [] => Some []
  | JStr s :: r =>
      match texts r with
      | Some r' => Some (s :: r')
      | None => None
      end
  | _ => None
  end.

Definition pydantic2_APIEndpoint (url : string) (m : HTTPMethod)
    (description : json) (parameters : pdict) (tags : json) : result APIEndpoint :=
  match description, PDict.to_dict parameters, tags with
  | JStr d, Some ps, JArr l =>
      match texts l with
      | Some ts => Ok (mkAPIEndpoint url m (Some d) (Some ps) None None false ts)
      | None => Raise ValidationError
      end
  | JNull, Some ps, JArr l =>
      match texts l with
      | Some ts => Ok (mkAPIEndpoint url m None (Some ps) None None false ts)
      | None => Raise ValidationError
      end
  | _, _, _ => Raise ValidationError
  end.

Definition pydantic2_APIDiscovery (base_url : json) (endpoints : list APIEndpoint)
    (authentication : option AuthenticationInfo) (schemas : json)
    (openapi_specs : list json) : result APIDiscovery :=
  match base_url, schemas with
  | JStr b, JObj sch => Ok (mkAPIDiscovery b endpoints authentication sch openapi_specs)
  | _, _ => Raise ValidationError
  end.

(** A stand-in for the parsers of the other formats where none of them
    is reached. *)
Definition no_other_format (format : string) (json_data : json) : result APIDiscovery :=
  Raise ValueError.

(** *** Documents used below *)

(** [[{"path": "/users", "method": "GET"}]] *)
Definition users_list : json :=
  JArr [JObj [("path", JStr "/users"); ("method", JStr "GET")]].

(** The same entry under the key [routes]. *)
Definition users_routes : json :=
  JObj [("routes", users_list)].

(** The custom document of the specification's scenario. *)
Definition orders_routes : json :=
  JObj [("routes",
         JArr [JObj [("method", JStr "post"); ("path", JStr "orders");
                     ("parameters",
                      JObj [("qty", JObj [("in", JStr "body");
                                          ("required", JBool true)])])]])].

(** An operation that declares a cookie parameter. *)
Definition cookie_operation : json :=
  JObj [("parameters",
         JArr [JObj [("name", JStr "session"); ("in", JStr "cookie");
                     ("required", JBool true)]])].

(** An operation on [/users/{id}] whose JSON body has a property [id]. *)
Definition update_user_operation : json :=
  JObj [("requestBody",
         JObj [("content",
                JObj [("application/json",
                       JObj [("schema",
                              JObj [("properties",
                                     JObj [("id", JObj [("type", JStr "integer")]);
                                           ("name", JObj [("type", JStr "string")])])])])])])].


(** An operation with nothing declared. *)
Definition bare_operation : json := JObj [].

(** The OpenAPI document of the specification's scenario. *)
Definition users_openapi : json :=
  JObj [("openapi", JStr "3.0.0");
        ("paths",
         JObj [("/users/{id}",
                JObj [("get",
                       JObj [("parameters",
                              JArr [JObj [("name", JStr "id"); ("in", JStr "path");
                                          ("required", JBool true);
                                          ("schema", JObj [("type", JStr "integer")])]])])])])].

(** An OpenAPI document whose one operation is [update_user_operation]
    under PUT [/users/{id}]. *)
Definition update_user_openapi : json :=
  JObj [("openapi", JStr "3.0.0");
        ("paths", JObj [("/users/{id}", JObj [("put", update_user_operation)])])].

(** A Swagger document with one operation, nothing declared. *)
Definition bare_swagger : json :=
  JObj [("swagger", JStr "2.0");
        ("paths", JObj [("/users/{id}", JObj [("get", bare_operation)])])].


(** A collection request on a path with a placeholder. *)
Definition postman_request : json :=
  JObj [("method", JStr "GET");
        ("url", JObj [("path", JArr [JStr "users"; JStr ":id"]);
                      ("query", JArr [JObj [("key", JStr "verbose")]])]);
        ("header", JArr [JObj [("key", JStr "X-Trace")]])].


End JsonAnalyzer.

(** ** pdf_analyzer.py *)

Module PdfAnalyzer.

(** A character that [str.strip()] removes and that the pattern class for
    white space matches. *)
Definition is_space (c : ascii) : bool :=
  let n := nat_of_ascii c in
  ((9 <=? n)%nat && (n <=? 13)%nat) || ((28 <=? n)%nat && (n <=? 32)%nat)
  || (n =? 133)%nat || (n =? 160)%nat.

Fixpoint lstrip (drop : ascii -> bool) (s : string) : string :=
  match s with
  | EmptyString => EmptyString
  | String c r => if drop c then lstrip drop r else s
  end.

Fixpoint rstrip (drop : ascii -> bool) (s : string) : string :=
  match s with
  | EmptyString => EmptyString
  | String c r =>
      match rstrip drop r with
      | EmptyString => if drop c then EmptyString else String c EmptyString
      | r' => String c r'
      end
  end.

(** [s.strip()] *)
Definition strip (s : string) : string := rstrip is_space (lstrip is_space s).

(** The characters dropped from the right of a matched path: full stop,
    comma, semicolon, colon and the double quote. *)
Definition is_trailing_punct (c : ascii) : bool :=
  let n := nat_of_ascii c in
  (n =? 46)%nat || (n =? 44)%nat || (n =? 59)%nat || (n =? 58)%nat || (n =? 34)%nat.

(** [s.endswith(p)] *)
Fixpoint endswith (s p : string) : bool :=
  if String.eqb s p then true
  else match s with
       | EmptyString => false
       | String _ r => endswith r p
       end.

(** A pattern that closes on the end anchor matches at the end of the
    text and before a final line feed. *)
Definition ends_at_anchor (s p : string) : bool :=
  endswith s p || endswith s (p +:+ PyStr.nl).

Definition file_extensions : list string :=
  ["html"; "htm"; "css"; "js"; "png"; "jpg"; "jpeg"; "gif"; "pdf"].

Fixpoint all_space (s : string) : bool :=
  match s with
  | EmptyString => true
  | String c r => is_space c && all_space r
  end.

(** [re.search(p, path, re.IGNORECASE)] for the five entries of
    [invalid_patterns], in their order. *)
Definition invalid_patterns : list (string -> bool) :=
  [ (fun path => existsb (fun e => ends_at_anchor (PyStr.lower path) ("." +:+ e))
                   file_extensions);
    (fun path => String.prefix "/static/" (PyStr.lower path));
    (fun path => String.prefix "/assets/" (PyStr.lower path));
    (fun path => String.prefix "/public/" (PyStr.lower path));
    all_space ].

Definition _is_valid_api_path (path : string) : bool :=
  if negb (PyStr.startswith path "/") then false
  else if (String.length path <? 2)%nat || (200 <? String.length path)%nat then false
  else negb (existsb (fun invalid_pattern => invalid_pattern path) invalid_patterns).

(** A match object: [groups()], [start()] and [end()]. *)
Record Match : Type := mkMatch {
  groups : list string;
  m_start : nat;
  m_end : nat
}.

Definition methods_alt : string := "(GET|POST|PUT|DELETE|PATCH)".

(** The nine entries of [patterns]. *)
Definition patterns : list string :=
  [ methods_alt +:+ "\s+(/[^\s\n]+)";
    methods_alt +:+ "\s+`([^`]+)`";
    "`" +:+ methods_alt +:+ "\s+([^`]+)`";
    methods_alt +:+ ":\s*(/[^\s\n]+)";
    "paths:\s*\n\s*([^\s:]+):";
    PyStr.dquote +:+ "/([^" +:+ PyStr.dquote +:+ "]+)" +:+ PyStr.dquote
      +:+ "\s*:\s*\n\s*(get|post|put|delete|patch):";
    methods_alt +:+ "\s+https?://[^/\s]+(/[^\s\n]+)";
    "curl.*?-X\s+" +:+ methods_alt +:+ "\s+[" +:+ PyStr.dquote +:+ "\']?([^"
      +:+ PyStr.dquote +:+ "\'\s]+)";
    "^#+\s*" +:+ methods_alt +:+ "\s+(/[^\n]+)" ].

(** [text_content[context_start:context_end]] *)
Definition _extract_endpoint_context (text_content : string) (start_pos end_pos : nat)
  : string :=
  let context_start := Nat.max 0 (start_pos - 500) in
  let context_end := Nat.min (String.length text_content) (end_pos + 500) in
  String.substring context_start (context_end - context_start) text_content.

(** [any(ep.url == path and ep.method == method for ep in endpoints)] *)
Definition already_found (path : string) (m : HTTPMethod) (endpoints : list APIEndpoint)
  : bool :=
  existsb (fun ep => String.eqb (url ep) path && bool_decide (method ep = m)) endpoints.

(** [endpoints.sort(key=lambda x: x.url)]: a stable sort, records of one
    url keep their order. *)
Fixpoint insert_by_url (x : APIEndpoint) (l : list APIEndpoint) : list APIEndpoint :=
  match l with
  | [] => [x]
  | y :: r =>
      if String.leb (url x) (url y) then x :: y :: r
      else y :: insert_by_url x r
  end.

Fixpoint sort_by_url (l : list APIEndpoint) : list APIEndpoint :=
  match l with
  | [] => []
  | x :: r => insert_by_url x (sort_by_url r)
  end.

Section Extractor.

(** [re.finditer(pattern, text_content, re.MULTILINE | re.IGNORECASE)],
    the matches from left to right. *)
Variable re_finditer : string -> string -> list Match.

(** The three readers of the text around a match. *)
Variable _extract_parameters_from_context : string -> dict.
Variable _extract_description_from_context : string -> option string.
Variable _extract_tags_from_context : string -> list string.

(** The body of the inner loop for one match. *)
Definition process_match (text_content : string) (mt : Match)
    (endpoints : list APIEndpoint) : list APIEndpoint :=
  match groups mt with
  | g1 :: g2 :: _ =>
      let method_str := PyStr.upper g1 in
      let path := strip g2 in
      let path := rstrip is_trailing_punct path in
      match HTTPMethod_of_value (PyStr.upper method_str) with
      | Raise _ => endpoints
      | Ok m =>
          if negb (_is_valid_api_path path) then endpoints
          else
            let endpoint_context :=
              _extract_endpoint_context text_content (m_start mt) (m_end mt) in
            let endpoint :=
              mkAPIEndpoint path m
                (_extract_description_from_context endpoint_context)
                (Some (_extract_parameters_from_context endpoint_context))
                None None false
                (_extract_tags_from_context endpoint_context) in
            if negb (already_found path m endpoints) then endpoints ++ [endpoint]
            else endpoints
      end
  | _ => endpoints
  end.

Definition process_pattern (text_content : string) (endpoints : list APIEndpoint)
    (pattern : string) : list APIEndpoint :=
  fold_left (fun eps mt => process_match text_content mt eps)
    (re_finditer pattern text_content) endpoints.

Definition _extract_api_endpoints (text_content : string) : list APIEndpoint :=
  sort_by_url (fold_left (process_pattern text_content) patterns []).

End Extractor.

(** The invariant of the extraction loops. *)
Definition all_valid (endpoints : list APIEndpoint) : Prop :=
  forall ep, ep ∈ endpoints -> _is_valid_api_path (url ep) = true.

(** *** Marker segments

    The segments the specification calls API-like: [api], [rest], and a
    version segment, the letter v followed by digits. *)

(** [path.split("/")] *)
Fixpoint split_slash (current : string) (path : string) : list string :=
  match path with
  | EmptyString => [current]
  | String c r =>
      if Ascii.eqb c "/" then current :: split_slash EmptyString r
      else split_slash (current +:+ String c EmptyString) r
  end.

Definition is_decimal (c : ascii) : bool :=
  (48 <=? nat_of_ascii c)%nat && (nat_of_ascii c <=? 57)%nat.

Definition is_version_segment (segment : string) : bool :=
  match segment with
  | String "v" (String d r) => is_decimal d && PyStr.all_chars is_decimal r
  | _ => false
  end.

Definition is_marker_segment (segment : string) : bool :=
  let s := PyStr.lower segment in
  String.eqb s "api" || String.eqb s "rest" || is_version_segment s.

Definition has_marker_segment (path : string) : bool :=
  existsb is_marker_segment (split_slash EmptyString path).

(** *** A text and its matches

    In the text [GET /users] the first pattern matches once, from 0 to
    10, with the groups [GET] and [/users]; the eight others do not
    match, and the three readers find nothing around the match. *)

Definition get_users_text : string := "GET /users".

Definition get_users_finditer (pattern text_content : string) : list Match :=
  if String.eqb pattern (methods_alt +:+ "\s+(/[^\s\n]+)")
  then [mkMatch ["GET"; "/users"] 0 10]
  else [].

Definition get_users_record : APIEndpoint :=
  mkAPIEndpoint "/users" GET None (Some []) None None false [].

End PdfAnalyzer.

(** ** enhanced_analyzer.py *)

Module EnhancedAnalyzer.

(** The value of an [ast.Constant]. *)
Inductive constant : Type :=
| CStr (s : string)
| CInt (n : Z)
| CBool (b : bool)
| CNone
| CBytes (s : string)
| CEllipsis.

(** Python equality of two constants, as a [dict] compares keys. *)
Definition constant_eqb (a b : constant) : bool :=
  match a, b with
  | CStr x, CStr y => String.eqb x y
  | CBytes x, CBytes y => String.eqb x y
  | CInt x, CInt y => (x =? y)%Z
  | CBool x, CBool y => Bool.eqb x y
  | CBool x, CInt y | CInt y, CBool x => (y =? (if x then 1 else 0))%Z
  | CNone, CNone => true
  | CEllipsis, CEllipsis => true
  | _, _ => false
  end.

(** The expression nodes the decorator analysis looks at. *)
Inductive expr : Type :=
| Constant (value : constant)
| Name (id : string)
| Attribute (value : expr) (attr : string)
| Call (func : expr) (args : list expr) (keywords : list (option string * expr))
| List_ (elts : list expr)
| OtherExpr.

(** [ast.FunctionDef] and [ast.AsyncFunctionDef]; [body] stands for what
    the remaining analyses read. *)
Record FunctionDef (Body : Type) : Type := mkFunctionDef {
  name : string;
  decorator_list : list expr;
  body : Body
}.
Arguments mkFunctionDef {Body}.
Arguments name {Body}.
Arguments decorator_list {Body}.
Arguments body {Body}.

(** [{'url': url, 'method': method}] *)
Record RouteInfo : Type := mkRouteInfo {
  route_url : constant;
  route_method : HTTPMethod
}.

(** [@dataclass class EnhancedEndpoint]; [details] gathers the fields
    filled by the parameter, body and framework analyses. *)
Record EnhancedEndpoint (Details : Type) : Type := mkEnhancedEndpoint {
  url : constant;
  method : HTTPMethod;
  handler_function : option string;
  details : Details
}.
Arguments mkEnhancedEndpoint {Details}.
Arguments url {Details}.
Arguments method {Details}.
Arguments handler_function {Details}.
Arguments details {Details}.

Definition http_method_names : list string := ["GET"; "POST"; "PUT"; "DELETE"; "PATCH"].

(** The loop over [keyword.value.elts]: the first element whose upper-cased
    value is a method name decides; a constant that is no text has no
    [upper]. *)
Fixpoint method_from_elts (elts : list expr) : result (option HTTPMethod) :=
  match elts with
  | [] => Ok None
  | Constant (CStr s) :: rest =>
      if PyStr.str_in_list (PyStr.upper s) http_method_names
      then Some <$> HTTPMethod_of_value (PyStr.upper s)
      else method_from_elts rest
  | Constant (CBytes _) :: rest => method_from_elts rest
  | Constant _ :: _ => Raise AttributeError
  | _ :: rest => method_from_elts rest
  end.

Fixpoint _extract_method_from_keywords (keywords : list (option string * expr))
  : result (option HTTPMethod) :=
  match keywords with
  | [] => Ok None
  | (Some "methods", List_ elts) :: rest =>
      found ← method_from_elts elts;
      match found with
      | Some m => Ok (Some m)
      | None => _extract_method_from_keywords rest
      end
  | _ :: rest => _extract_method_from_keywords rest
  end.

(** [decorator.args and isinstance(decorator.args[0], (ast.Constant, ast.Str))] *)
Definition first_constant_arg (args : list expr) : option constant :=
  match args with
  | Constant c :: _ => Some c
  | _ => None
  end.

Definition route_call_names : list string :=
  ["GET"; "POST"; "PUT"; "DELETE"; "PATCH"; "ROUTE"].

Section Decorators.

Variable router_names : gset string.

(** The first [if] of [_analyze_call_decorator]; [None] when it falls
    through to the second. *)
Definition router_call (func : expr) (args : list expr)
    (keywords : list (option string * expr)) : result (option RouteInfo) :=
  match func with
  | Attribute (Name instance_name) attr =>
      if decide (instance_name ∈ router_names) then
        let method := PyStr.upper attr in
        if PyStr.str_in_list method route_call_names then
          match first_constant_arg args with
          | Some url =>
              final_method ←
                (if String.eqb method "ROUTE" then
                   method_from_kw ← _extract_method_from_keywords keywords;
                   match method_from_kw with
                   | Some m => Ok (method_value m)
                   | None => Ok method
                   end
                 else Ok method);
              m ← HTTPMethod_of_value final_method;
              Ok (Some (mkRouteInfo url m))
          | None => Ok None
          end
        else Ok None
      else Ok None
  | _ => Ok None
  end.

(** The second [if]: a bare [route(...)] call. *)
Definition bare_route_call (func : expr) (args : list expr)
    (keywords : list (option string * expr)) : result (option RouteInfo) :=
  match func with
  | Name "route" =>
      match first_constant_arg args with
      | Some url =>
          method_obj ← _extract_method_from_keywords keywords;
          Ok (Some (mkRouteInfo url (default GET method_obj)))
      | None => Ok None
      end
  | _ => Ok None
  end.

Definition _analyze_call_decorator (func : expr) (args : list expr)
    (keywords : list (option string * expr)) : result (option RouteInfo) :=
  r ← router_call func args keywords;
  match r with
  | Some info => Ok (Some info)
  | None => bare_route_call func args keywords
  end.

(** [_analyze_attribute_decorator] and [_analyze_name_decorator] return
    [None]. *)
Definition _analyze_decorator (decorator : expr) : result (option RouteInfo) :=
  match decorator with
  | Call func args keywords => _analyze_call_decorator func args keywords
  | _ => Ok None
  end.

Fixpoint _extract_route_from_decorators (decorators : list expr)
  : result (option RouteInfo) :=
  match decorators with
  | [] => Ok None
  | decorator :: rest =>
      route_info ← _analyze_decorator decorator;
      match route_info with
      | Some info => Ok (Some info)
      | None => _extract_route_from_decorators rest
      end
  end.

Context {Body Details : Type}.

(** The analyses of the parameters, of the body, of the framework and of
    the docstring that fill the rest of the record; they may raise. *)
Variable analyze_details : FunctionDef Body -> RouteInfo -> result Details.

Definition _analyze_python_function (func_node : FunctionDef Body)
  : result (option (EnhancedEndpoint Details)) :=
  route_info ← _extract_route_from_decorators (decorator_list func_node);
  match route_info with
  | None => Ok None
  | Some info =>
      d ← analyze_details func_node info;
      Ok (Some (mkEnhancedEndpoint (route_url info) (route_method info)
                  (Some (name func_node)) d))
  end.

(** The loop over [ast.walk(tree)], given the function definitions it
    meets, in its order. *)
Fixpoint walk_functions (nodes : list (FunctionDef Body))
    (endpoints : list (EnhancedEndpoint Details))
  : result (list (EnhancedEndpoint Details)) :=
  match nodes with
  | [] => Ok endpoints
  | node :: rest =>
      endpoint ← _analyze_python_function node;
      match endpoint with
      | Some ep => walk_functions rest (endpoints ++ [ep])
      | None => walk_functions rest endpoints
      end
  end.

End Decorators.

Section Unique.

Context {Details : Type}.

Definition key_eqb (k k' : HTTPMethod * constant) : bool :=
  bool_decide (fst k = fst k') && constant_eqb (snd k) (snd k').

Definition endpoint_key (ep : EnhancedEndpoint Details) : HTTPMethod * constant :=
  (method ep, url ep).

(** [d[k] = ep] on a [dict] keyed by [(method, url)] tuples. *)
Fixpoint dict_set (k : HTTPMethod * constant) (ep : EnhancedEndpoint Details)
    (d : list ((HTTPMethod * constant) * EnhancedEndpoint Details))
  : list ((HTTPMethod * constant) * EnhancedEndpoint Details) :=
  match d with
  | [] => [(k, ep)]
  | (k', ep') :: r =>
      if key_eqb k' k then (k', ep) :: r else (k', ep') :: dict_set k ep r
  end.

(** [list({ (ep.method, ep.url): ep for ep in endpoints }.values())] *)
Definition unique_endpoints (endpoints : list (EnhancedEndpoint Details))
  : list (EnhancedEndpoint Details) :=
  List.map snd (fold_left (fun d ep => dict_set (endpoint_key ep) ep d) endpoints []).

End Unique.

Section File.

Context {Body Details : Type}.
Variable analyze_details : FunctionDef Body -> RouteInfo -> result Details.

(** [_analyze_python_file] on a parsed tree, given the router names
    [_find_router_instances] returns and the function definitions in the
    order of [ast.walk]; any exception gives the empty list. *)
Definition _analyze_python_file (router_names : gset string)
    (nodes : list (FunctionDef Body)) : list (EnhancedEndpoint Details) :=
  try_except
    (unique_endpoints <$> walk_functions router_names analyze_details nodes [])
    [].

End File.

(** What a constant stands for as a key: [True] and [False] stand for
    the numbers 1 and 0. *)
Inductive constant_value : Type :=
| VText (s : string)
| VBytes (s : string)
| VNumber (n : Z)
| VNone
| VEllipsis.

#[global] Instance constant_value_eq_dec : EqDecision constant_value.
Proof. solve_decision. Defined.

Definition constant_value_of (c : constant) : constant_value :=
  match c with
  | CStr s => VText s
  | CBytes s => VBytes s
  | CInt n => VNumber n
  | CBool b => VNumber (if b then 1 else 0)
  | CNone => VNone
  | CEllipsis => VEllipsis
  end.

Definition key_value_of (k : HTTPMethod * constant) : HTTPMethod * constant_value :=
  (fst k, constant_value_of (snd k)).

(** The record has the [(method, url)] pair [k]. *)
Definition has_pair {Details : Type} (k : HTTPMethod * constant)
    (ep : EnhancedEndpoint Details) : bool :=
  key_eqb k (endpoint_key ep).

(** [d.get(k)] on the [dict] of the comprehension. *)
Fixpoint dict_get {Details : Type} (k : HTTPMethod * constant)
    (d : list ((HTTPMethod * constant) * EnhancedEndpoint Details))
  : option (EnhancedEndpoint Details) :=
  match d with
  | [] => None
  | (k', ep) :: r => if key_eqb k' k then Some ep else dict_get k r
  end.

(** Every entry is stored under a key that its record has. *)
Definition keyed {Details : Type}
    (d : list ((HTTPMethod * constant) * EnhancedEndpoint Details)) : Prop :=
  Forall (fun p => key_value_of (fst p) = key_value_of (endpoint_key (snd p))) d.

(** *** A file with three handlers

    [list_items] and [list_items_v2] are both decorated with
    [@app.get("/items")], [create_item] with [@app.post("/items")]. *)

Definition route_decorator (instance attr path : string) : expr :=
  Call (Attribute (Name instance) attr) [Constant (CStr path)] [].

Definition list_items : FunctionDef unit :=
  mkFunctionDef "list_items" [route_decorator "app" "get" "/items"] tt.
Definition create_item : FunctionDef unit :=
  mkFunctionDef "create_item" [route_decorator "app" "post" "/items"] tt.
Definition list_items_v2 : FunctionDef unit :=
  mkFunctionDef "list_items_v2" [route_decorator "app" "get" "/items"] tt.

(** A handler under a plain [@app.route("/health")]. *)
Definition health : FunctionDef unit :=
  mkFunctionDef "health" [route_decorator "app" "route" "/health"] tt.

Definition default_router_names : gset string := {["app"; "router"]}.

(** A stand-in for the remaining analyses: the name of the handler. *)
Definition handler_name_details (func_node : FunctionDef unit) (info : RouteInfo)
  : result string :=
  Ok (name func_node).

End EnhancedAnalyzer.

(** * Further parts of the sources *)

(** ** Shapes of texts *)

Module Shape.

(** The last character of a text, [s[-1:]]. *)
Fixpoint last_char (s : string) : option ascii :=
  match s with
  | EmptyString => None
  | String c EmptyString => Some c
  | String _ r => last_char r
  end.

(** [s.replace(o, n)] for a one-character [o]: character by character. *)
Fixpoint replace_char (o : ascii) (n : string) (s : string) : string :=
  match s with
  | EmptyString => EmptyString
  | String c r =>
      if Ascii.eqb o c then n +:+ replace_char o n r
      else String c (replace_char o n r)
  end.

(** A character of an identifier, or one that a chain [rs] of one-character
    replacements rewrites. *)
Definition safe_char (rs : list (string * string)) (c : ascii) : bool :=
  PyStr.ident_char c
  || existsb (fun r => String.eqb (fst r) (String c EmptyString)) rs.

Definition name_safe_char : ascii -> bool :=
  safe_char McpServerGenerator.name_replacements.

(** A parameter whose [source] is the text [body]. *)
Definition body_sourced (p : string * json) : bool :=
  match snd p with
  | JObj d => Py.is_str "body" (Py.get d "source" JNull)
  | _ => false
  end.

End Shape.

(** ** Path templates *)

Module Template.

(** A path written as literal text and named holes. *)
Inductive piece : Type :=
| Lit (text : string)
| Hole (name : string).

(** The path in the brace style: a hole is its name in braces. *)
Fixpoint render (ps : list piece) : string :=
  match ps with
  | [] => EmptyString
  | Lit text :: r => text +:+ render r
  | Hole name :: r => "{" +:+ name +:+ "}" +:+ render r
  end.

Fixpoint holes (ps : list piece) : list string :=
  match ps with
  | [] => []
  | Lit _ :: r => holes r
  | Hole name :: r => name :: holes r
  end.

(** The literal text opens no brace; a name is not empty and closes
    none. *)
Definition well_formed_piece (p : piece) : bool :=
  match p with
  | Lit text => negb (PyStr.contains_char "{" text)
  | Hole name => negb (String.eqb name EmptyString)
                 && negb (PyStr.contains_char "}" name)
  end.

End Template.

(** ** Parameter sources *)

Module Sources.

(** The four sources the extractors of the interchange formats write. *)
Definition canonical_sources : list string := ["query"; "path"; "header"; "body"].

(** The entry of a parameter is a [dict] whose [source] is one of them. *)
Definition canonical_source (v : json) : bool :=
  match v with
  | JObj d =>
      match Py.lookup "source" d with
      | Some (JStr s) => PyStr.str_in_list s canonical_sources
      | _ => false
      end
  | _ => false
  end.

Definition sources_ok (parameters : pdict) : bool :=
  forallb (fun kv => canonical_source (snd kv)) parameters.

(** A step that leaves every entry with a canonical source. *)
Definition keeps_sources (f : pdict -> result pdict) : Prop :=
  forall d d' : pdict, f d = Ok d' -> sources_ok d = true -> sources_ok d' = true.

(** The entry of a parameter is one the tool generator can process. *)
Definition typed_entry (v : json) : bool :=
  McpServerGenerator.processable (EmptyString, v).

Definition entries_typed (parameters : pdict) : bool :=
  forallb (fun kv => typed_entry (snd kv)) parameters.

(** A step that leaves every entry processable. *)
Definition keeps_typed (f : pdict -> result pdict) : Prop :=
  forall d d' : pdict, f d = Ok d' -> entries_typed d = true -> entries_typed d' = true.

End Sources.

(** ** Markers of the interchange formats *)

Module Markers.

(** The key [openapi] is absent or holds a text. *)
Definition openapi_is_text (d : dict) : bool :=
  match Py.lookup "openapi" d with
  | Some (JStr _) | None => true
  | Some _ => false
  end.

(** The key [openapi] holds a text that starts with [3.]. *)
Definition is_openapi3 (d : dict) : bool :=
  match Py.lookup "openapi" d with
  | Some (JStr v) => PyStr.startswith v "3."
  | _ => false
  end.

(** The key [swagger] holds the text [2.0]. *)
Definition is_swagger2 (d : dict) : bool :=
  match Py.lookup "swagger" d with
  | Some v => Py.is_str "2.0" v
  | None => false
  end.

(** The keys [info] and [item] are both there and [info] holds no
    [dict]. *)
Definition info_is_no_dict (d : dict) : bool :=
  Py.mem "item" d
  && match Py.lookup "info" d with
     | Some (JObj _) | None => false
     | Some _ => true
     end.

End Markers.

(** ** Operations of a specification *)

Module Operations.

(** What the parsers need of the constructors: the record built has the
    path and the method it was given, the discovery the endpoints. *)
Definition keeps_identity
    (new_APIEndpoint : string -> HTTPMethod -> json -> pdict -> json -> result APIEndpoint)
  : Prop :=
  forall u m dsc ps t e,
    new_APIEndpoint u m dsc ps t = Ok e -> url e = u /\ method e = m.

Definition keeps_endpoints
    (new_APIDiscovery : json -> list APIEndpoint ->
                        option JsonAnalyzer.AuthenticationInfo -> json -> list json ->
                        result JsonAnalyzer.APIDiscovery)
  : Prop :=
  forall b es a s o disc,
    new_APIDiscovery b es a s o = Ok disc -> JsonAnalyzer.endpoints disc = es.

(** The identity an operation key stands for under a path, when it
    names one of the five methods in any case. *)
Definition operation_identity (path : string) (operation : string * json)
  : option (HTTPMethod * string) :=
  match HTTPMethod_of_value (PyStr.upper (fst operation)) with
  | Ok m => Some (m, path)
  | Raise _ => None
  end.

(** The operations of the [paths] of a specification, in document
    order. *)
Definition declared_operations (paths : dict) : list (HTTPMethod * string) :=
  flat_map (fun entry =>
              match snd entry with
              | JObj ops => omap (operation_identity (fst entry)) ops
              | _ => []
              end) paths.

End Operations.

(** ** Orders *)

Module Order.

(** Neighbours are in the order of [str] comparison. *)
Fixpoint sorted_texts (l : list string) : bool :=
  match l with
  | [] => true
  | x :: r =>
      match r with
      | [] => true
      | y :: _ => String.leb x y && sorted_texts r
      end
  end.

(** The elements of a list in the order of their first occurrence. *)
Fixpoint first_occurrences {A : Type} `{EqDecision A} (l : list A) : list A :=
  match l with
  | [] => []
  | x :: r => x :: filter (fun y => y <> x) (first_occurrences r)
  end.

End Order.

(** ** mcp_server.py *)

Module McpServer.

(** [[part for part in endpoint.url.split('/') if part]] *)
Definition url_parts (u : string) : list string :=
  List.filter (fun part => negb (String.eqb part EmptyString))
    (PdfAnalyzer.split_slash EmptyString u).

(** The three branches that choose [last_part]. *)
Definition last_part (url_parts : list string) : string :=
  match url_parts with
  | [] => "api"
  | [part] => part
  | _ =>
      let last := List.last url_parts EmptyString in
      if negb (String.eqb last EmptyString) then last
      else List.last (List.removelast url_parts) EmptyString
  end.

Definition is_alnum (c : ascii) : bool := PyStr.is_alpha c || PdfAnalyzer.is_decimal c.

(** [re.sub(r'[^a-zA-Z0-9]', '_', s)] *)
Definition sub_non_alnum (s : string) : string :=
  PyStr.map (fun c => if is_alnum c then c else "_"%char) s.

Definition is_underscore (c : ascii) : bool := Ascii.eqb c "_".

(** [s.strip('_')] *)
Definition strip_underscores (s : string) : string :=
  PdfAnalyzer.rstrip is_underscore (PdfAnalyzer.lstrip is_underscore s).

Definition _generate_tool_name (endpoint : APIEndpoint) : string :=
  let last_part := last_part (url_parts (url endpoint)) in
  let name := sub_non_alnum (PyStr.lower last_part) in
  let name := strip_underscores (McpServerGenerator.collapse_underscores name) in
  let method_prefix := PyStr.lower (method_value (method endpoint)) in
  method_prefix +:+ "_" +:+ name.

(** [[name for name, param in parameters.items() if param.get('required', False)]] *)
Fixpoint required_names (items : dict) : result (list string) :=
  match items with
  | [] => Ok []
  | (name, param) :: rest =>
      required ← Py.get_attr param "required" (JBool false);
      names ← required_names rest;
      if Py.truthy required then Ok (name :: names) else Ok names
  end.

Definition object_schema (properties required : json) : json :=
  JObj [("type", JStr "object"); ("properties", properties); ("required", required)].

Definition _generate_tool_parameters (endpoint : APIEndpoint) : result json :=
  match parameters endpoint with
  | Some (p :: ps) =>
      names ← required_names (p :: ps);
      Ok (object_schema (JObj (p :: ps)) (JArr (JStr <$> names)))
  | _ =>
      match request_body endpoint with
      | Some body =>
          if Py.truthy body then
            properties ← Py.get_attr body "properties" (JObj []);
            required ← Py.get_attr body "required" (JArr []);
            Ok (object_schema properties required)
          else Ok (object_schema (JObj []) (JArr []))
      | None => Ok (object_schema (JObj []) (JArr []))
      end
  end.

(** The characters of a name in snake case. *)
Definition snake_char (c : ascii) : bool :=
  PyStr.is_lower c || PdfAnalyzer.is_decimal c || Ascii.eqb c "_".

(** The parameter is a [dict] that states [required]. *)
Definition states_required (p : string * json) : bool :=
  match snd p with
  | JObj d => Py.mem "required" d
  | _ => false
  end.

End McpServer.

(** ** api_discoverer.py: parameters of a fetched specification and of forms *)

Module ApiDiscovererSpec.

Definition parameter_entry (param : dict) : json :=
  JObj [("type", Py.get param "type" (JStr "string"));
        ("required", Py.get param "required" (JBool false));
        ("description", Py.get param "description" (JStr ""));
        ("in", Py.get param "in" (JStr "query"))].

(** One turn of the loop of [_extract_parameters]. *)
Definition parameter_step (param : json) (extracted : pdict) : result pdict :=
  match param with
  | JObj d =>
      let name := Py.get d "name" (JStr "") in
      if Py.truthy name then PDict.set name (parameter_entry d) extracted
      else Ok extracted
  | _ => Raise AttributeError
  end.

Definition _extract_parameters (details : json) : result (option pdict) :=
  params ← Py.get_attr details "parameters" (JArr []);
  if negb (Py.truthy params) then Ok None
  else
    params ← Py.iter params;
    Some <$> JsonAnalyzer.for_each parameter_step params [].

Definition field_entry (field : dict) : json :=
  JObj [("type", Py.get field "type" (JStr "string"));
        ("required", Py.get field "required" (JBool false));
        ("description", Py.get field "placeholder" (JStr ""))].

(** One turn of the loop of [_extract_form_parameters]. *)
Definition field_step (field : json) (parameters : pdict) : result pdict :=
  match field with
  | JObj d =>
      let name := Py.get d "name" (JStr "") in
      if Py.truthy name then PDict.set name (field_entry d) parameters
      else Ok parameters
  | _ => Raise AttributeError
  end.

Definition _extract_form_parameters (form : json) : result (option pdict) :=
  fields ← Py.get_attr form "fields" (JArr []);
  if negb (Py.truthy fields) then Ok None
  else
    fields ← Py.iter fields;
    Some <$> JsonAnalyzer.for_each field_step fields [].

Definition api_indicators : list string :=
  ["api"; "rest"; "ajax"; "json"; "v1"; "v2"; "endpoint"].

Definition _looks_like_api (url : string) : bool :=
  existsb (fun indicator => PyStr.contains (PyStr.lower url) indicator) api_indicators.

(** The entry of a parameter is a [dict] without the key [source]. *)
Definition sourceless (p : string * json) : bool :=
  match snd p with
  | JObj d => negb (Py.mem "source" d)
  | _ => false
  end.

Definition sourceless_values (d : pdict) : Prop :=
  Forall (fun kv => sourceless (EmptyString, snd kv) = true) d.

End ApiDiscovererSpec.

(** ** mcp_server_generator.py: the name of the repository *)

Module RepoName.

(** [s[:-4]] *)
Definition drop_last4 (s : string) : string :=
  String.substring 0 (String.length s - 4) s.

(** Nothing in the [try] block raises on a [str]. *)
Definition _extract_repo_name (github_url : string) : string :=
  let github_url :=
    if PdfAnalyzer.endswith github_url ".git" then drop_last4 github_url
    else github_url in
  let parts := PdfAnalyzer.split_slash EmptyString (PyStr.rstrip_char "/" github_url) in
  match rev parts with
  | repo :: owner :: _ => owner +:+ "_" +:+ repo
  | _ => "unknown_repo"
  end.

End RepoName.

(** ** json_analyzer.py: the parser of Insomnia exports *)

Module InsomniaParser.

Import JsonAnalyzer.

(** The path taken from the [url] of a resource: without the segments
    that are template variables when the text starts with one, without
    the scheme and the host otherwise. *)
Definition url_path_of (url : string) : string :=
  if PyStr.startswith url "{{" then
    let url_parts := PdfAnalyzer.split_slash EmptyString url in
    "/" +:+ PyStr.join "/"
              (List.filter (fun part => negb (PyStr.startswith part "{{")) url_parts)
  else
    let url_path := PyStr.replace "http://" "" (PyStr.replace "https://" "" url) in
    if PyStr.contains_char "/" url_path then
      "/" +:+ PyStr.join "/" (List.tl (PdfAnalyzer.split_slash EmptyString url_path))
    else "/".

Section Parser.

Variable py_str : json -> string.
Variable new_APIEndpoint :
  string -> HTTPMethod -> json -> pdict -> json -> result APIEndpoint.
Variable new_APIDiscovery :
  json -> list APIEndpoint -> option AuthenticationInfo -> json -> list json
  -> result APIDiscovery.

(** One turn of the loop over [resources]; [continue] leaves the list
    of endpoints as it is, and a [url] that is no text has no
    [startswith]. *)
Definition resource_step (resource : json) (endpoints : list APIEndpoint)
  : result (list APIEndpoint) :=
  type ← Py.get_attr resource "_type" JNull;
  if Py.is_str "request" type then
    method ← Py.get_attr resource "method" (JStr "GET");
    method_str ← upper_attr method;
    match HTTPMethod_of_value method_str with
    | Raise _ => Ok endpoints
    | Ok http_method =>
        url ← Py.get_attr resource "url" (JStr "");
        match url with
        | JStr url =>
            let url_path := url_path_of url in
            name ← Py.get_attr resource "name" (JStr "");
            description ←
              (if Py.truthy name then Ok name
               else Py.get_attr resource "description" (JStr ""));
            parameters ← _extract_insomnia_parameters py_str resource url_path;
            endpoint ← new_APIEndpoint url_path http_method description parameters
                         (JArr []);
            Ok (endpoints ++ [endpoint])
        | _ => Raise AttributeError
        end
    end
  else Ok endpoints.

Fixpoint resources_loop (resources : list json) (endpoints : list APIEndpoint)
  : result (list APIEndpoint) :=
  match resources with
  | [] => Ok endpoints
  | resource :: rest =>
      endpoints ← resource_step resource endpoints;
      resources_loop rest endpoints
  end.

Definition _parse_insomnia_collection (json_data : json) : result APIDiscovery :=
  resources ← Py.get_attr json_data "resources" (JArr []);
  resources ← Py.iter resources;
  endpoints ← resources_loop resources [];
  new_APIDiscovery (JStr "https://api.example.com") endpoints None (JObj []) [].

End Parser.

(** The schemes the parser removes. *)
Definition schemes : list string := ["https://"; "http://"; ""].

End InsomniaParser.

(** ** json_analyzer.py: the fallback parser *)

Module GenericParser.

Import JsonAnalyzer.

Definition endpoint_indicators : list string :=
  ["method"; "path"; "url"; "route"; "endpoint"].
Definition method_indicators : list string :=
  ["GET"; "POST"; "PUT"; "DELETE"; "PATCH"].

(** Some key names a method, in any case. *)
Definition has_method_key (data : dict) : bool :=
  existsb (fun kv => PyStr.str_in_list (PyStr.upper (fst kv)) method_indicators) data.

Definition _looks_like_endpoint (data : dict) : bool :=
  (existsb (fun key => Py.mem key data) endpoint_indicators
   && match Py.get data "method" (JStr "") with
      | JStr method_value =>
          PyStr.str_in_list (PyStr.upper method_value) method_indicators
      | _ => false
      end)
  || has_method_key data.

Definition param_keys : list string :=
  ["parameters"; "params"; "args"; "query"; "body"; "headers"].

(** The source written for the parameters found under [key]. *)
Definition source_of_key (key : string) : string :=
  let source := if PyStr.str_in_list key ["query"; "params"] then "query" else key in
  if String.eqb key "headers" then "header"
  else if String.eqb key "body" then "body"
  else source.

Definition generic_entry (key param_name : string) : json :=
  param_entry (JStr param_name) (JStr "string") (JStr (source_of_key key))
    (JBool false) (JStr (param_name +:+ " parameter")).

(** The keys stored are texts, so that no store raises. *)
Definition _extract_generic_parameters (data : dict) : pdict :=
  fold_left
    (fun parameters key =>
       match Py.lookup key data with
       | Some (JObj param_data) =>
           fold_left
             (fun parameters kv =>
                PDict.set_loop (JStr (fst kv)) (generic_entry key (fst kv)) parameters)
             param_data parameters
       | _ => parameters
       end)
    param_keys [].

Section Parser.

Variable new_APIEndpoint :
  string -> HTTPMethod -> json -> pdict -> json -> result APIEndpoint.
Variable new_APIDiscovery :
  json -> list APIEndpoint -> option AuthenticationInfo -> json -> list json
  -> result APIDiscovery.

(** [None] for every way out of the [try] block but the last. *)
Definition _create_endpoint_from_dict (data : dict) (path_prefix : string)
  : option APIEndpoint :=
  match Py.get data "method" (JStr "GET") with
  | JStr method_str =>
      match HTTPMethod_of_value (PyStr.upper method_str) with
      | Raise _ => None
      | Ok http_method =>
          match Py.get data "path"
                  (Py.get data "url"
                     (Py.get data "route" (JStr ("/" +:+ path_prefix)))) with
          | JStr path =>
              let path := if PyStr.startswith path "/" then path else "/" +:+ path in
              let description :=
                Py.get data "description" (Py.get data "summary" (JStr "")) in
              let parameters := _extract_generic_parameters data in
              let tags := Py.get data "tags" (JArr []) in
              let tags := match tags with JStr _ => JArr [tags] | _ => tags end in
              match new_APIEndpoint path http_method description parameters tags with
              | Ok endpoint => Some endpoint
              | Raise _ => None
              end
          | _ => None
          end
      end
  | _ => None
  end.

(** [f"{path_prefix}/{key}" if path_prefix else key] *)
Definition new_prefix (path_prefix key : string) : string :=
  if negb (String.eqb path_prefix EmptyString) then path_prefix +:+ "/" +:+ key
  else key.

Fixpoint _extract_endpoints_recursively (data : json) (path_prefix : string)
    (endpoints : list APIEndpoint) {struct data} : list APIEndpoint :=
  match data with
  | JObj d =>
      if _looks_like_endpoint d then
        match _create_endpoint_from_dict d path_prefix with
        | Some endpoint => endpoints ++ [endpoint]
        | None => endpoints
        end
      else
        (fix items (kvs : list (string * json)) (endpoints : list APIEndpoint)
           : list APIEndpoint :=
           match kvs with
           | [] => endpoints
           | (key, value) :: rest =>
               items rest
                 (_extract_endpoints_recursively value (new_prefix path_prefix key)
                    endpoints)
           end) d endpoints
  | JArr l =>
      (fix each (l : list json) (endpoints : list APIEndpoint) : list APIEndpoint :=
         match l with
         | [] => endpoints
         | item :: rest =>
             each rest (_extract_endpoints_recursively item path_prefix endpoints)
         end) l endpoints
  | _ => endpoints
  end.

Definition _parse_generic_json (json_data : json) : result APIDiscovery :=
  new_APIDiscovery (JStr "https://api.example.com")
    (_extract_endpoints_recursively json_data EmptyString [])
    None (JObj []) [].

End Parser.

(** A document in the shape of a path item, outside of a specification. *)
Definition orders_item : json :=
  JObj [("orders", JObj [("post", JObj [("summary", JStr "Create an order")]);
                         ("delete", JObj [])])].

End GenericParser.

(** ** json_analyzer.py: the parser of Postman collections *)

Module PostmanParser.

Import JsonAnalyzer.

(** An item that is no [dict]: the two membership tests, then [.get] or
    the subscript, which such an item does not have. *)
Definition plain_item (item : json) : result unit :=
  is_folder ← Py.contains "item" item;
  if (is_folder : bool) then Raise AttributeError
  else
    is_request ← Py.contains "request" item;
    if (is_request : bool) then Raise TypeError else Ok tt.

Fixpoint plain_items (items : list json) : result unit :=
  match items with
  | [] => Ok tt
  | item :: rest => _ ← plain_item item; plain_items rest
  end.

(** ["/".join(path_parts)] *)
Definition join_parts (path_parts : json) : result string :=
  parts ← Py.iter path_parts;
  match texts parts with
  | Some ts => Ok (PyStr.join "/" ts)
  | None => Raise TypeError
  end.

(** [[tag for tag in folder_path.split("/") if tag] if folder_path else []] *)
Definition folder_tags (folder_path : json) : result json :=
  if Py.truthy folder_path then
    match folder_path with
    | JStr p =>
        Ok (JArr (JStr <$> List.filter (fun tag => negb (String.eqb tag EmptyString))
                             (PdfAnalyzer.split_slash EmptyString p)))
    | _ => Raise AttributeError
    end
  else Ok (JArr []).

Definition postman_auth_map : list (string * AuthType) :=
  [("bearer", AuthBEARER); ("basic", AuthBASIC); ("apikey", AuthAPI_KEY);
   ("oauth2", AuthOAUTH)].

Definition _extract_postman_auth (json_data : json)
  : result (option AuthenticationInfo) :=
  auth ← Py.get_attr json_data "auth" (JObj []);
  if negb (Py.truthy auth) then Ok None
  else
    t ← Py.get_attr auth "type" (JStr "");
    auth_type_str ← lower_attr t;
    match auth with
    | JObj d =>
        Ok (Some (mkAuthenticationInfo (auth_table_get auth_type_str postman_auth_map)
                    [] (Some d) None))
    | _ => Raise AttributeError
    end.

(** The loop over [variable] with its [break]. *)
Fixpoint base_url_of (variables : list json) (base_url : json) : result json :=
  match variables with
  | [] => Ok base_url
  | var :: rest =>
      key ← Py.get_attr var "key" JNull;
      if Py.is_str "baseUrl" key || Py.is_str "host" key || Py.is_str "base_url" key
      then Py.get_attr var "value" base_url
      else base_url_of rest base_url
  end.

Section Parser.

Variable py_str : json -> string.
Variable json_loads : string -> option json.
Variable new_APIEndpoint :
  string -> HTTPMethod -> json -> pdict -> json -> result APIEndpoint.
Variable new_APIDiscovery :
  json -> list APIEndpoint -> option AuthenticationInfo -> json -> list json
  -> result APIDiscovery.

(** [f"{folder_path}/{folder_name}" if folder_path else folder_name] *)
Definition new_folder_path (folder_path folder_name : json) : json :=
  if Py.truthy folder_path
  then JStr (Py.format py_str folder_path +:+ "/" +:+ Py.format py_str folder_name)
  else folder_name.

(** The branch of an item that holds a [request]. *)
Definition request_step (item : dict) (request folder_path : json)
    (endpoints : list APIEndpoint) : result (list APIEndpoint) :=
  method ← Py.get_attr request "method" (JStr "GET");
  method_str ← upper_attr method;
  match HTTPMethod_of_value method_str with
  | Raise _ => Ok endpoints
  | Ok http_method =>
      url_data ← Py.get_attr request "url" (JObj []);
      url_path ←
        match url_data with
        | JStr url_path => Ok url_path
        | JObj d =>
            let path_parts := Py.get d "path" (JArr []) in
            if Py.truthy path_parts then
              joined ← join_parts path_parts; Ok ("/" +:+ joined)
            else Ok "/"
        | _ => Ok "/"
        end;
      let url_path :=
        if negb (PyStr.startswith url_path "/") then "/" +:+ url_path else url_path in
      let name := Py.get item "name" (JStr "") in
      description ←
        (if Py.truthy name then Ok name
         else Py.get_attr request "description" (JStr ""));
      parameters ← _extract_postman_parameters py_str json_loads request url_path;
      tags ← folder_tags folder_path;
      endpoint ← new_APIEndpoint url_path http_method description parameters tags;
      Ok (endpoints ++ [endpoint])
  end.

(** [_parse_postman_items]: only an item that is a [dict] with the key
    [item] is entered; the items of a [dict] are its keys, those of a
    text its characters. *)
Fixpoint _parse_postman_items (items : json) (folder_path : json)
    (endpoints : list APIEndpoint) {struct items} : result (list APIEndpoint) :=
  match items with
  | JArr l =>
      (fix each (l : list json) (endpoints : list APIEndpoint)
         : result (list APIEndpoint) :=
         match l with
         | [] => Ok endpoints
         | item :: rest =>
             match item with
             | JObj d =>
                 match
                   (fix folder (kvs : list (string * json))
                      : option (result (list APIEndpoint)) :=
                      match kvs with
                      | [] => None
                      | (k, v) :: r =>
                          if String.eqb k "item" then
                            Some (_parse_postman_items v
                                    (new_folder_path folder_path
                                       (Py.get d "name" (JStr "")))
                                    endpoints)
                          else folder r
                      end) d
                 with
                 | Some inner => endpoints ← inner; each rest endpoints
                 | None =>
                     match Py.lookup "request" d with
                     | Some request =>
                         endpoints ← request_step d request folder_path endpoints;
                         each rest endpoints
                     | None => each rest endpoints
                     end
                 end
             | _ => _ ← plain_item item; each rest endpoints
             end
         end) l endpoints
  | JObj d => _ ← plain_items (List.map (fun kv => JStr (fst kv)) d); Ok endpoints
  | JStr s => _ ← plain_items (Py.chars s); Ok endpoints
  | _ => Raise TypeError
  end.

Definition _parse_postman_collection (json_data : json) : result APIDiscovery :=
  variables ← Py.get_attr json_data "variable" (JArr []);
  variables ← Py.iter variables;
  base_url ← base_url_of variables (JStr "https://api.example.com");
  items ← Py.get_attr json_data "item" (JArr []);
  endpoints ← _parse_postman_items items (JStr "") [];
  auth_info ← _extract_postman_auth json_data;
  new_APIDiscovery base_url endpoints auth_info (JObj []) [].

(** The parsers [analyze_json] calls for the formats other than the two
    specifications and the custom one. *)
Definition parse_other_format (format : string) (json_data : json)
  : result APIDiscovery :=
  if String.eqb format "postman" then _parse_postman_collection json_data
  else if String.eqb format "insomnia" then
    InsomniaParser._parse_insomnia_collection py_str new_APIEndpoint new_APIDiscovery
      json_data
  else GenericParser._parse_generic_json new_APIEndpoint new_APIDiscovery json_data.

End Parser.

(** What an induction over the items carries: the records added have a
    path that starts with a slash. *)
Definition keeps_rooted (py_str : json -> string) (json_loads : string -> option json)
    (new_APIEndpoint : string -> HTTPMethod -> json -> pdict -> json -> result APIEndpoint)
    (items : json) : Prop :=
  forall folder_path endpoints endpoints',
    _parse_postman_items py_str json_loads new_APIEndpoint items folder_path endpoints
    = Ok endpoints' ->
    Forall (fun e => PyStr.startswith (url e) "/" = true) endpoints ->
    Forall (fun e => PyStr.startswith (url e) "/" = true) endpoints'.

(** A collection with a request inside two folders. *)
Definition nested_collection : json :=
  JObj [("info", JObj [("schema", JStr "https://schema.getpostman.com/json/collection/v2.1.0/collection.json")]);
        ("item",
         JArr [JObj [("name", JStr "Users");
                     ("item",
                      JArr [JObj [("name", JStr "Admin");
                                  ("item",
                                   JArr [JObj [("name", JStr "Get user");
                                               ("request", postman_request)]])]])]])].

End PostmanParser.

(** ** json_analyzer.py: what the OpenAPI 3 extractor stores under a key *)

Module OpenApiLookup.

Import JsonAnalyzer.

(** The value of [method_data.get("parameters", [])], as the first loop
    of [_extract_openapi_parameters] iterates it. *)
Definition declared_parameters (method_data : json) : result (list json) :=
  declared ← Py.get_attr method_data "parameters" (JArr []);
  Py.iter declared.

(** The parameter object has a name that is not skipped and is the key
    [k] of the dictionary. *)
Definition declares (k : json) (param : json) : bool :=
  match Py.get_attr param "name" JNull with
  | Ok param_name => Py.truthy param_name && Py.key_eqb param_name k
  | Raise _ => false
  end.

(** The parameter object that wrote last under the key [k]. *)
Definition last_declared (k : json) (declared : list json) : option json :=
  List.find (declares k) (rev declared).

(** [source_map.get(param.get("in", "query"), "query")] *)
Definition declared_source (param : json) : result string :=
  param_in ← Py.get_attr param "in" (JStr "query");
  source_map_get openapi_source_map param_in.

(** The entry carries the source the location of [param] maps to. *)
Definition from_param (param entry : json) : Prop :=
  exists source,
    declared_source param = Ok source
    /\ Py.get_attr entry "source" JNull = Ok (JStr source).

(** The names of the properties of one [content] item whose type
    contains [application/json]. *)
Definition json_properties (content : string * json) : list string :=
  if PyStr.contains (fst content) "application/json" then
    match snd content with
    | JObj content_data =>
        match Py.get content_data "schema" (JObj []) with
        | JObj schema =>
            match Py.get schema "properties" (JObj []) with
            | JObj properties => fst <$> properties
            | _ => []
            end
        | _ => []
        end
    | _ => []
    end
  else [].

(** The names of the properties of the JSON request body. *)
Definition body_properties (method_data : json) : list string :=
  match method_data with
  | JObj operation =>
      match Py.lookup "requestBody" operation with
      | Some (JObj request_body) =>
          match Py.get request_body "content" (JObj []) with
          | JObj content => flat_map json_properties content
          | _ => []
          end
      | _ => []
      end
  | _ => []
  end.

(** The key [k] is one of the names. *)
Definition named (k : json) (names : list string) : bool :=
  existsb (fun name => Py.key_eqb (JStr name) k) names.

(** The entry a path placeholder gets when the key [k] is the name of
    one. *)
Definition placeholder_entry (k : json) (path : string) : option json :=
  match k with
  | JStr name =>
      if bool_decide (name ∈ find_brace_params path) then Some (path_entry name)
      else None
  | _ => None
  end.

(** From [d] to [d'] the entries under the names were written with the
    source body and no other entry was touched. *)
Definition writes_body (names : list string) (d d' : pdict) : Prop :=
  forall k : json,
    if named k names
    then exists entry,
           PDict.lookup k d' = Some entry
           /\ Py.get_attr entry "source" JNull = Ok (JStr "body")
    else PDict.lookup k d' = PDict.lookup k d.

(** An operation that declares [id] twice, as a header and then with
    the location [formData], declares the cookie [session], and has a
    JSON body with the property [session]. *)
Definition shadowed_operation : json :=
  JObj [("parameters",
         JArr [JObj [("name", JStr "id"); ("in", JStr "header")];
               JObj [("name", JStr "session"); ("in", JStr "cookie")];
               JObj [("name", JStr "id"); ("in", JStr "formData")]]);
        ("requestBody",
         JObj [("content",
                JObj [("application/json",
                       JObj [("schema",
                              JObj [("properties",
                                     JObj [("session", JObj [])])])])])])].

End OpenApiLookup.

(** * Properties *)

Lemma find_app_first {A : Type} (f : A -> bool) (l1 l2 : list A) :
  List.find f (l1 ++ l2) =
  match List.find f l1 with
  | Some x => Some x
  | None => List.find f l2
  end.
Proof.
  induction l1 as [|x l1 IH]; simpl; [done|]. by destruct (f x).
Qed.

Lemma append_nil_l (s : string) : "" +:+ s = s.
Proof. reflexivity. Qed.

Lemma append_cons_eq (c : ascii) (a b : string) :
  String c a +:+ b = String c (a +:+ b).
Proof. reflexivity. Qed.

(** ** The merge stage of api_discoverer.py *)

Module ApiDiscovererFacts.

Import ApiDiscoverer.

Lemma contains_char_app c a b :
  PyStr.contains_char c (a +:+ String c b) = true.
Proof.
  induction a as [|x a IH]; rewrite ?append_nil_l, ?append_cons_eq; simpl.
  - by rewrite Ascii.eqb_refl.
  - rewrite IH. apply orb_true_r.
Qed.

Lemma format_method_no_colon py311 m :
  PyStr.contains_char ":" (format_method py311 m) = false.
Proof. by destruct py311, m. Qed.

Lemma format_method_inj py311 m1 m2 :
  format_method py311 m1 = format_method py311 m2 -> m1 = m2.
Proof. by destruct py311, m1, m2. Qed.

Lemma key_text_inj py311 u1 u2 m1 m2 :
  u1 +:+ ":" +:+ format_method py311 m1 = u2 +:+ ":" +:+ format_method py311 m2 ->
  u1 = u2 /\ m1 = m2.
Proof.
  revert u2. induction u1 as [|c u1 IH]; intros [|c2 u2] H;
    rewrite ?append_nil_l, ?append_cons_eq, ?append_nil_l in H.
  - injection H as H. split; [done|]. by eapply format_method_inj.
  - injection H as Hc H. subst c2.
    pose proof (format_method_no_colon py311 m1) as Hn.
    rewrite H in Hn. by rewrite contains_char_app in Hn.
  - injection H as Hc H. subst c.
    pose proof (format_method_no_colon py311 m2) as Hn.
    rewrite <- H in Hn. by rewrite contains_char_app in Hn.
  - injection H as Hc H. subst c2.
    destruct (IH _ H) as [-> ->]. done.
Qed.

Lemma endpoint_key_identity py311 e1 e2 :
  endpoint_key py311 e1 = endpoint_key py311 e2 <-> identity e1 = identity e2.
Proof.
  unfold endpoint_key, identity. split.
  - intros H. apply key_text_inj in H as [-> ->]. done.
  - intros [= -> ->]. done.
Qed.

Section Loop.

Variable py311 : bool.

Abbreviation key := (endpoint_key py311).
Abbreviation run := (fun seen l => dedup_loop py311 seen [] l).

Lemma dedup_loop_acc seen unique l :
  dedup_loop py311 seen unique l = unique ++ run seen l.
Proof.
  revert seen unique. induction l as [|e l IH]; intros seen unique; simpl.
  - by rewrite app_nil_r.
  - case_decide.
    + apply IH.
    + rewrite (IH _ (unique ++ [e])), (IH _ [e]).
      by rewrite <- app_assoc.
Qed.

Lemma run_cons_seen seen e l :
  key e ∈ seen -> run seen (e :: l) = run seen l.
Proof. intros H. simpl. by rewrite decide_True. Qed.

Lemma run_cons_new seen e l :
  key e ∉ seen -> run seen (e :: l) = e :: run ({[key e]} ∪ seen) l.
Proof. intros H. simpl. rewrite decide_False by done. by rewrite dedup_loop_acc. Qed.

Lemma run_elem seen l e :
  e ∈ run seen l -> e ∈ l /\ key e ∉ seen.
Proof.
  revert seen. induction l as [|x l IH]; intros seen.
  - simpl. by intros ?%elem_of_nil.
  - destruct (decide (key x ∈ seen)) as [Hin|Hout].
    + rewrite run_cons_seen by done. intros [? ?]%IH. split; [by right|done].
    + rewrite run_cons_new by done. intros [->|He]%elem_of_cons.
      * split; [by left|done].
      * apply IH in He as [? Hk]. split; [by right|]. set_solver.
Qed.

Lemma run_NoDup seen l : NoDup (key <$> run seen l).
Proof.
  revert seen. induction l as [|x l IH]; intros seen.
  - simpl. constructor.
  - destruct (decide (key x ∈ seen)) as [Hin|Hout].
    + rewrite run_cons_seen by done. apply IH.
    + rewrite run_cons_new by done. rewrite fmap_cons. constructor; [|apply IH].
      intros (e & Hk & He)%list_elem_of_fmap.
      apply run_elem in He as [_ Hn]. rewrite <- Hk in Hn. set_solver.
Qed.

Lemma run_sublist seen l : sublist (run seen l) l.
Proof.
  revert seen. induction l as [|x l IH]; intros seen.
  - simpl. constructor.
  - destruct (decide (key x ∈ seen)) as [Hin|Hout].
    + rewrite run_cons_seen by done. by apply sublist_cons.
    + rewrite run_cons_new by done. by apply sublist_skip.
Qed.

Lemma run_fixed seen l :
  NoDup (key <$> l) -> (forall e, e ∈ l -> key e ∉ seen) -> run seen l = l.
Proof.
  revert seen. induction l as [|x l IH]; intros seen Hnd Hout; [done|].
  rewrite fmap_cons in Hnd. apply NoDup_cons in Hnd as [Hx Hnd].
  rewrite run_cons_new by (apply Hout; by left).
  f_equal. apply IH; [done|].
  intros e He. apply not_elem_of_union. split; [|apply Hout; by right].
  apply not_elem_of_singleton. intros Heq. apply Hx.
  rewrite <- Heq. by apply list_elem_of_fmap_2.
Qed.

Lemma run_app seen l1 l2 :
  run seen (l1 ++ l2) = run seen l1 ++ run (seen ∪ list_to_set (key <$> l1)) l2.
Proof.
  revert seen. induction l1 as [|x l1 IH]; intros seen.
  - simpl. f_equal. set_solver.
  - rewrite <- app_comm_cons. destruct (decide (key x ∈ seen)) as [Hin|Hout].
    + rewrite !run_cons_seen by done. rewrite IH. f_equal. f_equal.
      rewrite fmap_cons, list_to_set_cons. set_solver.
    + rewrite !run_cons_new by done. rewrite IH, <- app_comm_cons. f_equal. f_equal.
      f_equal. rewrite fmap_cons, list_to_set_cons. set_solver.
Qed.

Lemma run_filter seen l k :
  List.filter (has_identity k) (run seen l) =
  if decide (snd k +:+ ":" +:+ format_method py311 (fst k) ∈ seen) then []
  else option_list (List.find (has_identity k) l).
Proof.
  revert seen. induction l as [|x l IH]; intros seen.
  - simpl. by case_decide.
  - assert (Hk : has_identity k x = true <->
                 key x = snd k +:+ ":" +:+ format_method py311 (fst k)).
    { unfold has_identity. rewrite bool_decide_eq_true. unfold identity.
      destruct k as [m u]; simpl. unfold endpoint_key. split.
      - by intros [= -> ->].
      - by intros [-> ->]%key_text_inj. }
    destruct (decide (key x ∈ seen)) as [Hin|Hout].
    + rewrite run_cons_seen by done. rewrite IH. case_decide; [done|].
      simpl. destruct (has_identity k x); [|done].
      destruct Hk as [Hk _]. specialize (Hk eq_refl). congruence.
    + rewrite run_cons_new by done. simpl. rewrite IH.
      destruct (has_identity k x).
      * destruct Hk as [Hk _]. specialize (Hk eq_refl). rewrite <- Hk.
        rewrite decide_True by set_solver. by rewrite decide_False.
      * assert (key x <> snd k +:+ ":" +:+ format_method py311 (fst k)) as Hne.
        { intros Heq. apply Hk in Heq. discriminate. }
        case_decide as H1; case_decide as H2; try done; set_solver.
Qed.

End Loop.

(** C1. The merge stage keeps, for every (method, url) identity, exactly
    the first record of the input that carries it and drops the later
    ones whole: the records of the output with a given identity are the
    first such record of the input and nothing else, no identity occurs
    twice, and the output is a subsequence of the input.  On the pair of
    records (GET, /users) described A and then B, the output is the one
    record described A. *)
Theorem dedup_first_seen_wins :
  forall (py311 : bool) (endpoints : list APIEndpoint),
    (forall k : HTTPMethod * string,
        List.filter (has_identity k) (_deduplicate_endpoints py311 endpoints)
        = option_list (List.find (has_identity k) endpoints))
    /\ NoDup (identity <$> _deduplicate_endpoints py311 endpoints)
    /\ sublist (_deduplicate_endpoints py311 endpoints) endpoints
    /\ _deduplicate_endpoints py311 [users_A; users_B] = [users_A]
    /\ description users_A = Some "A".
Proof.
  intros py311 endpoints. unfold _deduplicate_endpoints. repeat split.
  - intros k. rewrite run_filter. by rewrite decide_False by set_solver.
  - pose proof (run_NoDup py311 ∅ endpoints) as Hnd.
    eapply (NoDup_fmap_1 (fun k => snd k +:+ ":" +:+ format_method py311 (fst k))).
    by rewrite <- list_fmap_compose.
  - apply run_sublist.
  - by destruct py311.
Qed.

(** C5. The merge stage is idempotent: merging a merged list changes
    nothing, and a list to which an exact copy of one of its records has
    been appended merges to the same result as the list itself. *)
Theorem dedup_idempotent :
  forall (py311 : bool) (endpoints : list APIEndpoint),
    _deduplicate_endpoints py311 (_deduplicate_endpoints py311 endpoints)
    = _deduplicate_endpoints py311 endpoints
    /\ (forall x : APIEndpoint, x ∈ endpoints ->
          _deduplicate_endpoints py311 (endpoints ++ [x])
          = _deduplicate_endpoints py311 endpoints).
Proof.
  intros py311 endpoints. unfold _deduplicate_endpoints. split.
  - apply run_fixed; [apply run_NoDup|]. intros e _. set_solver.
  - intros x Hx. rewrite run_app.
    rewrite run_cons_seen; [by rewrite app_nil_r|].
    apply elem_of_union_r, elem_of_list_to_set. by apply list_elem_of_fmap_2.
Qed.

Lemma dedup_idempotent_witness :
  users_B ∈ [users_A; users_B]
  /\ _deduplicate_endpoints true ([users_A; users_B] ++ [users_B])
     = _deduplicate_endpoints true [users_A; users_B].
Proof.
  split.
  - right. left.
  - apply (dedup_idempotent true [users_A; users_B]). right. left.
Defined.

End ApiDiscovererFacts.

(** ** The tool generator of mcp_server_generator.py *)

Module McpServerGeneratorFacts.

Import McpServerGenerator.

(** *** The tool name *)

Lemma rstrip_char_cons c a r :
  Ascii.eqb a c = false ->
  exists r', PyStr.rstrip_char c (String a r) = String a r'.
Proof.
  intros Ha. simpl. destruct (PyStr.rstrip_char c r); rewrite ?Ha; eauto.
Qed.

Lemma collapse_underscores_cons a r :
  Ascii.eqb a "_" = false ->
  collapse_underscores (String a r) = String a (collapse_underscores r).
Proof. intros Ha. simpl. by rewrite Ha. Qed.

(** The name is never empty: it starts with the first letter of the
    lower-cased method. *)
Lemma tool_name_starts_with_letter (endpoint : APIEndpoint) :
  exists c r, tool_name endpoint = String c r /\ PyStr.is_lower c = true.
Proof.
  unfold tool_name.
  assert (exists c r, PyStr.lower (method_value (method endpoint)) +:+ "_"
                      +:+ clean_url (url endpoint) = String c r
                 /\ PyStr.is_lower c = true) as (c & r & -> & Hc).
  { destruct (method endpoint); eexists _, _; split; reflexivity. }
  assert (PyStr.isdigit c = false) as Hd.
  { revert Hc. unfold PyStr.is_lower, PyStr.isdigit.
    generalize (nat_of_ascii c). intros n Hn.
    apply andb_true_iff in Hn as [H1%Nat.leb_le H2%Nat.leb_le].
    repeat (apply orb_false_iff; split);
      rewrite ?andb_false_iff, ?Nat.leb_gt, ?Nat.eqb_neq; lia. }
  assert (Ascii.eqb c "_" = false) as Hu.
  { apply Ascii.eqb_neq. intros ->. discriminate. }
  simpl. rewrite Hd. rewrite collapse_underscores_cons by done.
  destruct (rstrip_char_cons "_" c (collapse_underscores r) Hu) as [r' ->].
  eauto.
Qed.

(** C3. For the endpoint GET [/search items] the generator names the tool
    [get_search items]: the space of the path survives the chain of
    replacements, and the name is no identifier. *)
Theorem tool_name_keeps_space :
  tool_name search_items = "get_search items"
  /\ PyStr.is_identifier (tool_name search_items) = false.
Proof. split; reflexivity. Qed.

(** *** The signature *)

Section Signature.

Variable py_str : json -> string.

Lemma params_loop_lists items acc acc' :
  params_loop py_str items acc = Ok acc' ->
  required_params acc' =
    required_params acc ++ (render_required <$> List.filter is_required items)
  /\ optional_params acc' =
    optional_params acc
    ++ (render_optional <$> List.filter (fun p => negb (is_required p)) items).
Proof.
  revert acc. induction items as [|[param_name param_info] items IH]; intros acc.
  - simpl. intros [= <-]. by rewrite !app_nil_r.
  - destruct (param_fields param_name param_info) as [[[t src] dsc] req] eqn:Ef.
    assert (is_required (param_name, param_info) = Py.truthy req) as Hreq.
    { unfold is_required. simpl. by rewrite Ef. }
    cbn [params_loop List.filter]. rewrite Ef, Hreq.
    destruct (python_type_of t) as [ty|e] eqn:Et; [|done].
    assert (param_annotation (param_name, param_info) = ty) as Hann.
    { unfold param_annotation. simpl. by rewrite Ef, Et. }
    assert (render_required (param_name, param_info) = param_name +:+ ": " +:+ ty)
      as Hr by (unfold render_required; by rewrite Hann).
    assert (render_optional (param_name, param_info)
            = param_name +:+ ": Optional[" +:+ ty +:+ "] = None")
      as Ho by (unfold render_optional; by rewrite Hann).
    cbn [mbind result_bind].
    destruct (Py.truthy req); cbn [negb]; intros [-> ->]%IH;
      cbn [required_params optional_params];
      by rewrite ?fmap_cons, ?Hr, ?Ho, <- ?app_assoc.
Qed.

(** The parameter list of the signature: the required parameters in
    the order of the endpoint's parameters, then the optional ones in
    that order, then the [headers] argument. *)
Lemma func_params_order :
  forall (endpoint : APIEndpoint) (signature : list string),
    func_params py_str endpoint = Ok signature ->
    signature =
      (render_required <$> List.filter is_required (parameter_items endpoint))
      ++ (render_optional
            <$> List.filter (fun p => negb (is_required p)) (parameter_items endpoint))
      ++ [headers_param].
Proof.
  intros endpoint signature. unfold func_params, collect_params.
  destruct (params_loop py_str (parameter_items endpoint) _) as [acc|e] eqn:E;
    [|done].
  simpl. intros [= <-]. apply params_loop_lists in E as [-> ->]. simpl.
  by rewrite <- app_assoc.
Qed.

Lemma text_app_assoc (a b c : string) : (a +:+ b) +:+ c = a +:+ (b +:+ c).
Proof.
  induction a as [|x a IH]; [done|]. rewrite !append_cons_eq. by rewrite IH.
Qed.

(** C4. The code of a generated tool starts with the decorator line and
    the [def] line, and between the parentheses of the [def] line stand
    the required parameters, in the order of the endpoint's parameters,
    then the optional ones, in that order too, then the [headers]
    argument, separated by a comma and a space. *)
Theorem signature_required_before_optional :
  forall (endpoint : APIEndpoint) (production_base_url : option string)
         (code : string),
    _generate_fastmcp_tool py_str endpoint production_base_url = Ok code ->
    exists rest : string,
      code =
        PyStr.nl +:+ "@mcp.tool" +:+ PyStr.nl
        +:+ "def " +:+ tool_name endpoint +:+ "("
        +:+ PyStr.join ", "
              ((render_required
                  <$> List.filter is_required (parameter_items endpoint))
               ++ (render_optional
                     <$> List.filter (fun p => negb (is_required p))
                           (parameter_items endpoint))
               ++ [headers_param])
        +:+ ") -> Dict[str, Any]:" +:+ PyStr.nl +:+ rest.
Proof.
  intros endpoint base code. unfold _generate_fastmcp_tool.
  destruct (collect_params py_str endpoint) as [[lines signature]|] eqn:Ec; [|done].
  cbn [mbind result_bind].
  destruct (url_template endpoint) as [template|]; [|done]. cbn [mbind result_bind].
  destruct (data_prep_lines endpoint) as [prep|]; [|done]. cbn [mbind result_bind].
  intros [= <-].
  assert (func_params py_str endpoint = Ok signature) as Hs.
  { unfold func_params. by rewrite Ec. }
  apply func_params_order in Hs as ->.
  cbn [app]. eexists.
  rewrite append_nil_l, !text_app_assoc. reflexivity.
Qed.

End Signature.

Lemma signature_required_before_optional_witness :
  exists code rest : string,
    _generate_fastmcp_tool Py.str_scalar create_order None = Ok code
    /\ code =
         PyStr.nl +:+ "@mcp.tool" +:+ PyStr.nl
         +:+ "def post_orders_id(id: int, qty: int, note: Optional[str] = None, headers: Dict[str, str] = None) -> Dict[str, Any]:"
         +:+ PyStr.nl +:+ rest.
Proof.
  assert (exists code, _generate_fastmcp_tool Py.str_scalar create_order None = Ok code)
    as [code Hc].
  { eexists. vm_compute. reflexivity. }
  destruct (signature_required_before_optional Py.str_scalar create_order None
              code Hc) as [rest Hr].
  exists code, rest. split; [exact Hc|].
  vm_compute in Hr. vm_compute. exact Hr.
Defined.

(** *** Path construction *)

Lemma prefix_drop (p s : string) :
  String.prefix p s = true -> p +:+ PyStr.drop (String.length p) s = s.
Proof.
  revert s. induction p as [|a p IH]; intros s; [done|].
  destruct s as [|b s]; [done|]. simpl.
  destruct (ascii_dec a b) as [->|]; [|done].
  intros H. rewrite append_cons_eq. f_equal. by apply IH.
Qed.

Lemma replace_from_same (old s : string) (k : nat) :
  PyStr.replace_from old old k s = PyStr.drop k s.
Proof.
  revert k. induction s as [|c s IH]; intros k.
  - destruct k, old; reflexivity.
  - destruct k as [|k]; [|apply IH].
    cbn [PyStr.replace_from PyStr.drop].
    destruct (String.prefix old (String c s)) eqn:E.
    + destruct old as [|o old].
      * rewrite IH. reflexivity.
      * rewrite IH. simpl in E.
        destruct (ascii_dec o c) as [->|]; [|done].
        rewrite append_cons_eq. f_equal. by apply prefix_drop.
    + by rewrite IH.
Qed.

Lemma replace_same (old s : string) : PyStr.replace old old s = s.
Proof. unfold PyStr.replace. by rewrite replace_from_same. Qed.

Lemma processable_split (p : string * json) :
  processable p = is_dict_item p && type_hashable p.
Proof.
  destruct p as [n [| | | |l|d]]; reflexivity.
Qed.

Lemma url_template_loop_ok (items : dict) (u : string) :
  forallb is_dict_item items = true -> url_template_loop items u = Ok u.
Proof.
  revert u. induction items as [|[n info] items IH]; intros u; [done|].
  cbn [forallb]. intros [Hd Hr]%andb_true_iff.
  destruct info; try discriminate.
  cbn [url_template_loop Py.get_attr mbind result_bind].
  rewrite replace_same. destruct (Py.is_str "path" _); by apply IH.
Qed.

Lemma url_template_loop_raise (items : dict) (u : string) :
  forallb is_dict_item items = false -> is_ok (url_template_loop items u) = false.
Proof.
  revert u. induction items as [|[n info] items IH]; intros u; [done|].
  cbn [forallb]. intros H.
  destruct info; try reflexivity. simpl in H.
  cbn [url_template_loop Py.get_attr mbind result_bind].
  repeat case_match; by apply IH.
Qed.

Lemma body_params_ok (items : dict) :
  forallb is_dict_item items = true -> is_ok (body_params items) = true.
Proof.
  induction items as [|[n info] items IH]; [done|].
  cbn [forallb]. intros [Hd Hr]%andb_true_iff.
  destruct info; try discriminate.
  cbn [body_params Py.get_attr mbind result_bind].
  destruct (body_params items); [|by apply IH in Hr].
  by destruct (Py.is_str "body" _).
Qed.

Lemma data_prep_lines_ok (endpoint : APIEndpoint) :
  forallb is_dict_item (parameter_items endpoint) = true ->
  is_ok (data_prep_lines endpoint) = true.
Proof.
  intros H. unfold data_prep_lines.
  destruct (parameter_items endpoint) as [|p items] eqn:E; [done|].
  apply body_params_ok in H. destruct (body_params (p :: items)) as [names|]; [|done].
  cbn [mbind result_bind]. destruct names; [done|]. by destruct (is_mutating _).
Qed.

Section Generation.

Variable py_str : json -> string.

Lemma params_loop_is_ok (items : dict) (acc : ParamLists) :
  is_ok (params_loop py_str items acc) = forallb type_hashable items.
Proof.
  revert acc. induction items as [|[n info] items IH]; intros acc; [done|].
  cbn [params_loop forallb]. unfold type_hashable at 1. cbn [fst snd].
  destruct (param_fields n info) as [[[t src] dsc] req].
  destruct t; cbn [python_type_of Py.hashable mbind result_bind andb is_ok];
    try done; destruct (Py.truthy req); apply IH.
Qed.

Lemma forallb_processable (items : dict) :
  forallb processable items = forallb is_dict_item items && forallb type_hashable items.
Proof.
  induction items as [|p items IH]; [done|].
  cbn [forallb]. rewrite IH, processable_split.
  destruct (is_dict_item p), (type_hashable p), (forallb is_dict_item items); done.
Qed.

(** Generation succeeds exactly on the endpoints whose parameters can all
    be processed; the path plays no part. *)
Lemma generation_is_ok (endpoint : APIEndpoint) (production_base_url : option string) :
  is_ok (_generate_fastmcp_tool py_str endpoint production_base_url)
  = forallb processable (parameter_items endpoint).
Proof.
  rewrite forallb_processable. unfold _generate_fastmcp_tool, collect_params.
  match goal with
  | |- context [params_loop py_str ?items ?acc0] =>
      pose proof (params_loop_is_ok items acc0) as Hp;
      destruct (params_loop py_str items acc0) as [acc|e]
  end; rewrite <- Hp; cbn [is_ok mbind result_bind];
    [|by rewrite andb_false_r].
  rewrite andb_true_r. unfold url_template.
  destruct (forallb is_dict_item (parameter_items endpoint)) eqn:Ed.
  - rewrite url_template_loop_ok by done. cbn [mbind result_bind].
    pose proof (data_prep_lines_ok endpoint Ed) as Hd.
    by destruct (data_prep_lines endpoint).
  - pose proof (url_template_loop_raise _ (url endpoint) Ed) as Hu.
    by destruct (url_template_loop _ _).
Qed.

(** C6. The generator does not look for unresolved placeholders: whether
    it returns depends on the parameters alone, it returns exactly when
    each of them can be processed.  For a batch of endpoints whose
    parameters can all be processed, the loop over the batch returns one
    tool per endpoint, each the result of generating its endpoint, and
    the URL template of each endpoint is its path as it stands. *)
Theorem generation_ignores_placeholders :
  forall (production_base_url : option string),
    (forall endpoint : APIEndpoint,
        is_ok (_generate_fastmcp_tool py_str endpoint production_base_url)
        = forallb processable (parameter_items endpoint))
    /\ (forall batch : list APIEndpoint,
          Forall (fun e => forallb processable (parameter_items e) = true) batch ->
          exists tools : list string,
            endpoint_tools py_str batch production_base_url = Ok tools
            /\ Forall2 (fun e code =>
                          _generate_fastmcp_tool py_str e production_base_url = Ok code
                          /\ url_template e = Ok (url e))
                 batch tools).
Proof.
  intros base. split; [intros endpoint; apply generation_is_ok|].
  intros batch. induction 1 as [|e batch He _ IH].
  - exists []. split; [done|constructor].
  - destruct IH as (tools & Ht & Hf).
    pose proof (generation_is_ok e base) as Hg. rewrite He in Hg.
    destruct (_generate_fastmcp_tool py_str e base) as [code|] eqn:Ec; [|done].
    exists (code :: tools). split.
    + cbn [endpoint_tools]. rewrite Ec. cbn [mbind result_bind]. by rewrite Ht.
    + constructor; [|done]. split; [done|].
      rewrite forallb_processable in He. apply andb_true_iff in He as [Hd _].
      by apply url_template_loop_ok.
Qed.

End Generation.

Lemma generation_ignores_placeholders_witness :
  Forall (fun e => forallb processable (parameter_items e) = true)
    [user_by_id; create_order]
  /\ exists tools : list string,
       endpoint_tools Py.str_scalar [user_by_id; create_order] None = Ok tools
       /\ Forall2 (fun e code =>
                     _generate_fastmcp_tool Py.str_scalar e None = Ok code
                     /\ url_template e = Ok (url e))
            [user_by_id; create_order] tools.
Proof.
  assert (Forall (fun e => forallb processable (parameter_items e) = true)
            [user_by_id; create_order]) as H.
  { repeat constructor. }
  split; [exact H|].
  exact (proj2 (generation_ignores_placeholders Py.str_scalar None)
           [user_by_id; create_order] H).
Defined.

(** The path of [user_by_id] has the placeholder [id], the record has no
    parameter at all, and generation returns the code of a tool. *)
Lemma unresolved_placeholder_generates :
  JsonAnalyzer.find_brace_params (url user_by_id) = ["id"]
  /\ parameters user_by_id = None
  /\ is_ok (_generate_fastmcp_tool Py.str_scalar user_by_id None) = true
  /\ is_ok (endpoint_tools Py.str_scalar [user_by_id; search_items] None) = true.
Proof. repeat split; reflexivity. Qed.

End McpServerGeneratorFacts.

(** ** The parsers of json_analyzer.py *)

Module JsonAnalyzerFacts.

Import JsonAnalyzer OpenApiLookup.

(** *** Dictionaries under construction *)

Lemma key_eqb_text_r (k : json) (n : string) :
  Py.key_eqb k (JStr n) = true -> k = JStr n.
Proof. destruct k; try done. simpl. by intros ->%String.eqb_eq. Qed.

Lemma key_eqb_text (n n' : string) :
  Py.key_eqb (JStr n) (JStr n') = String.eqb n n'.
Proof. reflexivity. Qed.

Lemma lookup_set_loop_same (n : string) (v : json) (d : pdict) :
  PDict.lookup (JStr n) (PDict.set_loop (JStr n) v d) = Some v.
Proof.
  induction d as [|[k0 v0] d IH]; simpl.
  - by rewrite String.eqb_refl.
  - destruct (Py.key_eqb k0 (JStr n)) eqn:E; simpl; by rewrite E.
Qed.

Lemma lookup_set_loop_other (n n' : string) (v : json) (d : pdict) :
  n <> n' ->
  PDict.lookup (JStr n') (PDict.set_loop (JStr n) v d) = PDict.lookup (JStr n') d.
Proof.
  intros Hne. induction d as [|[k0 v0] d IH]; simpl.
  - by apply String.eqb_neq in Hne as ->.
  - destruct (Py.key_eqb k0 (JStr n)) eqn:E; simpl.
    + apply key_eqb_text_r in E as ->. rewrite key_eqb_text.
      by apply String.eqb_neq in Hne as ->.
    + by rewrite IH.
Qed.

Lemma mem_set_loop_mono (q k v : json) (d : pdict) :
  PDict.mem q d = true -> PDict.mem q (PDict.set_loop k v d) = true.
Proof.
  unfold PDict.mem. induction d as [|[k0 v0] d IH]; simpl; [done|].
  destruct (Py.key_eqb k0 k); simpl; destruct (Py.key_eqb k0 q); auto.
Qed.

Lemma mem_set_loop_same (n : string) (v : json) (d : pdict) :
  PDict.mem (JStr n) (PDict.set_loop (JStr n) v d) = true.
Proof. unfold PDict.mem. by rewrite lookup_set_loop_same. Qed.

(** *** Steps that only add or overwrite entries *)



















Lemma add_missing_lookup (names : list string) (d d' : pdict) (name : string) :
  for_each add_missing_path_param names d = Ok d' ->
  PDict.lookup (JStr name) d' =
    if PDict.mem (JStr name) d then PDict.lookup (JStr name) d
    else if bool_decide (name ∈ names) then Some (path_entry name) else None.
Proof.
  revert d. induction names as [|n names IH]; intros d.
  - intros [= <-]. unfold PDict.mem. by destruct (PDict.lookup (JStr name) d).
  - cbn [for_each]. unfold mbind, result_bind, add_missing_path_param at 1.
    destruct (PDict.mem (JStr n) d) eqn:En.
    + intros H. rewrite (IH _ H).
      destruct (PDict.mem (JStr name) d) eqn:Em; [done|].
      assert (name <> n) as Hne by (intros ->; congruence).
      rewrite (bool_decide_ext (name ∈ n :: names) (name ∈ names)); [done|].
      rewrite elem_of_cons. naive_solver.
    + cbn [PDict.set Py.hashable]. intros H. rewrite (IH _ H).
      destruct (decide (name = n)) as [->|Hne].
      * rewrite mem_set_loop_same, lookup_set_loop_same, En.
        by rewrite bool_decide_true by left.
      * unfold PDict.mem. rewrite lookup_set_loop_other by done.
        rewrite (bool_decide_ext (name ∈ n :: names) (name ∈ names)); [done|].
        rewrite elem_of_cons. naive_solver.
Qed.





(** The OpenAPI document of the specification's scenario gives one
    record: the path, GET, and [id] of type integer, sourced from the
    path, required. *)
Lemma users_openapi_run :
  (endpoints <$> analyze_json Py.str_scalar pydantic2_APIEndpoint
                   pydantic2_APIDiscovery no_other_format users_openapi)
  = Ok [mkAPIEndpoint "/users/{id}" GET (Some "")
          (Some [("id", param_entry (JStr "id") (JStr "integer") (JStr "path")
                          (JBool true) (JStr "id parameter"))])
          None None false []].
Proof. reflexivity. Qed.

(** A Swagger 2 operation on the same path with nothing declared gives a
    record without parameters. *)
Lemma bare_swagger_run :
  (endpoints <$> analyze_json Py.str_scalar pydantic2_APIEndpoint
                   pydantic2_APIDiscovery no_other_format bare_swagger)
  = Ok [mkAPIEndpoint "/users/{id}" GET (Some "") (Some []) None None false []].
Proof. reflexivity. Qed.

(** The loop of [_extract_swagger_parameters] reads the declared
    parameters only: its [path] argument is not used. *)
Lemma swagger_ignores_path (py_str : json -> string) (method_data : json)
    (path path' : string) :
  _extract_swagger_parameters py_str method_data path
  = _extract_swagger_parameters py_str method_data path'.
Proof. reflexivity. Qed.

(** *** Parameter locations *)

Lemma key_eqb_refl (k : json) : Py.hashable k = true -> Py.key_eqb k k = true.
Proof.
  destruct k as [|b|n|t|l|d]; try done; simpl; intros _.
  - by destruct b.
  - apply Z.eqb_refl.
  - apply String.eqb_refl.
Qed.

Lemma lookup_set_loop_key (k v : json) (d : pdict) :
  Py.hashable k = true -> PDict.lookup k (PDict.set_loop k v d) = Some v.
Proof.
  intros Hk. induction d as [|[k0 v0] d IH]; simpl.
  - by rewrite key_eqb_refl.
  - destruct (Py.key_eqb k0 k) eqn:E; simpl; by rewrite E.
Qed.

Ltac decide_keys :=
  simpl;
  repeat match goal with
         | b : bool |- _ => destruct b; simpl
         end;
  repeat match goal with
         | |- context [(?x =? ?y)%Z] => destruct (Z.eqb_spec x y)
         | |- context [String.eqb ?x ?y] => destruct (String.eqb_spec x y)
         end;
  intros; subst; try done; try lia; try congruence.

Lemma key_eqb_sym (a b : json) : Py.key_eqb a b = Py.key_eqb b a.
Proof. destruct a, b; try done; decide_keys. Qed.

Lemma key_eqb_left (a b c : json) :
  Py.key_eqb a b = true -> Py.key_eqb a c = Py.key_eqb b c.
Proof. destruct a, b; try done; destruct c; try done; decide_keys. Qed.

Lemma lookup_set_loop_any (k v q : json) (d : pdict) :
  PDict.lookup q (PDict.set_loop k v d)
  = if Py.key_eqb k q then Some v else PDict.lookup q d.
Proof.
  induction d as [|[k0 v0] d IH]; [done|]. cbn [PDict.set_loop PDict.lookup].
  destruct (Py.key_eqb k0 k) eqn:E; cbn [PDict.lookup].
  - rewrite (key_eqb_left _ _ q E). by destruct (Py.key_eqb k q).
  - rewrite IH. destruct (Py.key_eqb k0 q) eqn:E0; [|done].
    destruct (Py.key_eqb k q) eqn:E1; [|done].
    rewrite (key_eqb_left _ _ k E0), key_eqb_sym, E1 in E. done.
Qed.

(** *** The first loop *)

Section DeclaredLoop.

Variable py_str : json -> string.

Lemma declared_step_lookup (param : json) (d d' : pdict) (k : json) :
  openapi_declared_step py_str param d = Ok d' ->
  if declares k param
  then exists entry, PDict.lookup k d' = Some entry /\ from_param param entry
  else PDict.lookup k d' = PDict.lookup k d.
Proof.
  unfold openapi_declared_step, declares, from_param, declared_source.
  destruct (Py.get_attr param "name" JNull) as [param_name|]; [|done].
  cbn [mbind result_bind].
  destruct (Py.truthy param_name); cbn [negb andb]; [|by intros [= <-]].
  destruct (Py.get_attr param "schema" (JObj [])) as [schema|]; [|done].
  cbn [mbind result_bind].
  destruct (Py.get_attr schema "type" (JStr "string")) as [ty|]; [|done].
  cbn [mbind result_bind].
  destruct (Py.get_attr param "in" (JStr "query")) as [param_in|]; [|done].
  cbn [mbind result_bind].
  destruct (Py.get_attr param "required" (JBool false)) as [req|]; [|done].
  cbn [mbind result_bind].
  destruct (Py.get_attr param "description" _) as [dsc|]; [|done].
  cbn [mbind result_bind].
  destruct (source_map_get openapi_source_map param_in) as [source|]; [|done].
  cbn [mbind result_bind]. unfold PDict.set.
  destruct (Py.hashable param_name); [|done]. intros [= <-].
  rewrite lookup_set_loop_any.
  destruct (Py.key_eqb param_name k); [|done].
  eexists. split; [done|]. by exists source.
Qed.

Lemma declared_loop_lookup (declared : list json) (d d' : pdict) (k : json) :
  for_each (openapi_declared_step py_str) declared d = Ok d' ->
  match last_declared k declared with
  | Some param => exists entry, PDict.lookup k d' = Some entry /\ from_param param entry
  | None => PDict.lookup k d' = PDict.lookup k d
  end.
Proof.
  unfold last_declared. revert d.
  induction declared as [|param declared IH]; intros d.
  - by intros [= <-].
  - cbn [for_each rev]. unfold mbind at 1, result_bind at 1.
    destruct (openapi_declared_step py_str param d) as [d1|] eqn:E; [|done].
    intros H. specialize (IH _ H). rewrite find_app_first.
    destruct (List.find (declares k) (rev declared)); [done|].
    cbn [List.find]. pose proof (declared_step_lookup param d d1 k E) as Hs.
    destruct (declares k param).
    + destruct Hs as (entry & He & Hf). rewrite IH. by exists entry.
    + by rewrite IH.
Qed.

End DeclaredLoop.

(** *** The placeholders of the path *)

Lemma add_missing_lookup_key (names : list string) (d d' : pdict) (k : json) :
  for_each add_missing_path_param names d = Ok d' ->
  PDict.lookup k d' =
    if PDict.mem k d then PDict.lookup k d
    else match k with
         | JStr name =>
             if bool_decide (name ∈ names) then Some (path_entry name) else None
         | _ => None
         end.
Proof.
  intros H. destruct k as [|b|z|name|l|o]; try exact (add_missing_lookup _ _ _ _ H).
  all: revert d H; induction names as [|x names IH]; intros d;
    [intros [= <-]; unfold PDict.mem; by destruct (PDict.lookup _ d)|];
    cbn [for_each]; unfold mbind, result_bind, add_missing_path_param at 1;
    destruct (PDict.mem (JStr x) d); [apply IH|];
    cbn [PDict.set Py.hashable]; intros H; rewrite (IH _ H);
    unfold PDict.mem; by rewrite lookup_set_loop_any.
Qed.

(** *** The request body *)

Lemma named_app (k : json) (a b : list string) :
  named k (a ++ b) = named k a || named k b.
Proof. apply existsb_app. Qed.

Lemma writes_body_nil (d : pdict) : writes_body [] d d.
Proof. by intros k. Qed.

Lemma writes_body_app (a b : list string) (d d1 d2 : pdict) :
  writes_body a d d1 -> writes_body b d1 d2 -> writes_body (a ++ b) d d2.
Proof.
  intros Ha Hb k. specialize (Ha k). specialize (Hb k). rewrite named_app.
  destruct (named k b); [by rewrite orb_true_r|]. rewrite orb_false_r, Hb.
  exact Ha.
Qed.

Lemma property_step_writes (schema : json) (prop : string * json) (d d' : pdict) :
  openapi_property_step schema prop d = Ok d' -> writes_body [fst prop] d d'.
Proof.
  destruct prop as [prop_name prop_data]. unfold openapi_property_step.
  destruct (Py.get_attr prop_data "type" (JStr "string")) as [ty|]; [|done].
  cbn [mbind result_bind].
  destruct (Py.get_attr schema "required" (JArr [])) as [names|]; [|done].
  cbn [mbind result_bind].
  destruct (Py.contains prop_name names) as [required|]; [|done].
  cbn [mbind result_bind].
  destruct (Py.get_attr prop_data "description" _) as [dsc|]; [|done].
  cbn [mbind result_bind PDict.set Py.hashable]. intros [= <-] k.
  rewrite lookup_set_loop_any. unfold named. cbn [existsb fst].
  rewrite orb_false_r. destruct (Py.key_eqb (JStr prop_name) k); [|done].
  by eexists.
Qed.

Lemma property_loop_writes (schema : json) (props : list (string * json))
    (d d' : pdict) :
  for_each (openapi_property_step schema) props d = Ok d' ->
  writes_body (fst <$> props) d d'.
Proof.
  revert d. induction props as [|prop props IH]; intros d.
  - intros [= <-]. apply writes_body_nil.
  - cbn [for_each]. unfold mbind at 1, result_bind at 1.
    destruct (openapi_property_step schema prop d) as [d1|] eqn:E; [|done].
    intros H. rewrite fmap_cons.
    apply (writes_body_app [fst prop] _ d d1 d'); [|by apply IH].
    by eapply property_step_writes.
Qed.

Lemma content_step_writes (content : string * json) (d d' : pdict) :
  openapi_content_step content d = Ok d' ->
  writes_body (json_properties content) d d'.
Proof.
  destruct content as [content_type content_data].
  unfold openapi_content_step, json_properties. cbn [fst snd].
  destruct (PyStr.contains content_type "application/json");
    [|intros [= <-]; apply writes_body_nil].
  destruct content_data as [| | | | |content_data]; try done.
  cbn [Py.get_attr mbind result_bind].
  destruct (Py.get content_data "schema" (JObj [])) as [| | | | |schema]; try done.
  cbn [Py.get_attr mbind result_bind].
  destruct (Py.get schema "properties" (JObj [])) as [| | | | |properties]; try done.
  cbn [Py.items mbind result_bind].
  apply property_loop_writes.
Qed.

Lemma content_loop_writes (contents : list (string * json)) (d d' : pdict) :
  for_each openapi_content_step contents d = Ok d' ->
  writes_body (flat_map json_properties contents) d d'.
Proof.
  revert d. induction contents as [|content contents IH]; intros d.
  - intros [= <-]. apply writes_body_nil.
  - cbn [for_each flat_map]. unfold mbind at 1, result_bind at 1.
    destruct (openapi_content_step content d) as [d1|] eqn:E; [|done].
    intros H. eapply writes_body_app; [by eapply content_step_writes|by apply IH].
Qed.

Lemma request_body_writes (operation : dict) (d d' : pdict) :
  openapi_request_body (JObj operation) d = Ok d' ->
  writes_body (body_properties (JObj operation)) d d'.
Proof.
  unfold openapi_request_body, body_properties.
  cbn [Py.contains Py.subscript mbind result_bind]. unfold Py.mem.
  destruct (Py.lookup "requestBody" operation) as [request_body|];
    [|intros [= <-]; apply writes_body_nil].
  cbn [mbind result_bind].
  destruct request_body as [| | | | |request_body]; try done.
  cbn [Py.get_attr mbind result_bind].
  destruct (Py.get request_body "content" (JObj [])) as [| | | | |content]; try done.
  cbn [Py.items mbind result_bind].
  apply content_loop_writes.
Qed.

(** C7. In the OpenAPI 3 parser the locations query, path and header
    map to the source of the same name, the location cookie maps to the
    source header, and any other text maps to query.  In the dictionary
    the extractor returns, the entry under a key is the one that was
    written last: under the name of a property of the JSON request body
    it has the source body; under any other name that a declared
    parameter has, it has the source that the location of the last
    declared parameter of that name maps to; under any other key there
    is the placeholder entry of the path, if the key is the name of a
    placeholder, and nothing otherwise. *)
Theorem openapi_location_mapping :
  forall (py_str : json -> string),
    openapi_source "query" = "query"
    /\ openapi_source "path" = "path"
    /\ openapi_source "header" = "header"
    /\ openapi_source "cookie" = "header"
    /\ (forall location,
          location ∉ ["query"; "path"; "header"; "cookie"] ->
          openapi_source location = "query")
    /\ (forall param location,
          Py.get_attr param "in" (JStr "query") = Ok (JStr location) ->
          declared_source param = Ok (openapi_source location))
    /\ (forall method_data path params,
          _extract_openapi_parameters py_str method_data path = Ok params ->
          exists declared,
            declared_parameters method_data = Ok declared
            /\ forall k : json,
                 if named k (body_properties method_data)
                 then exists entry,
                        PDict.lookup k params = Some entry
                        /\ Py.get_attr entry "source" JNull = Ok (JStr "body")
                 else match last_declared k declared with
                      | Some param =>
                          exists entry source,
                            PDict.lookup k params = Some entry
                            /\ declared_source param = Ok source
                            /\ Py.get_attr entry "source" JNull = Ok (JStr source)
                      | None => PDict.lookup k params = placeholder_entry k path
                      end).
Proof.
  intros py_str. repeat split.
  - intros location Hn. unfold openapi_source, openapi_source_map.
    cbn [McpServerGenerator.table_get].
    repeat match goal with
           | |- context [String.eqb ?a location] =>
               destruct (String.eqb_spec a location) as [<-|_];
               [exfalso; apply Hn; rewrite !elem_of_cons; auto 10|]
           end.
    done.
  - intros param location Hin. unfold declared_source. by rewrite Hin.
  - intros method_data path params.
    unfold _extract_openapi_parameters, openapi_declared, declared_parameters.
    destruct (Py.get_attr method_data "parameters" (JArr [])) as [value|] eqn:Ev;
      [|done].
    cbn [mbind result_bind].
    destruct (Py.iter value) as [declared|]; [|done]. cbn [mbind result_bind].
    destruct (for_each (openapi_declared_step py_str) declared []) as [d0|] eqn:E0;
      [|done].
    cbn [mbind result_bind].
    destruct (for_each add_missing_path_param (find_brace_params path) d0)
      as [d1|] eqn:E1; [|done].
    cbn [mbind result_bind]. intros Hb.
    exists declared. split; [done|]. intros k.
    destruct method_data as [| | | | |operation]; try done.
    pose proof (request_body_writes operation d1 params Hb k) as Hw.
    destruct (named k (body_properties (JObj operation))); [exact Hw|].
    rewrite Hw, (add_missing_lookup_key _ _ _ k E1).
    pose proof (declared_loop_lookup py_str declared [] d0 k E0) as Hd.
    unfold PDict.mem.
    destruct (last_declared k declared) as [param|].
    + destruct Hd as (entry & -> & source & Hs & He). by exists entry, source.
    + rewrite Hd. reflexivity.
Qed.

Lemma openapi_location_mapping_witness :
  (("formData" ∉ ["query"; "path"; "header"; "cookie"])
   /\ openapi_source "formData" = "query")
  /\ declared_source (JObj [("name", JStr "session"); ("in", JStr "cookie")])
     = Ok (openapi_source "cookie")
  /\ exists params,
       _extract_openapi_parameters Py.str_scalar shadowed_operation "/users/{id}"
       = Ok params
       /\ (exists entry source,
             PDict.lookup (JStr "id") params = Some entry
             /\ declared_source (JObj [("name", JStr "id"); ("in", JStr "formData")])
                = Ok source
             /\ Py.get_attr entry "source" JNull = Ok (JStr source))
       /\ (exists entry,
             PDict.lookup (JStr "session") params = Some entry
             /\ Py.get_attr entry "source" JNull = Ok (JStr "body")).
Proof.
  pose proof (openapi_location_mapping Py.str_scalar)
    as (_ & _ & _ & _ & Hother & Hsource & Hparams).
  assert ("formData" ∉ ["query"; "path"; "header"; "cookie"]) as Hn.
  { apply (bool_decide_unpack _). vm_compute. exact I. }
  split; [split; [exact Hn|exact (Hother "formData" Hn)]|].
  split;
    [exact (Hsource (JObj [("name", JStr "session"); ("in", JStr "cookie")])
              "cookie" eq_refl)|].
  destruct (Hparams shadowed_operation "/users/{id}" _ eq_refl)
    as (declared & Hd & Hk).
  injection Hd as <-.
  eexists. split; [reflexivity|].
  split; [exact (Hk (JStr "id"))|exact (Hk (JStr "session"))].
Defined.

(** The operation declares the parameter [session] with the location
    cookie; its entry has the source header. *)
Lemma cookie_parameter_gets_header :
  exists params entry,
    _extract_openapi_parameters Py.str_scalar cookie_operation "/users" = Ok params
    /\ PDict.lookup (JStr "session") params = Some entry
    /\ Py.get_attr entry "source" JNull = Ok (JStr "header")
    /\ Py.get_attr entry "source" JNull <> Ok (JStr "cookie").
Proof. eexists _, _. repeat split; try reflexivity. discriminate. Qed.

(** *** The custom endpoint list *)

Section CustomList.

Variable py_str : json -> string.
Variable new_APIEndpoint :
  string -> HTTPMethod -> json -> pdict -> json -> result APIEndpoint.
Variable new_APIDiscovery :
  json -> list APIEndpoint -> option AuthenticationInfo -> json -> list json
  -> result APIDiscovery.
Variable parse_other_format : string -> json -> result APIDiscovery.

(** On a list the parser runs its loop and then calls [get] on the
    list. *)
Lemma parse_custom_list_raises (items : list json) :
  is_ok (_parse_custom_endpoints new_APIEndpoint new_APIDiscovery (JArr items)) = false.
Proof.
  unfold _parse_custom_endpoints.
  cbn [custom_endpoint_data Py.iter mbind result_bind].
  by destruct (custom_items_loop new_APIEndpoint items []).
Qed.

(** On such a list the detection raises or answers [custom_endpoints]. *)
Lemma detect_endpoint_list (json_data : json) :
  looks_like_endpoint_list json_data = true ->
  _detect_json_format json_data = Ok "custom_endpoints"
  \/ is_ok (_detect_json_format json_data) = false.
Proof.
  intros Hl. unfold _detect_json_format. rewrite Hl.
  destruct json_data as [| | | |l|]; try discriminate.
  unfold and_then, or_else, mbind, result_bind.
  cbn [Py.contains Py.get_attr Py.subscript].
  repeat case_match; simplify_eq; auto.
Qed.

(** C8. On a top-level array whose first element is an object with one of
    the keys [path], [url] and [method], [analyze_json] returns no
    discovery result: it raises. *)
Theorem top_level_list_raises :
  forall json_data : json,
    looks_like_endpoint_list json_data = true ->
    is_ok (analyze_json py_str new_APIEndpoint new_APIDiscovery parse_other_format
             json_data)
    = false.
Proof.
  intros json_data Hl. unfold analyze_json.
  destruct (detect_endpoint_list json_data Hl) as [->|Hd].
  - cbn [mbind result_bind]. rewrite String.eqb_refl.
    destruct json_data as [| | | |l|]; try discriminate.
    apply parse_custom_list_raises.
  - by destruct (_detect_json_format json_data).
Qed.

End CustomList.

Lemma top_level_list_raises_witness :
  looks_like_endpoint_list users_list = true
  /\ is_ok (analyze_json Py.str_scalar pydantic2_APIEndpoint pydantic2_APIDiscovery no_other_format
              users_list) = false.
Proof.
  split; [reflexivity|].
  apply (top_level_list_raises Py.str_scalar pydantic2_APIEndpoint pydantic2_APIDiscovery
           no_other_format users_list).
  reflexivity.
Defined.

(** What the run on the list is, and what the same entry gives under the
    key [routes]. *)
Lemma users_list_run :
  _detect_json_format users_list = Ok "custom_endpoints"
  /\ analyze_json Py.str_scalar pydantic2_APIEndpoint pydantic2_APIDiscovery no_other_format
       users_list = Raise AttributeError
  /\ (endpoints <$> analyze_json Py.str_scalar pydantic2_APIEndpoint pydantic2_APIDiscovery
                      no_other_format users_routes)
     = Ok [mkAPIEndpoint "/users" GET (Some "") (Some []) None None false []].
Proof. repeat split; reflexivity. Qed.

(** The custom document of the specification's scenario gives one record:
    the path with its leading slash, POST, and [qty] from the body,
    required. *)
Lemma orders_routes_run :
  (endpoints <$> analyze_json Py.str_scalar pydantic2_APIEndpoint pydantic2_APIDiscovery
                   no_other_format orders_routes)
  = Ok [mkAPIEndpoint "/orders" POST (Some "")
          (Some [("qty", param_entry (JStr "qty") (JStr "string") (JStr "body")
                           (JBool true) (JStr "qty parameter"))])
          None None false []].
Proof. reflexivity. Qed.

End JsonAnalyzerFacts.

(** ** The pattern extractor of pdf_analyzer.py *)

Module PdfAnalyzerFacts.

Import PdfAnalyzer.

Lemma insert_by_url_elem (x y : APIEndpoint) (l : list APIEndpoint) :
  x ∈ insert_by_url y l <-> x = y \/ x ∈ l.
Proof.
  induction l as [|z l IH]; simpl.
  - rewrite list_elem_of_singleton, elem_of_nil. naive_solver.
  - destruct (String.leb (url y) (url z)).
    + by rewrite elem_of_cons.
    + rewrite !elem_of_cons, IH. naive_solver.
Qed.

Lemma sort_by_url_elem (x : APIEndpoint) (l : list APIEndpoint) :
  x ∈ sort_by_url l <-> x ∈ l.
Proof.
  induction l as [|y l IH]; simpl; [done|].
  by rewrite insert_by_url_elem, elem_of_cons, IH.
Qed.

Section Extraction.

Variable re_finditer : string -> string -> list Match.
Variable _extract_parameters_from_context : string -> dict.
Variable _extract_description_from_context : string -> option string.
Variable _extract_tags_from_context : string -> list string.

Abbreviation process_match' :=
  (process_match _extract_parameters_from_context
     _extract_description_from_context _extract_tags_from_context).

Lemma process_match_valid (text_content : string) (mt : Match)
    (endpoints : list APIEndpoint) :
  all_valid endpoints -> all_valid (process_match' text_content mt endpoints).
Proof.
  intros Hv. unfold process_match.
  repeat case_match; try done.
  intros ep [Hin|Heq%list_elem_of_singleton]%elem_of_app; [by apply Hv|].
  subst ep. cbn [url]. by apply negb_false_iff.
Qed.

Lemma fold_matches_valid (text_content : string) (ms : list Match)
    (endpoints : list APIEndpoint) :
  all_valid endpoints ->
  all_valid (fold_left (fun eps mt => process_match' text_content mt eps) ms endpoints).
Proof.
  revert endpoints. induction ms as [|mt ms IH]; intros endpoints Hv; [done|].
  simpl. by apply IH, process_match_valid.
Qed.

Lemma fold_patterns_valid (text_content : string) (ps : list string)
    (endpoints : list APIEndpoint) :
  all_valid endpoints ->
  all_valid (fold_left
               (process_pattern re_finditer _extract_parameters_from_context
                  _extract_description_from_context _extract_tags_from_context
                  text_content) ps endpoints).
Proof.
  revert endpoints. induction ps as [|pat ps IH]; intros endpoints Hv; [done|].
  simpl. apply IH. unfold process_pattern. by apply fold_matches_valid.
Qed.

(** C9. Every record the pattern extractor returns has a path that
    [_is_valid_api_path] accepts: it starts with a slash, has from 2 to
    200 characters, does not end in one of the listed file extensions,
    and does not start with [/static/], [/assets/] or [/public/].  No
    marker segment is asked for. *)
Theorem extracted_paths_are_valid :
  forall (text_content : string) (ep : APIEndpoint),
    ep ∈ _extract_api_endpoints re_finditer _extract_parameters_from_context
           _extract_description_from_context _extract_tags_from_context text_content ->
    _is_valid_api_path (url ep) = true
    /\ PyStr.startswith (url ep) "/" = true
    /\ 2 <= String.length (url ep) <= 200
    /\ existsb (fun e => ends_at_anchor (PyStr.lower (url ep)) ("." +:+ e))
         file_extensions = false
    /\ String.prefix "/static/" (PyStr.lower (url ep)) = false
    /\ String.prefix "/assets/" (PyStr.lower (url ep)) = false
    /\ String.prefix "/public/" (PyStr.lower (url ep)) = false.
Proof.
  intros text_content ep Hin. unfold _extract_api_endpoints in Hin.
  apply (proj1 (sort_by_url_elem _ _)) in Hin.
  assert (_is_valid_api_path (url ep) = true) as Hv.
  { eapply fold_patterns_valid; [|exact Hin]. by intros ? ?%elem_of_nil. }
  split; [done|]. revert Hv. unfold _is_valid_api_path.
  destruct (PyStr.startswith (url ep) "/"); [|done]. cbn [negb].
  destruct (String.length (url ep) <? 2)%nat eqn:E1; [done|].
  destruct (200 <? String.length (url ep))%nat eqn:E2; [done|].
  apply Nat.ltb_ge in E1, E2. cbn [orb invalid_patterns existsb].
  intros H%negb_true_iff. repeat (apply orb_false_iff in H as [? H]).
  repeat split; try done; lia.
Qed.

End Extraction.

Lemma extracted_paths_are_valid_witness :
  get_users_record
    ∈ _extract_api_endpoints get_users_finditer (fun _ => []) (fun _ => None)
        (fun _ => []) get_users_text
  /\ _is_valid_api_path (url get_users_record) = true.
Proof.
  assert (get_users_record
            ∈ _extract_api_endpoints get_users_finditer (fun _ => []) (fun _ => None)
                (fun _ => []) get_users_text) as Hin by left.
  split; [exact Hin|].
  exact (proj1 (extracted_paths_are_valid get_users_finditer (fun _ => [])
                  (fun _ => None) (fun _ => []) get_users_text get_users_record Hin)).
Defined.

(** The path [/users] has no marker segment; [_is_valid_api_path]
    accepts it, and the match of [GET /users] gives a record. *)
Lemma path_without_marker_is_extracted :
  has_marker_segment "/users" = false
  /\ _is_valid_api_path "/users" = true
  /\ _extract_api_endpoints get_users_finditer (fun _ => []) (fun _ => None)
       (fun _ => []) get_users_text = [get_users_record]
  /\ has_marker_segment (url get_users_record) = false.
Proof. repeat split; reflexivity. Qed.

End PdfAnalyzerFacts.

(** ** The Python extractor of enhanced_analyzer.py *)

Module EnhancedAnalyzerFacts.

Import EnhancedAnalyzer.

Lemma constant_eqb_value (a b : constant) :
  constant_eqb a b = true <-> constant_value_of a = constant_value_of b.
Proof.
  destruct a as [x|x|x| |x|], b as [y|y|y| |y|]; simpl;
    rewrite ?String.eqb_eq, ?Z.eqb_eq, ?eqb_true_iff;
    try (split; [congruence|intros [= ?]; congruence]);
    try (split; [done|done]);
    try (destruct x; split; [congruence|intros [= ?]; congruence]);
    try (destruct y; split; [congruence|intros [= ?]; congruence]).
  destruct x, y; split; congruence.
Qed.

Lemma key_eqb_value (k k' : HTTPMethod * constant) :
  key_eqb k k' = bool_decide (key_value_of k = key_value_of k').
Proof.
  unfold key_eqb, key_value_of. apply eq_true_iff_eq.
  rewrite andb_true_iff, !bool_decide_eq_true, constant_eqb_value.
  split; [by intros [-> ->]|by intros [= -> ->]].
Qed.

Section Comprehension.

Context {Details : Type}.

Abbreviation entry := ((HTTPMethod * constant) * EnhancedEndpoint Details)%type.

Lemma dict_get_set (k q : HTTPMethod * constant) (ep : EnhancedEndpoint Details)
    (d : list entry) :
  dict_get q (dict_set k ep d) = if key_eqb k q then Some ep else dict_get q d.
Proof.
  induction d as [|[k0 ep0] d IH]; simpl; [done|].
  rewrite !key_eqb_value in *.
  repeat case_bool_decide; simpl; rewrite ?key_eqb_value;
    repeat case_bool_decide; try congruence.
Qed.

Lemma dict_set_keys (k : HTTPMethod * constant) (ep : EnhancedEndpoint Details)
    (d : list entry) :
  (key_value_of ∘ fst <$> dict_set k ep d) =
  if bool_decide (key_value_of k ∈ (key_value_of ∘ fst <$> d))
  then key_value_of ∘ fst <$> d
  else (key_value_of ∘ fst <$> d) ++ [key_value_of k].
Proof.
  induction d as [|[k0 ep0] d IH]; [done|].
  cbn [dict_set]. rewrite key_eqb_value.
  destruct (decide (key_value_of k0 = key_value_of k)) as [E|E].
  - rewrite bool_decide_true by done. rewrite !fmap_cons. cbn [compose fst].
    rewrite bool_decide_true; [done|]. rewrite E. left.
  - rewrite bool_decide_false by done. rewrite !fmap_cons, IH. cbn [compose fst].
    destruct (decide (key_value_of k ∈ key_value_of ∘ fst <$> d)) as [Hin|Hout].
    + rewrite !bool_decide_true; [done|by right|done].
    + rewrite !bool_decide_false; [done| |done].
      rewrite elem_of_cons. naive_solver.
Qed.

Lemma dict_set_keyed (ep : EnhancedEndpoint Details) (d : list entry) :
  keyed d -> keyed (dict_set (endpoint_key ep) ep d).
Proof.
  unfold keyed. induction 1 as [|[k0 ep0] d H0 Hd IH]; simpl.
  - by repeat constructor.
  - rewrite key_eqb_value. case_bool_decide as E; constructor; try done.
Qed.

Lemma dict_set_NoDup (k : HTTPMethod * constant) (ep : EnhancedEndpoint Details)
    (d : list entry) :
  NoDup (key_value_of ∘ fst <$> d) ->
  NoDup (key_value_of ∘ fst <$> dict_set k ep d).
Proof.
  intros Hnd. rewrite dict_set_keys. case_bool_decide; [done|].
  apply NoDup_app. split; [done|]. split; [|apply NoDup_singleton].
  intros x Hx ->%list_elem_of_singleton. done.
Qed.

Lemma fold_invariants (endpoints : list (EnhancedEndpoint Details)) (d : list entry) :
  keyed d -> NoDup (key_value_of ∘ fst <$> d) ->
  let d' := fold_left (fun d ep => dict_set (endpoint_key ep) ep d) endpoints d in
  keyed d' /\ NoDup (key_value_of ∘ fst <$> d')
  /\ forall q, dict_get q d' =
       match List.find (has_pair q) (rev endpoints) with
       | Some ep => Some ep
       | None => dict_get q d
       end.
Proof.
  revert d. induction endpoints as [|ep endpoints IH]; intros d Hk Hnd; simpl.
  - done.
  - destruct (IH (dict_set (endpoint_key ep) ep d)) as (Hk' & Hnd' & Hget).
    { by apply dict_set_keyed. }
    { by apply dict_set_NoDup. }
    split; [done|]. split; [done|].
    intros q. rewrite Hget, find_app_first.
    destruct (List.find (has_pair q) (rev endpoints)); [done|].
    rewrite dict_get_set. simpl. unfold has_pair.
    rewrite !key_eqb_value. repeat case_bool_decide; congruence.
Qed.

Lemma values_with_pair (q : HTTPMethod * constant) (d : list entry) :
  keyed d -> NoDup (key_value_of ∘ fst <$> d) ->
  List.filter (has_pair q) (List.map snd d) = option_list (dict_get q d).
Proof.
  unfold keyed. induction 1 as [|[k0 ep0] d H0 Hd IH]; simpl; [done|].
  rewrite NoDup_cons. intros [Hn Hnd]. simpl in H0, Hn.
  unfold has_pair at 1. rewrite !key_eqb_value, <- H0.
  case_bool_decide as E.
  - rewrite bool_decide_true by done. simpl. f_equal.
    rewrite IH by done.
    assert (dict_get q d = None) as ->; [|done].
    clear IH Hd Hnd. induction d as [|[k1 ep1] d IHd]; simpl; [done|].
    rewrite key_eqb_value. case_bool_decide as E1.
    + exfalso. apply Hn. rewrite <- E, <- E1. simpl. left.
    + apply IHd. intros Hin. apply Hn. simpl. by right.
  - rewrite bool_decide_false by done. by apply IH.
Qed.

Lemma unique_endpoints_last (endpoints : list (EnhancedEndpoint Details))
    (q : HTTPMethod * constant) :
  List.filter (has_pair q) (unique_endpoints endpoints)
  = option_list (List.find (has_pair q) (rev endpoints)).
Proof.
  unfold unique_endpoints.
  destruct (fold_invariants endpoints []) as (Hk & Hnd & Hget);
    [constructor|constructor|].
  rewrite values_with_pair by done. rewrite Hget.
  by destruct (List.find (has_pair q) (rev endpoints)).
Qed.

End Comprehension.

Section Yields.

Context {Body Details : Type}.
Variable analyze_details : FunctionDef Body -> RouteInfo -> result Details.
Variable router_names : gset string.

(** The walk returns exactly when the analysis of every function
    returns, and then it has added the records they yield, in their
    order. *)
Lemma walk_functions_yields (nodes : list (FunctionDef Body))
    (endpoints : list (EnhancedEndpoint Details)) :
  match walk_functions router_names analyze_details nodes endpoints with
  | Ok found =>
      forallb (fun node =>
                 is_ok (_analyze_python_function router_names analyze_details node))
        nodes = true
      /\ found =
         endpoints
         ++ omap (fun node =>
                    match _analyze_python_function router_names analyze_details node with
                    | Ok (Some ep) => Some ep
                    | _ => None
                    end) nodes
  | Raise _ =>
      forallb (fun node =>
                 is_ok (_analyze_python_function router_names analyze_details node))
        nodes = false
  end.
Proof.
  revert endpoints. induction nodes as [|node nodes IH]; intros endpoints.
  - cbn. by rewrite app_nil_r.
  - cbn [walk_functions forallb omap list_omap].
    destruct (_analyze_python_function router_names analyze_details node)
      as [[ep|]|]; cbn [mbind result_bind is_ok andb]; [| |done].
    + specialize (IH (endpoints ++ [ep])).
      destruct (walk_functions _ _ nodes _); [|done].
      destruct IH as [-> ->]. split; [done|]. by rewrite <- app_assoc.
    + specialize (IH endpoints).
      destruct (walk_functions _ _ nodes _); [|done]. done.
Qed.

End Yields.

(** C10. When the analysis of every function definition of a file
    returns, the records that [_analyze_python_file] returns for a
    (method, url) pair are the record of the last function, in traversal
    order, that yields the pair, and nothing else; when the analysis of
    some function raises, the file gives no record at all. *)
Theorem python_file_last_handler_wins :
  forall (Body Details : Type)
         (analyze_details : FunctionDef Body -> RouteInfo -> result Details)
         (router_names : gset string) (nodes : list (FunctionDef Body))
         (pair : HTTPMethod * constant),
    let analysis := _analyze_python_function router_names analyze_details in
    let yielded :=
      omap (fun node => match analysis node with
                        | Ok (Some ep) => Some ep
                        | _ => None
                        end) nodes in
    if forallb (fun node => is_ok (analysis node)) nodes
    then
      List.filter (has_pair pair)
        (_analyze_python_file analyze_details router_names nodes)
      = option_list (List.find (has_pair pair) (rev yielded))
    else _analyze_python_file analyze_details router_names nodes = [].
Proof.
  intros Body Details analyze_details router_names nodes pair. cbv zeta.
  unfold _analyze_python_file.
  pose proof (walk_functions_yields analyze_details router_names nodes []) as Hw.
  destruct (walk_functions router_names analyze_details nodes []) as [found|].
  - destruct Hw as [-> ->]. cbn [fmap result_fmap try_except app].
    apply unique_endpoints_last.
  - by rewrite Hw.
Qed.

Lemma python_file_last_handler_wins_witness :
  List.filter (has_pair (GET, CStr "/items"))
    (_analyze_python_file handler_name_details default_router_names
       [list_items; create_item; list_items_v2])
  = [mkEnhancedEndpoint (CStr "/items") GET (Some "list_items_v2") "list_items_v2"].
Proof.
  exact (python_file_last_handler_wins unit string handler_name_details
           default_router_names [list_items; create_item; list_items_v2]
           (GET, CStr "/items")).
Defined.

(** The handlers [list_items] and [list_items_v2] both yield the pair
    of GET and [/items]; in a file that has the handler [health] too,
    under a plain [@app.route], the walk raises and the file gives no
    record for the pair. *)
Lemma same_pair_handlers_lost :
  _analyze_python_function default_router_names handler_name_details list_items
  = Ok (Some (mkEnhancedEndpoint (CStr "/items") GET (Some "list_items") "list_items"))
  /\ _analyze_python_function default_router_names handler_name_details list_items_v2
     = Ok (Some (mkEnhancedEndpoint (CStr "/items") GET (Some "list_items_v2")
                   "list_items_v2"))
  /\ List.filter (has_pair (GET, CStr "/items"))
       (_analyze_python_file handler_name_details default_router_names
          [list_items; create_item; list_items_v2; health])
     = [].
Proof. repeat split; reflexivity. Qed.

(** The file of the three handlers gives two records, the one of the
    later GET handler in the place of the earlier; with a plain
    [@app.route] handler added, whose method name [ROUTE] is no member of
    [HTTPMethod], the walk raises and the file gives no record. *)
Lemma three_handlers_run :
  _analyze_python_file handler_name_details default_router_names
    [list_items; create_item; list_items_v2]
  = [mkEnhancedEndpoint (CStr "/items") GET (Some "list_items_v2") "list_items_v2";
     mkEnhancedEndpoint (CStr "/items") POST (Some "create_item") "create_item"]
  /\ _analyze_python_file handler_name_details default_router_names
       [list_items; create_item; list_items_v2; health]
     = [].
Proof. split; reflexivity. Qed.

End EnhancedAnalyzerFacts.
(** * Further properties *)

(** ** The merge stage over several sources *)

Module MergeFacts.

Import ApiDiscoverer.

Lemma NoDup_fmap_equiv {A B C : Type} (f : A -> B) (g : A -> C) (l : list A) :
  (forall a b, f a = f b <-> g a = g b) ->
  NoDup (f <$> l) -> NoDup (g <$> l).
Proof.
  intros Hfg. induction l as [|x l IH]; [constructor|].
  rewrite !fmap_cons. intros [Hx Hnd]%NoDup_cons. constructor; [|by apply IH].
  intros (y & Hy & Hin)%list_elem_of_fmap. apply Hx.
  apply list_elem_of_fmap. exists y. split; [|done]. by apply Hfg.
Qed.

Lemma dedup_loop_seen py311 (s1 s2 : gset string) (l : list APIEndpoint) :
  dedup_loop py311 (s1 ∪ s2) [] l =
  dedup_loop py311 s1 []
    (List.filter (fun e => bool_decide (endpoint_key py311 e ∉ s2)) l).
Proof.
  revert s1. induction l as [|x l IH]; intros s1; [done|].
  cbn [List.filter]. case_bool_decide as Hx.
  - destruct (decide (endpoint_key py311 x ∈ s1)) as [Hin|Hout].
    + rewrite !ApiDiscovererFacts.run_cons_seen by set_solver. apply IH.
    + rewrite !ApiDiscovererFacts.run_cons_new by set_solver. f_equal.
      rewrite <- IH. f_equal. set_solver.
  - rewrite ApiDiscovererFacts.run_cons_seen by set_solver. apply IH.
Qed.

Lemma filter_ext_in {A : Type} (f g : A -> bool) (l : list A) :
  (forall a, a ∈ l -> f a = g a) -> List.filter f l = List.filter g l.
Proof.
  induction l as [|x l IH]; intros H; [done|]. simpl.
  rewrite (H x) by left. rewrite IH; [done|]. intros a Ha. apply H. by right.
Qed.

(** X1. Merging the records of one source followed by those of another
    gives the merge of the first source, then the merge of the records
    of the second whose identity the first source does not have: what
    an earlier source contributed is never changed by a later one. *)
Theorem dedup_appended_source (py311 : bool) (l1 l2 : list APIEndpoint) :
  _deduplicate_endpoints py311 (l1 ++ l2) =
  _deduplicate_endpoints py311 l1
  ++ _deduplicate_endpoints py311
       (List.filter (fun e => bool_decide (identity e ∉ identity <$> l1)) l2).
Proof.
  unfold _deduplicate_endpoints.
  rewrite ApiDiscovererFacts.run_app. f_equal.
  rewrite dedup_loop_seen. f_equal. apply filter_ext_in. intros e _.
  apply bool_decide_ext. rewrite elem_of_list_to_set.
  split; intros Hn Hin; apply Hn.
  - apply list_elem_of_fmap in Hin as (y & Hy & Hin).
    apply list_elem_of_fmap. exists y. split; [|done].
    by apply (proj2 (ApiDiscovererFacts.endpoint_key_identity py311 e y)).
  - apply list_elem_of_fmap in Hin as (y & Hy & Hin).
    apply list_elem_of_fmap. exists y. split; [|done].
    by apply (proj1 (ApiDiscovererFacts.endpoint_key_identity py311 e y)).
Qed.

(** X2. The merge stage returns its input unchanged exactly when no two
    records of the input share a (method, url) identity. *)
Theorem dedup_fixed_iff_distinct (py311 : bool) (l : list APIEndpoint) :
  _deduplicate_endpoints py311 l = l <-> NoDup (identity <$> l).
Proof.
  unfold _deduplicate_endpoints. split.
  - intros H. apply (NoDup_fmap_equiv (endpoint_key py311)).
    + intros a b. apply ApiDiscovererFacts.endpoint_key_identity.
    + rewrite <- H at 1. apply ApiDiscovererFacts.run_NoDup.
  - intros H. apply ApiDiscovererFacts.run_fixed; [|set_solver].
    apply (NoDup_fmap_equiv identity); [|done].
    intros a b. symmetry. apply ApiDiscovererFacts.endpoint_key_identity.
Qed.

Lemma dedup_fixed_iff_distinct_witness :
  NoDup (identity <$> [McpServerGenerator.user_by_id; users_A])
  /\ _deduplicate_endpoints true [McpServerGenerator.user_by_id; users_A]
     = [McpServerGenerator.user_by_id; users_A].
Proof.
  assert (NoDup (identity <$> [McpServerGenerator.user_by_id; users_A])) as H.
  { apply (bool_decide_unpack _). vm_compute. exact I. }
  split; [exact H|].
  exact (proj2 (dedup_fixed_iff_distinct true _) H).
Defined.

End MergeFacts.

(** ** Shape of the generated tool name *)

Module ToolNameFacts.

Import McpServerGenerator Shape.

Lemma rstrip_char_keep c a r :
  Ascii.eqb a c = false ->
  PyStr.rstrip_char c (String a r) = String a (PyStr.rstrip_char c r).
Proof.
  intros Ha. simpl. destruct (PyStr.rstrip_char c r); by rewrite ?Ha.
Qed.

Lemma rstrip_char_last c s : last_char (PyStr.rstrip_char c s) <> Some c.
Proof.
  induction s as [|a r IH]; [done|]. simpl.
  destruct (PyStr.rstrip_char c r) as [|b r'] eqn:E.
  - destruct (Ascii.eqb_spec a c); [done|]. simpl. congruence.
  - exact IH.
Qed.

Lemma rstrip_char_prefix c s : exists t, s = PyStr.rstrip_char c s +:+ t.
Proof.
  induction s as [|a r [t IH]]; [by exists ""|]. simpl.
  destruct (PyStr.rstrip_char c r) as [|b r'] eqn:E.
  - destruct (Ascii.eqb a c).
    + by exists (String a r).
    + exists t. rewrite append_cons_eq. by rewrite <- IH.
  - exists t. rewrite append_cons_eq. by rewrite <- IH.
Qed.

Lemma prefix_app_l p a t :
  String.prefix p a = true -> String.prefix p (a +:+ t) = true.
Proof.
  revert a. induction p as [|x p IH]; intros a; [intros _; by destruct (a +:+ t)|].
  destruct a as [|y a]; [done|]. rewrite append_cons_eq. simpl.
  destruct (ascii_dec x y); [apply IH|done].
Qed.

Lemma contains_app_l a t p :
  PyStr.contains a p = true -> PyStr.contains (a +:+ t) p = true.
Proof.
  induction a as [|x a IH].
  - destruct p as [|x p]; [intros _; rewrite append_nil_l; by destruct t|by simpl].
  - rewrite append_cons_eq. cbn [PyStr.contains].
    destruct (String.prefix p (String x a)) eqn:E.
    + intros _. apply (prefix_app_l _ _ t) in E.
      rewrite append_cons_eq in E. by rewrite E.
    + intros H. destruct (String.prefix p (String x (a +:+ t))); [done|]. by apply IH.
Qed.

Lemma collapse_underscores_head s :
  String.prefix "__" (collapse_underscores s) = false.
Proof.
  induction s as [|c r IH]; [done|]. cbn [collapse_underscores].
  destruct (Ascii.eqb_spec c "_") as [->|Hc].
  - destruct r as [|c' r']; [done|].
    destruct (Ascii.eqb_spec c' "_") as [->|Hc']; [exact IH|].
    rewrite McpServerGeneratorFacts.collapse_underscores_cons
      by by apply Ascii.eqb_neq.
    cbn [String.prefix]. destruct (ascii_dec "_" c') as [<-|]; [done|].
    by destruct (ascii_dec "_" "_").
  - cbn [String.prefix]. by destruct (ascii_dec "_" c) as [<-|].
Qed.

Lemma collapse_underscores_single s :
  PyStr.contains (collapse_underscores s) "__" = false.
Proof.
  induction s as [|c r IH]; [done|].
  pose proof (collapse_underscores_head (String c r)) as Hh.
  revert Hh. cbn [collapse_underscores].
  assert (forall x t, PyStr.contains t "__" = false ->
            String.prefix "__" (String x t) = false ->
            PyStr.contains (String x t) "__" = false) as Hstep.
  { intros x t Ht Hm. cbn [PyStr.contains]. by rewrite Hm. }
  destruct (Ascii.eqb c "_").
  - destruct r as [|c' r']; [by apply Hstep|].
    destruct (Ascii.eqb c' "_"); [by intros _|]. by apply Hstep.
  - by apply Hstep.
Qed.

Lemma lower_method_plain (m : HTTPMethod) :
  PyStr.all_chars (fun c => PyStr.is_lower c) (PyStr.lower (method_value m)) = true.
Proof. by destruct m. Qed.

Lemma is_lower_not_underscore c : PyStr.is_lower c = true -> Ascii.eqb c "_" = false.
Proof. intros H. apply Ascii.eqb_neq. intros ->. discriminate. Qed.

Lemma is_lower_not_digit c : PyStr.is_lower c = true -> PyStr.isdigit c = false.
Proof.
  unfold PyStr.is_lower, PyStr.isdigit.
  generalize (nat_of_ascii c). intros n Hn.
  apply andb_true_iff in Hn as [H1%Nat.leb_le H2%Nat.leb_le].
  repeat (apply orb_false_iff; split);
    rewrite ?andb_false_iff, ?Nat.leb_gt, ?Nat.eqb_neq; lia.
Qed.

Lemma plain_prefix_kept (p s : string) :
  PyStr.all_chars (fun c => PyStr.is_lower c) p = true ->
  PyStr.rstrip_char "_" (collapse_underscores (p +:+ s))
  = p +:+ PyStr.rstrip_char "_" (collapse_underscores s).
Proof.
  induction p as [|c p IH]; [done|]. cbn [PyStr.all_chars].
  intros [Hc Hp]%andb_true_iff. rewrite !append_cons_eq.
  pose proof (is_lower_not_underscore c Hc) as Hu.
  rewrite McpServerGeneratorFacts.collapse_underscores_cons by done.
  rewrite rstrip_char_keep by done. by rewrite IH.
Qed.

(** The name is the lower-cased method followed by what the collapse and
    the strip leave of the underscore and the rewritten path. *)
Lemma tool_name_split (endpoint : APIEndpoint) :
  tool_name endpoint =
  PyStr.lower (method_value (method endpoint))
  +:+ PyStr.rstrip_char "_" (collapse_underscores ("_" +:+ clean_url (url endpoint))).
Proof.
  unfold tool_name.
  assert (starts_with_digit (PyStr.lower (method_value (method endpoint)) +:+ "_"
                             +:+ clean_url (url endpoint)) = false) as ->.
  { by destruct (method endpoint). }
  apply plain_prefix_kept, lower_method_plain.
Qed.

Lemma prefix_app_self p t : String.prefix p (p +:+ t) = true.
Proof.
  induction p as [|c p IH]; [by destruct t|].
  rewrite append_cons_eq. simpl. by destruct (ascii_dec c c).
Qed.

(** X3. The tool name starts with the lower-cased method, does not end
    with an underscore and has no two underscores in a row, whatever the
    path of the endpoint. *)
Theorem tool_name_shape (endpoint : APIEndpoint) :
  PyStr.startswith (tool_name endpoint)
    (PyStr.lower (method_value (method endpoint))) = true
  /\ last_char (tool_name endpoint) <> Some "_"%char
  /\ PyStr.contains (tool_name endpoint) "__" = false.
Proof.
  split; [|split].
  - rewrite tool_name_split. apply prefix_app_self.
  - unfold tool_name. apply rstrip_char_last.
  - unfold tool_name.
    match goal with
    | |- PyStr.contains (PyStr.rstrip_char _ ?s) _ = false =>
        destruct (rstrip_char_prefix "_" s) as [t Ht];
        pose proof (collapse_underscores_single
                      (if starts_with_digit
                            (PyStr.lower (method_value (method endpoint)) +:+ "_"
                             +:+ clean_url (url endpoint))
                       then "endpoint_" +:+ PyStr.lower (method_value (method endpoint))
                            +:+ "_" +:+ clean_url (url endpoint)
                       else PyStr.lower (method_value (method endpoint)) +:+ "_"
                            +:+ clean_url (url endpoint))) as Hs;
        destruct (PyStr.contains (PyStr.rstrip_char "_" s) "__") eqn:E; [|done]
    end.
    apply (contains_app_l _ t) in E. rewrite <- Ht in E. congruence.
Qed.

Lemma prefix_nil s : String.prefix "" s = true.
Proof. by destruct s. Qed.

Lemma replace_single (o : ascii) (n s : string) :
  PyStr.replace (String o "") n s = replace_char o n s.
Proof.
  unfold PyStr.replace. induction s as [|c r IH]; [done|].
  cbn [PyStr.replace_from replace_char String.prefix String.length].
  rewrite prefix_nil, IH.
  destruct (ascii_dec o c) as [->|Hne].
  - by rewrite Ascii.eqb_refl.
  - apply Ascii.eqb_neq in Hne. by rewrite Hne.
Qed.

Lemma all_chars_app P a b :
  PyStr.all_chars P (a +:+ b) = PyStr.all_chars P a && PyStr.all_chars P b.
Proof.
  induction a as [|c a IH]; [done|].
  rewrite append_cons_eq. cbn [PyStr.all_chars]. by rewrite IH, andb_assoc.
Qed.

Lemma all_chars_replace_char (P Q : ascii -> bool) o n s :
  (forall c, P c = true -> Ascii.eqb o c = false -> Q c = true) ->
  PyStr.all_chars Q n = true ->
  PyStr.all_chars P s = true ->
  PyStr.all_chars Q (replace_char o n s) = true.
Proof.
  intros HPQ Hn. induction s as [|c r IH]; [done|].
  cbn [PyStr.all_chars replace_char]. intros [Hc Hr]%andb_true_iff.
  destruct (Ascii.eqb o c) eqn:E.
  - rewrite all_chars_app, Hn. by apply IH.
  - cbn [PyStr.all_chars]. rewrite (HPQ c Hc E). by apply IH.
Qed.

Lemma all_chars_collapse P s :
  PyStr.all_chars P s = true -> PyStr.all_chars P (collapse_underscores s) = true.
Proof.
  induction s as [|c r IH]; [done|].
  cbn [PyStr.all_chars]. intros [Hc Hr]%andb_true_iff.
  cbn [collapse_underscores]. destruct (Ascii.eqb c "_").
  - destruct r as [|c' r']; [cbn [PyStr.all_chars]; by rewrite Hc|].
    destruct (Ascii.eqb c' "_"); [by apply IH|].
    cbn [PyStr.all_chars]. rewrite Hc. by apply IH.
  - cbn [PyStr.all_chars]. rewrite Hc. by apply IH.
Qed.

Lemma all_chars_rstrip P c s :
  PyStr.all_chars P s = true -> PyStr.all_chars P (PyStr.rstrip_char c s) = true.
Proof.
  intros H. destruct (rstrip_char_prefix c s) as [t Ht].
  rewrite Ht, all_chars_app in H. by apply andb_true_iff in H as [H _].
Qed.

Lemma clean_chain (rs : list (string * string)) (s : string) :
  Forall (fun r => exists o, fst r = String o ""
                             /\ PyStr.all_chars PyStr.ident_char (snd r) = true) rs ->
  PyStr.all_chars (safe_char rs) s = true ->
  PyStr.all_chars PyStr.ident_char
    (fold_left (fun acc r => PyStr.replace (fst r) (snd r) acc) rs s) = true.
Proof.
  intros Hrs. revert s. induction Hrs as [|[old new] rs (o & Ho & Hn) _ IH]; intros s Hs.
  - simpl. revert Hs. clear. induction s as [|c s IH]; [done|].
    cbn [PyStr.all_chars]. unfold safe_char at 1. cbn [existsb].
    rewrite orb_false_r. intros [-> H]%andb_true_iff. by apply IH.
  - cbn [fold_left fst snd] in *. subst old. apply IH.
    rewrite replace_single.
    apply (all_chars_replace_char (safe_char ((String o "", new) :: rs))); [| |done].
    + intros c Hc Hoc. unfold safe_char in *. cbn [existsb fst] in Hc.
      assert (String.eqb (String o "") (String c "") = false) as Hne.
      { apply String.eqb_neq. intros [= ->]. by rewrite Ascii.eqb_refl in Hoc. }
      by rewrite Hne in Hc.
    + revert Hn. clear. induction new as [|c s IH]; [done|].
      cbn [PyStr.all_chars]. intros [Hc H]%andb_true_iff.
      unfold safe_char at 1. rewrite Hc. by apply IH.
Qed.

Lemma name_replacements_single :
  Forall (fun r => exists o, fst r = String o ""
                             /\ PyStr.all_chars PyStr.ident_char (snd r) = true)
    name_replacements.
Proof. repeat constructor; by eexists. Qed.

Lemma is_lower_ident_start c : PyStr.is_lower c = true -> PyStr.ident_start c = true.
Proof.
  intros H. unfold PyStr.ident_start, PyStr.is_alpha. rewrite H.
  by rewrite orb_true_r.
Qed.

(** X4. When every character of the path is a letter, a digit, an
    underscore or one of the characters the chain of replacements
    rewrites, the tool name is an identifier. *)
Theorem tool_name_identifier (endpoint : APIEndpoint) :
  PyStr.all_chars name_safe_char (url endpoint) = true ->
  PyStr.is_identifier (tool_name endpoint) = true.
Proof.
  intros Hu.
  assert (PyStr.all_chars PyStr.ident_char (tool_name endpoint) = true) as Hall.
  { rewrite tool_name_split, all_chars_app. apply andb_true_iff. split.
    - by destruct (method endpoint).
    - apply all_chars_rstrip, all_chars_collapse.
      rewrite append_cons_eq, append_nil_l. cbn [PyStr.all_chars].
      apply andb_true_iff. split; [done|].
      by apply clean_chain; [apply name_replacements_single|]. }
  destruct (McpServerGeneratorFacts.tool_name_starts_with_letter endpoint)
    as (c & r & Heq & Hc).
  rewrite Heq in *. cbn [PyStr.is_identifier PyStr.all_chars] in *.
  apply andb_true_iff in Hall as [_ Hr]. rewrite Hr.
  by rewrite (is_lower_ident_start c Hc).
Qed.

Lemma tool_name_identifier_witness :
  PyStr.all_chars name_safe_char (url create_order) = true
  /\ PyStr.is_identifier (tool_name create_order) = true.
Proof.
  assert (PyStr.all_chars name_safe_char (url create_order) = true) as H.
  { vm_compute. reflexivity. }
  split; [exact H|]. exact (tool_name_identifier create_order H).
Defined.

End ToolNameFacts.

(** ** Batches and request bodies of the tool generator *)

Module GeneratorBatchFacts.

Import McpServerGenerator Shape.

(** X5. Generation of a batch is all or nothing: the loop over the
    endpoints returns exactly when every parameter of every endpoint can
    be processed, so one endpoint with a parameter that is no [dict], or
    whose type cannot be hashed, stops the whole batch. *)
Theorem batch_all_or_nothing (py_str : json -> string)
    (batch : list APIEndpoint) (production_base_url : option string) :
  is_ok (endpoint_tools py_str batch production_base_url)
  = forallb (fun e => forallb processable (parameter_items e)) batch.
Proof.
  induction batch as [|e batch IH]; [done|].
  cbn [endpoint_tools forallb].
  rewrite <- (McpServerGeneratorFacts.generation_is_ok py_str e production_base_url).
  destruct (_generate_fastmcp_tool py_str e production_base_url); [|done].
  cbn [mbind result_bind is_ok andb]. rewrite <- IH.
  by destruct (endpoint_tools py_str batch production_base_url).
Qed.

Lemma body_params_filter (items : dict) :
  forallb is_dict_item items = true ->
  body_params items = Ok (fst <$> List.filter body_sourced items).
Proof.
  induction items as [|[n info] items IH]; [done|].
  cbn [forallb]. intros [Hd Hr]%andb_true_iff.
  destruct info; try discriminate.
  cbn [body_params Py.get_attr mbind result_bind List.filter].
  rewrite (IH Hr). cbn [mbind result_bind].
  change (body_sourced (n, JObj d))
    with (Py.is_str "body" (Py.get d "source" JNull)).
  by destruct (Py.is_str "body" _).
Qed.

Lemma body_params_dicts (items : dict) :
  is_ok (body_params items) = true -> forallb is_dict_item items = true.
Proof.
  induction items as [|[n info] items IH]; [done|].
  destruct info; try discriminate.
  cbn [body_params Py.get_attr mbind result_bind forallb is_dict_item snd andb].
  destruct (body_params items); [by intros _; apply IH|done].
Qed.

Lemma endswith_same (p : string) : PdfAnalyzer.endswith p p = true.
Proof. destruct p; cbn [PdfAnalyzer.endswith]; by rewrite String.eqb_refl. Qed.

Lemma endswith_after (a b p : string) :
  PdfAnalyzer.endswith b p = true -> PdfAnalyzer.endswith (a +:+ b) p = true.
Proof.
  intros H. induction a as [|c a IH].
  - by rewrite append_nil_l.
  - rewrite append_cons_eq. cbn [PdfAnalyzer.endswith]. rewrite IH.
    by destruct (String.eqb _ p).
Qed.

Lemma existsb_filter_nil {A : Type} (f : A -> bool) (l : list A) :
  existsb f l = match List.filter f l with [] => false | _ => true end.
Proof.
  induction l as [|x l IH]; [done|]. simpl. destruct (f x); [done|exact IH].
Qed.

(** The lines that prepare the body, when the step returns. *)
Lemma data_prep_lines_text (endpoint : APIEndpoint) (lines : list string) :
  data_prep_lines endpoint = Ok lines ->
  forallb is_dict_item (parameter_items endpoint) = true
  /\ lines =
     if is_mutating (method endpoint)
        && existsb body_sourced (parameter_items endpoint)
     then ["data = {" +:+ PyStr.join ", "
             (List.map (fun p => PyStr.dquote +:+ p +:+ PyStr.dquote +:+ ": " +:+ p)
                (fst <$> List.filter body_sourced (parameter_items endpoint)))
           +:+ "}";
           "data = {k: v for k, v in data.items() if v is not None}"]
     else [].
Proof.
  unfold data_prep_lines.
  destruct (parameter_items endpoint) as [|p items] eqn:E.
  - intros [= <-]. split; [done|]. by rewrite andb_false_r.
  - intros H. assert (forallb is_dict_item (p :: items) = true) as Hd.
    { apply body_params_dicts.
      by destruct (body_params (p :: items)). }
    split; [done|]. revert H.
    rewrite (body_params_filter _ Hd). cbn [mbind result_bind].
    rewrite existsb_filter_nil.
    generalize (List.filter body_sourced (p :: items)).
    intros [|q l]; cbn [fmap list_fmap].
    + intros [= <-]. by rewrite andb_false_r.
    + destruct (is_mutating (method endpoint)); by intros [= <-].
Qed.

(** X6. The code of a generated tool ends with the call of
    [make_request].  When the method is POST, PUT or PATCH and some
    parameter has the source [body], the lines before the call build
    [data] from the body parameters, in their order, and drop the ones
    that are [None], and the call sends [data]; otherwise no line
    prepares a body, the call follows the line of the URL and sends
    [None]: for GET and DELETE the body parameters are left out of the
    request. *)
Theorem body_only_for_mutating (py_str : json -> string) (endpoint : APIEndpoint)
    (production_base_url : option string) (code : string) :
  _generate_fastmcp_tool py_str endpoint production_base_url = Ok code ->
  if is_mutating (method endpoint) && existsb body_sourced (parameter_items endpoint)
  then
    PdfAnalyzer.endswith code
      (PyStr.nl +:+ "    data = {"
       +:+ PyStr.join ", "
             (List.map (fun p => PyStr.dquote +:+ p +:+ PyStr.dquote +:+ ": " +:+ p)
                (fst <$> List.filter body_sourced (parameter_items endpoint)))
       +:+ "}" +:+ PyStr.nl
       +:+ "    data = {k: v for k, v in data.items() if v is not None}" +:+ PyStr.nl
       +:+ "    return asyncio.run(make_request(" +:+ PyStr.dquote
       +:+ method_value (method endpoint) +:+ PyStr.dquote
       +:+ ", url, data, headers))") = true
  else
    PdfAnalyzer.endswith code
      (PyStr.nl +:+ "    url = f" +:+ PyStr.dquote
       +:+ url_base production_base_url +:+ url endpoint +:+ PyStr.dquote +:+ PyStr.nl
       +:+ "    return asyncio.run(make_request(" +:+ PyStr.dquote
       +:+ method_value (method endpoint) +:+ PyStr.dquote
       +:+ ", url, None, headers))") = true.
Proof.
  unfold _generate_fastmcp_tool.
  destruct (collect_params py_str endpoint) as [[lines signature]|]; [|done].
  cbn [mbind result_bind]. unfold url_template.
  destruct (url_template_loop _ _) as [template|] eqn:Et; [|done].
  cbn [mbind result_bind].
  destruct (data_prep_lines endpoint) as [prep|] eqn:Ep; [|done].
  cbn [mbind result_bind].
  apply data_prep_lines_text in Ep as [Hd ->].
  rewrite (McpServerGeneratorFacts.url_template_loop_ok _ _ Hd) in Et.
  injection Et as <-.
  destruct (is_mutating (method endpoint)
            && existsb body_sourced (parameter_items endpoint)).
  - intros H. injection H as <-. do 13 apply endswith_after.
    rewrite !McpServerGeneratorFacts.text_app_assoc. apply endswith_same.
  - intros H. injection H as <-. do 11 apply endswith_after.
    rewrite !McpServerGeneratorFacts.text_app_assoc. apply endswith_same.
Qed.

Lemma body_only_for_mutating_witness :
  (exists code,
     _generate_fastmcp_tool Py.str_scalar create_order None = Ok code
     /\ PdfAnalyzer.endswith code
          (PyStr.nl +:+ "    data = {" +:+ PyStr.dquote +:+ "note" +:+ PyStr.dquote
           +:+ ": note, " +:+ PyStr.dquote +:+ "qty" +:+ PyStr.dquote +:+ ": qty}"
           +:+ PyStr.nl
           +:+ "    data = {k: v for k, v in data.items() if v is not None}"
           +:+ PyStr.nl
           +:+ "    return asyncio.run(make_request(" +:+ PyStr.dquote +:+ "POST"
           +:+ PyStr.dquote +:+ ", url, data, headers))") = true)
  /\ (exists code,
        _generate_fastmcp_tool Py.str_scalar user_by_id None = Ok code
        /\ PdfAnalyzer.endswith code
             (PyStr.nl +:+ "    url = f" +:+ PyStr.dquote
              +:+ "BASE_URL/users/{id}" +:+ PyStr.dquote +:+ PyStr.nl
              +:+ "    return asyncio.run(make_request(" +:+ PyStr.dquote +:+ "GET"
              +:+ PyStr.dquote +:+ ", url, None, headers))") = true).
Proof.
  split.
  - assert (exists code,
              _generate_fastmcp_tool Py.str_scalar create_order None = Ok code)
      as [code Hc].
    { eexists. vm_compute. reflexivity. }
    pose proof (body_only_for_mutating Py.str_scalar create_order None code Hc) as H.
    exists code. split; [exact Hc|]. vm_compute in H. vm_compute. exact H.
  - assert (exists code,
              _generate_fastmcp_tool Py.str_scalar user_by_id None = Ok code)
      as [code Hc].
    { eexists. vm_compute. reflexivity. }
    pose proof (body_only_for_mutating Py.str_scalar user_by_id None code Hc) as H.
    exists code. split; [exact Hc|]. vm_compute in H. vm_compute. exact H.
Defined.

End GeneratorBatchFacts.

(** ** The placeholder scans of json_analyzer.py *)

Module PlaceholderFacts.

Import JsonAnalyzer Template.

Lemma append_assoc_char (a : string) (c : ascii) (b : string) :
  (a +:+ String c "") +:+ b = a +:+ String c b.
Proof.
  induction a as [|x a IH]; [done|]. rewrite !append_cons_eq. by rewrite IH.
Qed.

Lemma contains_char_snoc (c x : ascii) (a : string) :
  PyStr.contains_char c (a +:+ String x "")
  = PyStr.contains_char c a || Ascii.eqb x c.
Proof.
  induction a as [|y a IH]; rewrite ?append_nil_l, ?append_cons_eq; simpl.
  - by rewrite orb_false_r.
  - by rewrite IH, orb_assoc.
Qed.

Lemma snoc_not_empty (a : string) (c : ascii) : a +:+ String c "" <> "".
Proof. by destruct a. Qed.

Lemma brace_scan_names (inside : option string) (s : string) :
  (forall acc, inside = Some acc -> PyStr.contains_char "}" acc = false) ->
  Forall (fun n => n <> "" /\ PyStr.contains_char "}" n = false)
    (brace_scan inside s).
Proof.
  revert inside. induction s as [|c r IH]; intros inside Hacc; [constructor|].
  cbn [brace_scan]. destruct inside as [acc|].
  - destruct (Ascii.eqb c "}") eqn:E.
    + destruct acc as [|a acc]; [by apply IH|].
      constructor; [split; [done|by apply Hacc]|by apply IH].
    + apply IH. intros acc' [= <-]. rewrite contains_char_snoc, E.
      by rewrite (Hacc acc eq_refl).
  - destruct (Ascii.eqb c "{"); apply IH; [by intros acc [= <-]|done].
Qed.

Lemma is_identifier_snoc (a : string) (c : ascii) :
  PyStr.is_identifier a = true -> PyStr.ident_char c = true ->
  PyStr.is_identifier (a +:+ String c "") = true.
Proof.
  destruct a as [|x a]; [done|]. rewrite append_cons_eq.
  cbn [PyStr.is_identifier]. intros [Hx Ha]%andb_true_iff Hc.
  rewrite Hx, ToolNameFacts.all_chars_app, Ha. simpl. by rewrite Hc.
Qed.

Lemma colon_scan_names (st : colon_state) (s : string) :
  (forall acc, st = InName acc -> PyStr.is_identifier acc = true) ->
  Forall (fun n => PyStr.is_identifier n = true) (colon_scan st s).
Proof.
  revert st. induction s as [|c r IH]; intros st Hacc.
  - destruct st; repeat constructor. by apply Hacc.
  - cbn [colon_scan]. destruct st as [| |acc].
    + destruct (Ascii.eqb c ":"); by apply IH.
    + destruct (PyStr.ident_start c) eqn:E.
      * apply IH. intros acc [= <-]. simpl. by rewrite E.
      * destruct (Ascii.eqb c ":"); by apply IH.
    + destruct (PyStr.ident_char c) eqn:E.
      * apply IH. intros acc' [= <-]. apply is_identifier_snoc; [by apply Hacc|done].
      * constructor; [by apply Hacc|].
        destruct (Ascii.eqb c ":"); by apply IH.
Qed.

(** X7. A name found by the brace scan is not empty and holds no closing
    brace; a name found by the colon scan is an identifier. *)
Theorem placeholder_names_shape (path : string) :
  Forall (fun n => n <> "" /\ PyStr.contains_char "}" n = false)
    (find_brace_params path)
  /\ Forall (fun n => PyStr.is_identifier n = true) (find_colon_params path).
Proof.
  split.
  - by apply brace_scan_names.
  - by apply colon_scan_names.
Qed.

Lemma brace_scan_literal (text rest : string) :
  PyStr.contains_char "{" text = false ->
  brace_scan None (text +:+ rest) = brace_scan None rest.
Proof.
  induction text as [|c text IH]; [done|]. rewrite append_cons_eq.
  cbn [PyStr.contains_char brace_scan]. intros [-> H]%orb_false_iff. by apply IH.
Qed.

Lemma brace_scan_name (acc name rest : string) :
  PyStr.contains_char "}" name = false ->
  acc +:+ name <> "" ->
  brace_scan (Some acc) (name +:+ "}" +:+ rest) = (acc +:+ name) :: brace_scan None rest.
Proof.
  revert acc. induction name as [|c name IH]; intros acc Hc Hne.
  - rewrite append_nil_l, append_cons_eq, append_nil_l. cbn [brace_scan].
    rewrite Ascii.eqb_refl.
    assert (acc +:+ "" = acc) as Ha.
    { clear. induction acc as [|x a IH]; [done|]. by rewrite append_cons_eq, IH. }
    rewrite Ha in *. by destruct acc.
  - rewrite append_cons_eq. cbn [PyStr.contains_char] in Hc.
    apply orb_false_iff in Hc as [Hc1 Hc2]. cbn [brace_scan]. rewrite Hc1.
    rewrite IH; [by rewrite append_assoc_char|done|].
    by rewrite append_assoc_char.
Qed.

(** X8. Writing a path from literal text and named holes and then
    scanning it for brace placeholders gives back the names of the
    holes, in their order, provided the literal text opens no brace and
    each name is not empty and closes none. *)
Theorem render_then_scan (ps : list piece) :
  forallb well_formed_piece ps = true ->
  find_brace_params (render ps) = holes ps.
Proof.
  unfold find_brace_params. induction ps as [|[text|name] ps IH]; [done| |].
  - cbn [forallb well_formed_piece render holes].
    intros [Ht Hr]%andb_true_iff. apply negb_true_iff in Ht.
    rewrite brace_scan_literal by done. by apply IH.
  - cbn [forallb well_formed_piece render holes].
    intros [[Hn Hc]%andb_true_iff Hr]%andb_true_iff.
    apply negb_true_iff in Hn, Hc. apply String.eqb_neq in Hn.
    rewrite append_cons_eq, append_nil_l. cbn [brace_scan].
    rewrite <- (IH Hr). by apply (brace_scan_name "" name).
Qed.

Lemma render_then_scan_witness :
  forallb well_formed_piece
    [Lit "/users/"; Hole "user_id"; Lit "/posts/"; Hole "id"; Lit ".json"] = true
  /\ find_brace_params
       (render [Lit "/users/"; Hole "user_id"; Lit "/posts/"; Hole "id"; Lit ".json"])
     = ["user_id"; "id"].
Proof.
  refine (conj eq_refl _).
  exact (render_then_scan
           [Lit "/users/"; Hole "user_id"; Lit "/posts/"; Hole "id"; Lit ".json"]
           eq_refl).
Defined.

End PlaceholderFacts.

(** ** The sources the extractors write *)

Module SourceFacts.

Import JsonAnalyzer Sources.

Lemma canonical_entry (n t r dsc : json) (s : string) :
  canonical_source (param_entry n t (JStr s) r dsc)
  = PyStr.str_in_list s canonical_sources.
Proof. reflexivity. Qed.

Lemma sources_set_loop (k v : json) (d : pdict) :
  canonical_source v = true -> sources_ok d = true ->
  sources_ok (PDict.set_loop k v d) = true.
Proof.
  intros Hv. unfold sources_ok. induction d as [|[k0 v0] d IH]; simpl.
  - by rewrite Hv.
  - intros [H0 Hd]%andb_true_iff. destruct (Py.key_eqb k0 k); simpl.
    + by rewrite Hv, Hd.
    + by rewrite H0, IH.
Qed.

Lemma keeps_sources_set (k v : json) :
  canonical_source v = true -> keeps_sources (PDict.set k v).
Proof.
  intros Hv d d'. unfold PDict.set. destruct (Py.hashable k); [|done].
  intros [= <-]. by apply sources_set_loop.
Qed.

Lemma keeps_sources_ok : keeps_sources Ok.
Proof. by intros d d' [= <-]. Qed.

Lemma keeps_sources_for_each {A : Type} (step : A -> pdict -> result pdict)
    (xs : list A) :
  (forall x, keeps_sources (step x)) -> keeps_sources (for_each step xs).
Proof.
  intros Hs. induction xs as [|x xs IH]; intros d d'; simpl.
  - by intros [= <-].
  - destruct (step x d) as [d1|] eqn:E; [|done]. simpl.
    intros H Hd. eapply IH; [done|]. by eapply Hs.
Qed.

Lemma table_source_canonical (table : list (string * string)) (p : json) (s : string) :
  forallb (fun kv => PyStr.str_in_list (snd kv) canonical_sources) table = true ->
  source_map_get table p = Ok s ->
  PyStr.str_in_list s canonical_sources = true.
Proof.
  intros Ht. destruct p; simpl; try done; intros [= <-]; try done.
  induction table as [|[k v] table IH]; [done|]. simpl in *.
  apply andb_true_iff in Ht as [Hv Ht]. destruct (String.eqb k _); auto.
Qed.

(** Opens the binds and the tests of a step until what remains is a
    store, a return or a loop over steps. *)
Ltac open_source_step :=
  intros ? ?; unfold mbind, result_bind; repeat case_match; try done;
  first [ apply keeps_sources_set | apply keeps_sources_ok | idtac ].

Lemma keeps_sources_openapi_declared py_str param :
  keeps_sources (openapi_declared_step py_str param).
Proof.
  unfold openapi_declared_step. open_source_step.
  rewrite canonical_entry. eapply table_source_canonical; [|eassumption]. reflexivity.
Qed.

Lemma keeps_sources_swagger_declared py_str param :
  keeps_sources (swagger_declared_step py_str param).
Proof.
  unfold swagger_declared_step. open_source_step.
  rewrite canonical_entry. eapply table_source_canonical; [|eassumption]. reflexivity.
Qed.

Lemma keeps_sources_add_missing n : keeps_sources (add_missing_path_param n).
Proof. unfold add_missing_path_param. open_source_step. done. Qed.

Lemma keeps_sources_put n : keeps_sources (put_path_param n).
Proof. unfold put_path_param. open_source_step. done. Qed.

Lemma keeps_sources_property schema prop :
  keeps_sources (openapi_property_step schema prop).
Proof. unfold openapi_property_step. open_source_step. done. Qed.

Lemma keeps_sources_content content : keeps_sources (openapi_content_step content).
Proof.
  unfold openapi_content_step. open_source_step.
  apply keeps_sources_for_each, keeps_sources_property.
Qed.

Lemma keeps_sources_request_body method_data :
  keeps_sources (openapi_request_body method_data).
Proof.
  unfold openapi_request_body. open_source_step.
  apply keeps_sources_for_each, keeps_sources_content.
Qed.

Lemma keeps_sources_postman_query py_str param :
  keeps_sources (postman_query_step py_str param).
Proof. unfold postman_query_step. open_source_step. done. Qed.

Lemma keeps_sources_postman_header py_str header :
  keeps_sources (postman_header_step py_str header).
Proof. unfold postman_header_step. open_source_step. done. Qed.

Lemma keeps_sources_postman_body_key kv : keeps_sources (postman_body_key_step kv).
Proof. unfold postman_body_key_step. open_source_step. done. Qed.

Lemma keeps_sources_postman_raw_body json_loads body :
  keeps_sources (postman_raw_body json_loads body).
Proof.
  unfold postman_raw_body. open_source_step.
  apply keeps_sources_for_each, keeps_sources_postman_body_key.
Qed.

Lemma keeps_sources_insomnia_query py_str param :
  keeps_sources (insomnia_query_step py_str param).
Proof. unfold insomnia_query_step. open_source_step. done. Qed.

Lemma keeps_sources_insomnia_header py_str header :
  keeps_sources (insomnia_header_step py_str header).
Proof. unfold insomnia_header_step. open_source_step. done. Qed.

(** X9. The parameters that the OpenAPI 3, Swagger 2, Postman and
    Insomnia extractors return all carry one of the four sources query,
    path, header and body. *)
Theorem extracted_sources_canonical (py_str : json -> string)
    (json_loads : string -> option json) (data : json) (path : string)
    (parameters : pdict) :
  _extract_openapi_parameters py_str data path = Ok parameters
  \/ _extract_swagger_parameters py_str data path = Ok parameters
  \/ _extract_postman_parameters py_str json_loads data path = Ok parameters
  \/ _extract_insomnia_parameters py_str data path = Ok parameters ->
  sources_ok parameters = true.
Proof.
  intros [H|[H|[H|H]]]; revert H.
  - unfold _extract_openapi_parameters, openapi_declared, mbind, result_bind.
    repeat case_match; try done. intros Hb.
    eapply keeps_sources_request_body; [done|].
    eapply keeps_sources_for_each; [apply keeps_sources_add_missing|done|].
    eapply keeps_sources_for_each; [apply keeps_sources_openapi_declared|done|done].
  - unfold _extract_swagger_parameters, mbind, result_bind.
    repeat case_match; try done. intros Hb.
    eapply keeps_sources_for_each; [apply keeps_sources_swagger_declared|done|done].
  - unfold _extract_postman_parameters, mbind, result_bind.
    destruct (postman_query py_str data) as [d0|] eqn:E0; [|done].
    destruct (for_each put_path_param _ d0) as [d1|] eqn:E1; [|done].
    assert (sources_ok d0 = true) as H0.
    { revert E0. unfold postman_query, mbind, result_bind.
      repeat case_match; try done; try by intros [= <-].
      intros Hq.
      eapply keeps_sources_for_each; [apply keeps_sources_postman_query|done|done]. }
    assert (sources_ok d1 = true) as H1.
    { eapply keeps_sources_for_each; [apply keeps_sources_put|done|done]. }
    unfold postman_header_body, mbind, result_bind.
    destruct (Py.get_attr data "header" (JArr [])) as [h|]; [|done].
    destruct (Py.iter h) as [hs|]; [|done].
    destruct (for_each (postman_header_step py_str) hs d1) as [d2|] eqn:E2; [|done].
    assert (sources_ok d2 = true) as H2.
    { eapply keeps_sources_for_each; [apply keeps_sources_postman_header|done|done]. }
    repeat case_match; try done.
    + intros Hb. by eapply keeps_sources_postman_raw_body.
    + by intros [= <-].
  - unfold _extract_insomnia_parameters, insomnia_query, insomnia_headers,
      mbind, result_bind.
    repeat case_match; try done. intros Hb.
    eapply keeps_sources_for_each; [apply keeps_sources_insomnia_header|done|].
    eapply keeps_sources_for_each; [apply keeps_sources_put|done|].
    eapply keeps_sources_for_each; [apply keeps_sources_insomnia_query|done|done].
Qed.

Lemma extracted_sources_canonical_witness :
  exists parameters : pdict,
    _extract_postman_parameters Py.str_scalar (fun _ => None) postman_request
      "/users/:id" = Ok parameters
    /\ sources_ok parameters = true.
Proof.
  eexists. refine (conj eq_refl _).
  exact (extracted_sources_canonical Py.str_scalar (fun _ => None) postman_request
           "/users/:id" _ (or_intror (or_intror (or_introl eq_refl)))).
Defined.

Lemma custom_param_step_ok (p : string * json) (d : pdict) :
  exists d', custom_param_step p d = Ok d'
             /\ PDict.mem (JStr (fst p)) d' = true
             /\ (forall q, PDict.mem q d = true -> PDict.mem q d' = true).
Proof.
  destruct p as [n info]. unfold custom_param_step.
  destruct info; cbn [PDict.set Py.hashable fst]; eexists;
    (split; [reflexivity|]); split;
    auto using JsonAnalyzerFacts.mem_set_loop_same, JsonAnalyzerFacts.mem_set_loop_mono.
Qed.

Lemma custom_params_loop_ok (ps : dict) (d : pdict) :
  exists d', for_each custom_param_step ps d = Ok d'
             /\ (forall n, n ∈ ps.*1 -> PDict.mem (JStr n) d' = true)
             /\ (forall q, PDict.mem q d = true -> PDict.mem q d' = true).
Proof.
  revert d. induction ps as [|p ps IH]; intros d.
  - exists d. split; [done|]. split; [|done]. by intros n ?%elem_of_nil.
  - destruct (custom_param_step_ok p d) as (d1 & E1 & Hp & Hk1).
    destruct (IH d1) as (d' & E & Hn & Hk). exists d'.
    cbn [for_each]. rewrite E1. cbn [mbind result_bind]. split; [done|]. split.
    + intros n. rewrite fmap_cons. intros [->|Hin]%elem_of_cons; auto.
    + auto.
Qed.

Lemma custom_source_step_ok (item : dict) (source : string) (d : pdict) :
  exists d', custom_source_step item source d = Ok d'
             /\ (forall ps n, Py.lookup source item = Some (JObj ps) ->
                              n ∈ ps.*1 -> PDict.mem (JStr n) d' = true)
             /\ (forall q, PDict.mem q d = true -> PDict.mem q d' = true).
Proof.
  unfold custom_source_step.
  destruct (Py.lookup source item) as [[| | | | |ps]|];
    try (exists d; split; [done|]; split; [done|done]).
  destruct (custom_params_loop_ok ps d) as (d' & E & Hn & Hk).
  exists d'. split; [done|]. split; [|done]. intros ps' n [= <-]. apply Hn.
Qed.

Lemma custom_sources_loop_ok (item : dict) (sources : list string) (d : pdict) :
  exists d', for_each (custom_source_step item) sources d = Ok d'
             /\ (forall source ps n, source ∈ sources ->
                     Py.lookup source item = Some (JObj ps) ->
                     n ∈ ps.*1 -> PDict.mem (JStr n) d' = true)
             /\ (forall q, PDict.mem q d = true -> PDict.mem q d' = true).
Proof.
  revert d. induction sources as [|s sources IH]; intros d.
  - exists d. split; [done|]. split; [|done]. by intros s ps n ?%elem_of_nil.
  - destruct (custom_source_step_ok item s d) as (d1 & E1 & Hs & Hk1).
    destruct (IH d1) as (d' & E & Hn & Hk). exists d'.
    cbn [for_each]. rewrite E1. cbn [mbind result_bind]. split; [done|]. split.
    + intros source ps n [->|Hin]%elem_of_cons Hl Hm; eauto.
    + auto.
Qed.

(** X10. The extractor of the custom format never raises, and every name
    under a [dict] stored at one of the keys parameters, params, args
    and fields of the entry is a key of what it returns. *)
Theorem custom_parameters_total (item : dict) :
  exists parameters : pdict,
    _extract_custom_parameters item = Ok parameters
    /\ (forall source ps n, source ∈ param_sources ->
           Py.lookup source item = Some (JObj ps) ->
           n ∈ ps.*1 -> PDict.mem (JStr n) parameters = true).
Proof.
  destruct (custom_sources_loop_ok item param_sources []) as (d' & E & Hn & _).
  by exists d'.
Qed.

Lemma custom_parameters_total_witness :
  exists parameters : pdict,
    _extract_custom_parameters
      [("params", JObj [("limit", JNum 10)]); ("fields", JObj [("sort", JNull)])]
    = Ok parameters
    /\ PDict.mem (JStr "limit") parameters = true
    /\ PDict.mem (JStr "sort") parameters = true.
Proof.
  destruct (custom_parameters_total
              [("params", JObj [("limit", JNum 10)]); ("fields", JObj [("sort", JNull)])])
    as (parameters & E & H).
  exists parameters. refine (conj E (conj _ _)).
  - apply (H "params" [("limit", JNum 10)] "limit"); [|reflexivity|].
    + apply (bool_decide_unpack _). vm_compute. exact I.
    + apply (bool_decide_unpack _). vm_compute. exact I.
  - apply (H "fields" [("sort", JNull)] "sort"); [|reflexivity|].
    + apply (bool_decide_unpack _). vm_compute. exact I.
    + apply (bool_decide_unpack _). vm_compute. exact I.
Defined.

End SourceFacts.

(** ** Format detection on a JSON object *)

Module DetectionFacts.

Import JsonAnalyzer Markers.

Ltac open_detection :=
  unfold _detect_json_format, and_then, or_else, Py.contains, Py.get_attr,
    Py.subscript, startswith_attr, Py.mem, Py.get,
    openapi_is_text, is_openapi3, is_swagger2, info_is_no_dict, Py.mem;
  cbn [mbind result_bind].

(** X11. On a JSON object, detection raises in two cases only: the key
    [openapi] holds a value that is no text, or the document is neither
    OpenAPI 3 nor Swagger 2.0 and has the keys [info] and [item] with an
    [info] that is no [dict].  An object whose [openapi] text starts
    with [3.] is always detected as OpenAPI, whatever else it holds. *)
Theorem detection_on_objects (d : dict) :
  is_ok (_detect_json_format (JObj d))
  = openapi_is_text d
    && (is_openapi3 d || is_swagger2 d || negb (info_is_no_dict d))
  /\ (_detect_json_format (JObj d) = Ok "openapi" <-> is_openapi3 d = true).
Proof.
  split.
  - open_detection.
    destruct (Py.lookup "openapi" d) as [[| | |v| |]|]; cbn [mbind result_bind];
      try done;
      try (destruct (PyStr.startswith v "3."); [done|]);
      destruct (Py.lookup "swagger" d) as [sw|]; cbn [mbind result_bind];
      try (destruct (Py.is_str "2.0" sw); [done|]);
      destruct (Py.lookup "info" d) as [[| | | | |i]|]; cbn [mbind result_bind];
      destruct (Py.lookup "item" d); cbn [mbind result_bind];
      try done;
      repeat (first [done | progress cbn [mbind result_bind is_ok] | case_match]).
  - open_detection.
    destruct (Py.lookup "openapi" d) as [[| | |v| |]|]; cbn [mbind result_bind];
      try done;
      try (destruct (PyStr.startswith v "3."); [done|]);
      (split; [|done]);
      repeat (first [done | progress cbn [mbind result_bind is_ok] | case_match]).
Qed.

Lemma detection_on_objects_witness :
  is_openapi3 [("openapi", JStr "3.1.0"); ("swagger", JStr "2.0")] = true
  /\ _detect_json_format (JObj [("openapi", JStr "3.1.0"); ("swagger", JStr "2.0")])
     = Ok "openapi".
Proof.
  refine (conj eq_refl _).
  exact (proj2 (proj2 (detection_on_objects
                         [("openapi", JStr "3.1.0"); ("swagger", JStr "2.0")]))
           eq_refl).
Defined.

End DetectionFacts.

(** ** The records of the specification parsers *)

Module ParserFacts.

Import JsonAnalyzer Operations.

Lemma method_of_value_listed (s : string) (m : HTTPMethod) :
  HTTPMethod_of_value s = Ok m -> PyStr.str_in_list s spec_method_names = true.
Proof.
  unfold HTTPMethod_of_value.
  repeat (match goal with
          | |- context [String.eqb s ?k] => destruct (String.eqb_spec s k) as [->|]
          end; [done|]).
  done.
Qed.

Lemma pydantic2_keeps_identity : keeps_identity pydantic2_APIEndpoint.
Proof.
  intros u m dsc ps t e. unfold pydantic2_APIEndpoint.
  repeat case_match; try done; by intros [= <-].
Qed.

Lemma pydantic2_keeps_endpoints : keeps_endpoints pydantic2_APIDiscovery.
Proof.
  intros b es a s o disc. unfold pydantic2_APIDiscovery.
  repeat case_match; try done; by intros [= <-].
Qed.

Section Loops.

Variable new_APIEndpoint :
  string -> HTTPMethod -> json -> pdict -> json -> result APIEndpoint.
Variable extract : json -> string -> result pdict.
Hypothesis Hnew : keeps_identity new_APIEndpoint.

Lemma operation_step_identity path operation endpoints endpoints' :
  operation_step new_APIEndpoint extract path operation endpoints = Ok endpoints' ->
  ApiDiscoverer.identity <$> endpoints'
  = (ApiDiscoverer.identity <$> endpoints)
    ++ option_list (operation_identity path operation).
Proof.
  destruct operation as [k data]. unfold operation_step, operation_identity.
  cbn [fst].
  destruct (PyStr.str_in_list (PyStr.upper k) spec_method_names) eqn:El; cbn [negb].
  - destruct (HTTPMethod_of_value (PyStr.upper k)) as [m|].
    + unfold mbind, result_bind. repeat case_match; try done.
      intros [= <-]. rewrite fmap_app. cbn [option_list]. f_equal.
      match goal with
      | H : new_APIEndpoint _ _ _ _ _ = Ok ?e |- _ =>
          destruct (Hnew _ _ _ _ _ _ H) as [Hu Hm]
      end.
      cbn. unfold ApiDiscoverer.identity. by rewrite Hu, Hm.
    + intros [= <-]. cbn. by rewrite app_nil_r.
  - destruct (HTTPMethod_of_value (PyStr.upper k)) as [m|] eqn:Em.
    + apply method_of_value_listed in Em. congruence.
    + intros [= <-]. cbn. by rewrite app_nil_r.
Qed.

Lemma operations_loop_identity path operations endpoints endpoints' :
  operations_loop new_APIEndpoint extract path operations endpoints = Ok endpoints' ->
  ApiDiscoverer.identity <$> endpoints'
  = (ApiDiscoverer.identity <$> endpoints)
    ++ omap (operation_identity path) operations.
Proof.
  revert endpoints. induction operations as [|op ops IH]; intros endpoints.
  - intros [= <-]. cbn. by rewrite app_nil_r.
  - cbn [operations_loop]. unfold mbind, result_bind.
    destruct (operation_step _ _ _ op endpoints) as [e1|] eqn:E1; [|done].
    intros H. rewrite (IH _ H), (operation_step_identity _ _ _ _ E1).
    rewrite <- app_assoc. f_equal. cbn [omap list_omap].
    by destruct (operation_identity path op).
Qed.

Lemma paths_loop_identity paths endpoints endpoints' :
  paths_loop new_APIEndpoint extract paths endpoints = Ok endpoints' ->
  ApiDiscoverer.identity <$> endpoints'
  = (ApiDiscoverer.identity <$> endpoints) ++ declared_operations paths.
Proof.
  revert endpoints. induction paths as [|[path data] paths IH]; intros endpoints.
  - intros [= <-]. cbn. by rewrite app_nil_r.
  - unfold declared_operations. cbn [paths_loop flat_map fst snd].
    destruct data; try (intros H; by rewrite (IH _ H)).
    unfold mbind, result_bind.
    match goal with
    | |- context [operations_loop _ _ path ?ops endpoints] =>
        destruct (operations_loop new_APIEndpoint extract path ops endpoints)
          as [e1|] eqn:E1; [|done]
    end.
    intros H. rewrite (IH _ H), (operations_loop_identity _ _ _ _ E1).
    by rewrite <- app_assoc.
Qed.

End Loops.

(** X12. When the OpenAPI 3 or the Swagger 2 parser returns, the
    (method, path) pairs of its records are, in document order, the
    operations under [paths] whose key names one of GET, POST, PUT,
    DELETE and PATCH in any case; every other key under a path (HEAD,
    OPTIONS, [parameters], ...) gives no record.  The constructors are
    taken to keep the path, the method and the endpoints they are
    given. *)
Theorem spec_records_are_declared_operations
    (py_str : json -> string)
    (new_APIEndpoint : string -> HTTPMethod -> json -> pdict -> json -> result APIEndpoint)
    (new_APIDiscovery : json -> list APIEndpoint -> option AuthenticationInfo ->
                        json -> list json -> result APIDiscovery)
    (json_data : json) (disc : APIDiscovery) :
  keeps_identity new_APIEndpoint ->
  keeps_endpoints new_APIDiscovery ->
  _parse_openapi_spec py_str new_APIEndpoint new_APIDiscovery json_data = Ok disc
  \/ _parse_swagger_spec py_str new_APIEndpoint new_APIDiscovery json_data = Ok disc ->
  exists paths : dict,
    Py.get_attr json_data "paths" (JObj []) = Ok (JObj paths)
    /\ ApiDiscoverer.identity <$> endpoints disc = declared_operations paths.
Proof.
  intros Hnew Hdisc [H|H]; revert H.
  - unfold _parse_openapi_spec, mbind, result_bind.
    destruct (and_then _ _) as [hs|]; [|done].
    match goal with
    | |- context [if hs then ?a else ?b] => destruct (if hs then a else b); [|done]
    end.
    destruct (Py.get_attr json_data "paths" (JObj [])) as [paths|]; [|done].
    destruct (Py.items paths) as [ps|] eqn:Ei; [|done].
    destruct paths; try done. injection Ei as <-.
    destruct (paths_loop _ _ _ []) as [eps|] eqn:El; [|done].
    repeat case_match; try done. intros Hd.
    eexists. split; [done|]. rewrite (Hdisc _ _ _ _ _ _ Hd).
    by rewrite (paths_loop_identity _ _ Hnew _ _ _ El).
  - unfold _parse_swagger_spec, mbind, result_bind.
    destruct (Py.get_attr json_data "host" _); [|done].
    destruct (Py.get_attr json_data "schemes" _); [|done].
    destruct (Py.get_attr json_data "basePath" _); [|done].
    destruct (Py.first _); [|done].
    destruct (Py.get_attr json_data "paths" (JObj [])) as [paths|]; [|done].
    destruct (Py.items paths) as [ps|] eqn:Ei; [|done].
    destruct paths; try done. injection Ei as <-.
    destruct (paths_loop _ _ _ []) as [eps|] eqn:El; [|done].
    repeat case_match; try done. intros Hd.
    eexists. split; [done|]. rewrite (Hdisc _ _ _ _ _ _ Hd).
    by rewrite (paths_loop_identity _ _ Hnew _ _ _ El).
Qed.

Lemma spec_records_are_declared_operations_witness :
  exists (disc : APIDiscovery) (paths : dict),
    _parse_openapi_spec Py.str_scalar pydantic2_APIEndpoint pydantic2_APIDiscovery
      update_user_openapi = Ok disc
    /\ Py.get_attr update_user_openapi "paths" (JObj []) = Ok (JObj paths)
    /\ ApiDiscoverer.identity <$> endpoints disc = declared_operations paths.
Proof.
  eexists.
  destruct (spec_records_are_declared_operations Py.str_scalar
              pydantic2_APIEndpoint pydantic2_APIDiscovery update_user_openapi _
              pydantic2_keeps_identity pydantic2_keeps_endpoints
              (or_introl eq_refl)) as (paths & Hp & Hi).
  exists paths. exact (conj eq_refl (conj Hp Hi)).
Defined.

Lemma custom_item_step_rooted new_APIEndpoint item endpoints endpoints' :
  keeps_identity new_APIEndpoint ->
  custom_item_step new_APIEndpoint item endpoints = Ok endpoints' ->
  Forall (fun e => PyStr.startswith (url e) "/" = true) endpoints ->
  Forall (fun e => PyStr.startswith (url e) "/" = true) endpoints'.
Proof.
  intros Hnew. unfold custom_item_step, mbind, result_bind.
  repeat case_match; try done; try by intros [= <-].
  all: intros [= <-] Hall; apply Forall_app; split; [done|]; repeat constructor.
  all: match goal with
       | H : _ = Ok _ |- _ => destruct (Hnew _ _ _ _ _ _ H) as [Hu Hm]
       end; rewrite Hu; first [done | apply ToolNameFacts.prefix_app_self].
Qed.

Lemma custom_items_loop_rooted new_APIEndpoint items endpoints endpoints' :
  keeps_identity new_APIEndpoint ->
  custom_items_loop new_APIEndpoint items endpoints = Ok endpoints' ->
  Forall (fun e => PyStr.startswith (url e) "/" = true) endpoints ->
  Forall (fun e => PyStr.startswith (url e) "/" = true) endpoints'.
Proof.
  intros Hnew. revert endpoints.
  induction items as [|item items IH]; intros endpoints.
  - by intros [= <-].
  - cbn [custom_items_loop]. unfold mbind, result_bind.
    destruct (custom_item_step _ item endpoints) as [e1|] eqn:E1; [|done].
    intros H Hall. eapply IH; [done|]. by eapply custom_item_step_rooted.
Qed.

Lemma parse_custom_rooted
    (new_APIEndpoint : string -> HTTPMethod -> json -> pdict -> json -> result APIEndpoint)
    (new_APIDiscovery : json -> list APIEndpoint -> option AuthenticationInfo ->
                        json -> list json -> result APIDiscovery)
    (json_data : json) (disc : APIDiscovery) :
  keeps_identity new_APIEndpoint ->
  keeps_endpoints new_APIDiscovery ->
  _parse_custom_endpoints new_APIEndpoint new_APIDiscovery json_data = Ok disc ->
  Forall (fun e => PyStr.startswith (url e) "/" = true) (endpoints disc).
Proof.
  intros Hnew Hdisc. unfold _parse_custom_endpoints, mbind, result_bind.
  destruct (custom_endpoint_data json_data) as [data|]; [|done].
  destruct (Py.iter data) as [items|]; [|done].
  destruct (custom_items_loop _ items []) as [eps|] eqn:El; [|done].
  repeat case_match; try done; intros Hd; rewrite (Hdisc _ _ _ _ _ _ Hd);
    by eapply custom_items_loop_rooted.
Qed.

End ParserFacts.

(** ** Order and size of what pdf_analyzer.py returns *)

Module PdfOrderFacts.

Import PdfAnalyzer Order.

Lemma insert_by_url_head x l :
  match insert_by_url x l with
  | [] => False
  | z :: _ => z = x \/ exists r, l = z :: r /\ String.leb (url x) (url z) = false
  end.
Proof.
  destruct l as [|y r]; simpl; [by left|].
  destruct (String.leb (url x) (url y)) eqn:E; [by left|]. right. by exists r.
Qed.

Lemma leb_false_flip a b : String.leb a b = false -> String.leb b a = true.
Proof. intros H. destruct (String.leb_total a b) as [H'|H']; congruence. Qed.

Lemma sorted_texts_cons (a b : string) (l : list string) :
  sorted_texts (a :: b :: l) = String.leb a b && sorted_texts (b :: l).
Proof. reflexivity. Qed.

Lemma sorted_texts_tail (a : string) (l : list string) :
  sorted_texts (a :: l) = true -> sorted_texts l = true.
Proof.
  destruct l as [|b l]; [done|]. rewrite sorted_texts_cons.
  by intros [_ ?]%andb_true_iff.
Qed.

Lemma insert_by_url_sorted x l :
  sorted_texts (url <$> l) = true ->
  sorted_texts (url <$> insert_by_url x l) = true.
Proof.
  induction l as [|y r IH]; [done|]. intros Hs. cbn [insert_by_url].
  destruct (String.leb (url x) (url y)) eqn:E.
  - rewrite !fmap_cons in *. by rewrite sorted_texts_cons, E, Hs.
  - rewrite fmap_cons in Hs.
    specialize (IH (sorted_texts_tail _ _ Hs)).
    pose proof (insert_by_url_head x r) as Hh.
    rewrite fmap_cons. destruct (insert_by_url x r) as [|z t]; [done|].
    rewrite fmap_cons in *. rewrite sorted_texts_cons, IH, andb_true_r.
    destruct Hh as [->|(r' & -> & _)]; [by apply leb_false_flip|].
    rewrite fmap_cons, sorted_texts_cons in Hs.
    by apply andb_true_iff in Hs as [? _].
Qed.

Lemma sort_by_url_sorted l : sorted_texts (url <$> sort_by_url l) = true.
Proof.
  induction l as [|x l IH]; [done|]. cbn [sort_by_url]. by apply insert_by_url_sorted.
Qed.

Lemma insert_by_url_perm x l : insert_by_url x l ≡ₚ x :: l.
Proof.
  induction l as [|y r IH]; [done|]. cbn [insert_by_url].
  destruct (String.leb (url x) (url y)); [done|].
  rewrite IH. apply Permutation_swap.
Qed.

Lemma sort_by_url_perm l : sort_by_url l ≡ₚ l.
Proof.
  induction l as [|x l IH]; [done|]. cbn [sort_by_url].
  by rewrite insert_by_url_perm, IH.
Qed.

Lemma already_found_identity path m endpoints :
  already_found path m endpoints = false ->
  (m, path) ∉ ApiDiscoverer.identity <$> endpoints.
Proof.
  unfold already_found. intros H (ep & Heq & Hin)%list_elem_of_fmap.
  injection Heq as -> ->.
  assert (existsb (fun ep0 => String.eqb (url ep0) (url ep)
                              && bool_decide (method ep0 = method ep)) endpoints
          = true) as Ht; [|congruence].
  apply existsb_exists. exists ep. split.
  - by apply list_elem_of_In.
  - rewrite String.eqb_refl. by rewrite bool_decide_true.
Qed.

Section Extraction.

Variable re_finditer : string -> string -> list Match.
Variable _extract_parameters_from_context : string -> dict.
Variable _extract_description_from_context : string -> option string.
Variable _extract_tags_from_context : string -> list string.

Abbreviation step :=
  (process_match _extract_parameters_from_context
     _extract_description_from_context _extract_tags_from_context).

Lemma process_match_NoDup text mt endpoints :
  NoDup (ApiDiscoverer.identity <$> endpoints) ->
  NoDup (ApiDiscoverer.identity <$> step text mt endpoints).
Proof.
  intros Hnd. unfold process_match.
  repeat case_match; try done.
  rewrite fmap_app. apply NoDup_app. split; [done|]. split.
  - intros k Hk ->%list_elem_of_singleton.
    match goal with
    | H : negb (already_found _ _ _) = true |- _ =>
        apply negb_true_iff, already_found_identity in H; by apply H
    end.
  - apply NoDup_singleton.
Qed.

Lemma fold_matches_NoDup text ms endpoints :
  NoDup (ApiDiscoverer.identity <$> endpoints) ->
  NoDup (ApiDiscoverer.identity
           <$> fold_left (fun eps mt => step text mt eps) ms endpoints).
Proof.
  revert endpoints. induction ms as [|mt ms IH]; intros endpoints Hnd; [done|].
  simpl. by apply IH, process_match_NoDup.
Qed.

Lemma fold_patterns_NoDup text ps endpoints :
  NoDup (ApiDiscoverer.identity <$> endpoints) ->
  NoDup (ApiDiscoverer.identity
           <$> fold_left (process_pattern re_finditer _extract_parameters_from_context
                            _extract_description_from_context
                            _extract_tags_from_context text) ps endpoints).
Proof.
  revert endpoints. induction ps as [|p ps IH]; intros endpoints Hnd; [done|].
  simpl. apply IH. unfold process_pattern. by apply fold_matches_NoDup.
Qed.

(** X13. Whatever the matches and the readers of the context are, the
    records the pattern extractor returns are in the order of their
    paths, and no two of them have the same method and path. *)
Theorem extracted_sorted_and_distinct (text_content : string) :
  let found :=
    _extract_api_endpoints re_finditer _extract_parameters_from_context
      _extract_description_from_context _extract_tags_from_context text_content in
  sorted_texts (url <$> found) = true
  /\ NoDup (ApiDiscoverer.identity <$> found).
Proof.
  unfold _extract_api_endpoints. split.
  - apply sort_by_url_sorted.
  - rewrite sort_by_url_perm. apply fold_patterns_NoDup. constructor.
Qed.

End Extraction.

Lemma substring_length_le (n m : nat) (s : string) :
  String.length (String.substring n m s) <= m.
Proof.
  revert n m. induction s as [|c s IH]; intros n m.
  - destruct n, m; simpl; lia.
  - destruct n as [|n]; simpl.
    + destruct m as [|m]; simpl; [lia|]. specialize (IH 0 m). lia.
    + apply IH.
Qed.

(** X14. The context read around a match is at most the match and the
    500 characters on either side of it. *)
Theorem context_window_bounded (text_content : string) (start_pos end_pos : nat) :
  start_pos <= end_pos ->
  String.length (_extract_endpoint_context text_content start_pos end_pos)
  <= (end_pos - start_pos) + 1000.
Proof.
  intros H. unfold _extract_endpoint_context.
  etransitivity; [apply substring_length_le|]. lia.
Qed.

Lemma context_window_bounded_witness :
  0 <= 10
  /\ String.length (_extract_endpoint_context get_users_text 0 10) <= (10 - 0) + 1000.
Proof.
  assert (0 <= 10) as H by lia.
  split; [exact H|]. exact (context_window_bounded get_users_text 0 10 H).
Defined.

End PdfOrderFacts.

(** ** Routes and order in enhanced_analyzer.py *)

Module RouteFacts.

Import EnhancedAnalyzer Order.

Section Walk.

Context {Body Details : Type}.
Variable analyze_details : FunctionDef Body -> RouteInfo -> result Details.
Variable router_names : gset string.

Lemma plain_route_raises (instance path : string) (rest : list expr)
    (node : FunctionDef Body) :
  instance ∈ router_names ->
  decorator_list node = route_decorator instance "route" path :: rest ->
  _analyze_python_function router_names analyze_details node = Raise ValueError.
Proof.
  intros Hin Hd. unfold _analyze_python_function. rewrite Hd.
  cbn [_extract_route_from_decorators route_decorator _analyze_decorator].
  unfold _analyze_call_decorator, router_call.
  rewrite decide_True by done. reflexivity.
Qed.

Lemma walk_raises (nodes1 nodes2 : list (FunctionDef Body)) (node : FunctionDef Body)
    (endpoints : list (EnhancedEndpoint Details)) :
  is_ok (_analyze_python_function router_names analyze_details node) = false ->
  is_ok (walk_functions router_names analyze_details (nodes1 ++ node :: nodes2)
           endpoints) = false.
Proof.
  intros Hn. revert endpoints. induction nodes1 as [|n nodes1 IH]; intros endpoints.
  - cbn [app walk_functions].
    by destruct (_analyze_python_function router_names analyze_details node).
  - rewrite <- app_comm_cons. cbn [walk_functions].
    destruct (_analyze_python_function router_names analyze_details n) as [[ep|]|];
      cbn [mbind result_bind]; [apply IH|apply IH|done].
Qed.

(** X15. A file in which some function has, as its first decorator, a
    plain [route] call on a router instance with a path and no keyword
    gives no endpoint at all: the method name ROUTE is no member of
    [HTTPMethod], the error leaves the walk, and the records of the
    other functions are lost with it. *)
Theorem plain_route_empties_file (instance path : string) (rest : list expr)
    (nodes1 nodes2 : list (FunctionDef Body)) (node : FunctionDef Body) :
  instance ∈ router_names ->
  decorator_list node = route_decorator instance "route" path :: rest ->
  _analyze_python_file analyze_details router_names (nodes1 ++ node :: nodes2) = [].
Proof.
  intros Hin Hd. unfold _analyze_python_file.
  pose proof (walk_raises nodes1 nodes2 node []) as Hw.
  rewrite (plain_route_raises instance path rest node Hin Hd) in Hw.
  specialize (Hw eq_refl).
  by destruct (walk_functions router_names analyze_details _ []).
Qed.

End Walk.

Lemma plain_route_empties_file_witness :
  "app" ∈ default_router_names
  /\ decorator_list health = route_decorator "app" "route" "/health" :: []
  /\ _analyze_python_file handler_name_details default_router_names
       ([list_items; create_item] ++ health :: [list_items_v2]) = [].
Proof.
  assert ("app" ∈ default_router_names) as H.
  { apply (bool_decide_unpack _). vm_compute. exact I. }
  refine (conj H (conj eq_refl _)).
  exact (plain_route_empties_file handler_name_details default_router_names
           "app" "/health" [] [list_items; create_item] [list_items_v2] health
           H eq_refl).
Defined.

Section FirstOccurrence.

Context {Details : Type}.

Abbreviation pair_entry := ((HTTPMethod * constant) * EnhancedEndpoint Details)%type.
Abbreviation pair_of :=
  (fun ep : EnhancedEndpoint Details => key_value_of (endpoint_key ep)).

Lemma keyed_keys (d : list pair_entry) :
  keyed d -> key_value_of ∘ fst <$> d = pair_of <$> List.map snd d.
Proof.
  unfold keyed. induction 1 as [|[k ep] d H _ IH]; [done|].
  cbn. rewrite IH. f_equal. exact H.
Qed.

Lemma filter_absent_app (acc : list (HTTPMethod * constant_value))
    (k : HTTPMethod * constant_value) (l : list (HTTPMethod * constant_value)) :
  filter (fun y => y ∉ acc ++ [k]) l
  = filter (fun y => y ∉ acc) (filter (fun y => y <> k) l).
Proof.
  rewrite list_filter_filter. apply list_filter_iff. intros y.
  rewrite elem_of_app, list_elem_of_singleton. tauto.
Qed.

Lemma filter_absent_present (acc : list (HTTPMethod * constant_value))
    (k : HTTPMethod * constant_value) (l : list (HTTPMethod * constant_value)) :
  k ∈ acc ->
  filter (fun y => y ∉ acc) (filter (fun y => y <> k) l)
  = filter (fun y => y ∉ acc) l.
Proof.
  intros Hk. rewrite list_filter_filter. apply list_filter_iff. intros y.
  split; [tauto|]. intros Hy. split; [done|]. by intros ->.
Qed.

Lemma filter_absent_nil (l : list (HTTPMethod * constant_value)) :
  filter (fun y => y ∉ ([] : list (HTTPMethod * constant_value))) l = l.
Proof.
  induction l as [|x l IH]; [done|].
  rewrite filter_cons_True by by intros ?%elem_of_nil. by rewrite IH.
Qed.

Lemma fold_keys (endpoints : list (EnhancedEndpoint Details)) (d : list pair_entry) :
  key_value_of ∘ fst
    <$> fold_left (fun d ep => dict_set (endpoint_key ep) ep d) endpoints d
  = (key_value_of ∘ fst <$> d)
    ++ filter (fun y => y ∉ (key_value_of ∘ fst <$> d))
         (first_occurrences (pair_of <$> endpoints)).
Proof.
  revert d. induction endpoints as [|ep endpoints IH]; intros d.
  - cbn. by rewrite app_nil_r.
  - cbn [fold_left]. rewrite IH, EnhancedAnalyzerFacts.dict_set_keys.
    rewrite fmap_cons. cbn [first_occurrences].
    case_bool_decide as Hk.
    + rewrite filter_cons_False by tauto.
      by rewrite filter_absent_present.
    + rewrite filter_cons_True by done.
      rewrite <- app_assoc. cbn [app]. by rewrite filter_absent_app.
Qed.

(** X16. The (method, url) pairs of the records that the removal of
    duplicates returns are the pairs of its input in the order of their
    first occurrence: a later handler replaces the record of an earlier
    one in the place of the earlier. *)
Theorem unique_endpoints_order (endpoints : list (EnhancedEndpoint Details)) :
  pair_of <$> unique_endpoints endpoints
  = first_occurrences (pair_of <$> endpoints).
Proof.
  unfold unique_endpoints.
  destruct (EnhancedAnalyzerFacts.fold_invariants endpoints [])
    as (Hk & _ & _); [constructor|constructor|].
  cbn zeta in Hk. rewrite <- (keyed_keys _ Hk), fold_keys.
  cbn [fmap list_fmap app]. apply filter_absent_nil.
Qed.

End FirstOccurrence.

End RouteFacts.

(** ** The tools of mcp_server.py *)

Module McpServerFacts.

Import McpServer.

Lemma sub_non_alnum_snake (c : ascii) :
  snake_char (if is_alnum (PyStr.lower_char c) then PyStr.lower_char c else "_"%char)
  = true.
Proof. destruct c as [[] [] [] [] [] [] [] []]; reflexivity. Qed.

Lemma snake_of_lower (s : string) :
  PyStr.all_chars snake_char (sub_non_alnum (PyStr.lower s)) = true.
Proof.
  induction s as [|c s IH]; [done|].
  cbn [PyStr.lower PyStr.map sub_non_alnum PyStr.all_chars].
  rewrite sub_non_alnum_snake. exact IH.
Qed.

Lemma all_chars_lstrip_class P drop s :
  PyStr.all_chars P s = true -> PyStr.all_chars P (PdfAnalyzer.lstrip drop s) = true.
Proof.
  induction s as [|c s IH]; [done|]. cbn [PdfAnalyzer.lstrip].
  destruct (drop c); [|done].
  cbn [PyStr.all_chars]. intros [_ H]%andb_true_iff. by apply IH.
Qed.

Lemma all_chars_rstrip_class P drop s :
  PyStr.all_chars P s = true -> PyStr.all_chars P (PdfAnalyzer.rstrip drop s) = true.
Proof.
  induction s as [|c s IH]; [done|]. cbn [PdfAnalyzer.rstrip PyStr.all_chars].
  intros [Hc Hs]%andb_true_iff. specialize (IH Hs).
  destruct (PdfAnalyzer.rstrip drop s) as [|b r].
  - destruct (drop c); [done|]. cbn [PyStr.all_chars]. by rewrite Hc.
  - cbn [PyStr.all_chars] in *. by rewrite Hc.
Qed.

Lemma snake_char_ident (c : ascii) : snake_char c = true -> PyStr.ident_char c = true.
Proof. destruct c as [[] [] [] [] [] [] [] []]; try done. Qed.

Lemma all_chars_impl (P Q : ascii -> bool) (s : string) :
  (forall c, P c = true -> Q c = true) ->
  PyStr.all_chars P s = true -> PyStr.all_chars Q s = true.
Proof.
  intros HPQ. induction s as [|c s IH]; [done|]. cbn [PyStr.all_chars].
  intros [Hc Hs]%andb_true_iff. by rewrite (HPQ c Hc), IH.
Qed.

(** X17. The tool name of [mcp_server.py] is an identifier for every
    endpoint: it is the lower-cased method and an underscore, followed
    by lower-case letters, digits and underscores only. *)
Theorem generated_tool_name_identifier (endpoint : APIEndpoint) :
  PyStr.is_identifier (_generate_tool_name endpoint) = true
  /\ PyStr.all_chars snake_char (_generate_tool_name endpoint) = true
  /\ PyStr.startswith (_generate_tool_name endpoint)
       (PyStr.lower (method_value (method endpoint)) +:+ "_") = true.
Proof.
  assert (PyStr.all_chars snake_char (_generate_tool_name endpoint) = true) as Hall.
  { unfold _generate_tool_name. rewrite !ToolNameFacts.all_chars_app.
    apply andb_true_iff. split; [by destruct (method endpoint)|].
    apply andb_true_iff. split; [done|].
    unfold strip_underscores.
    apply all_chars_rstrip_class, all_chars_lstrip_class, ToolNameFacts.all_chars_collapse.
    apply snake_of_lower. }
  split; [|split; [done|]].
  - apply (all_chars_impl _ _ _ snake_char_ident) in Hall.
    assert (exists c r, _generate_tool_name endpoint = String c r
                        /\ PyStr.ident_start c = true) as (c & r & Heq & Hc).
    { unfold _generate_tool_name.
      destruct (method endpoint); eexists _, _; split; reflexivity. }
    rewrite Heq in *. cbn [PyStr.is_identifier PyStr.all_chars] in *.
    apply andb_true_iff in Hall as [_ ->]. by rewrite Hc.
  - unfold PyStr.startswith.
    assert (_generate_tool_name endpoint
            = (PyStr.lower (method_value (method endpoint)) +:+ "_")
              +:+ strip_underscores
                    (McpServerGenerator.collapse_underscores
                       (sub_non_alnum
                          (PyStr.lower (last_part (url_parts (url endpoint)))))))
      as ->.
    { unfold _generate_tool_name. by destruct (method endpoint). }
    apply ToolNameFacts.prefix_app_self.
Qed.

Lemma required_names_filter (items : dict) :
  forallb McpServerGenerator.is_dict_item items = true ->
  required_names items
  = Ok (fst <$> List.filter
                  (fun p => McpServerGenerator.is_required p && states_required p)
                  items).
Proof.
  induction items as [|[n info] items IH]; [done|].
  cbn [forallb]. intros [Hd Hr]%andb_true_iff.
  destruct info as [| | | | |d]; try discriminate.
  cbn [required_names Py.get_attr mbind result_bind List.filter].
  rewrite (IH Hr). cbn [mbind result_bind].
  assert (McpServerGenerator.is_required (n, JObj d) && states_required (n, JObj d)
          = Py.truthy (Py.get d "required" (JBool false))) as ->.
  { unfold McpServerGenerator.is_required, states_required, Py.mem, Py.get.
    cbn [fst snd McpServerGenerator.param_fields]. unfold Py.get.
    destruct (Py.lookup "required" d); [by rewrite andb_true_r|done]. }
  by destruct (Py.truthy _).
Qed.

(** X18. For an endpoint whose parameters are all [dict]s, the [required]
    list of the tool schema names, in discovery order, the parameters
    that state [required] with a true value.  The signature of the
    generated function treats as required also every parameter that
    does not state it: the two generators differ on the default. *)
Theorem schema_required_names (endpoint : APIEndpoint) :
  McpServerGenerator.parameter_items endpoint <> [] ->
  forallb McpServerGenerator.is_dict_item (McpServerGenerator.parameter_items endpoint)
  = true ->
  _generate_tool_parameters endpoint
  = Ok (object_schema
          (JObj (McpServerGenerator.parameter_items endpoint))
          (JArr (JStr <$> (fst <$> List.filter
                             (fun p => McpServerGenerator.is_required p
                                       && states_required p)
                             (McpServerGenerator.parameter_items endpoint))))).
Proof.
  unfold _generate_tool_parameters, McpServerGenerator.parameter_items.
  destruct (parameters endpoint) as [[|p ps]|]; try done.
  intros _ Hd. by rewrite (required_names_filter _ Hd).
Qed.

Lemma schema_required_names_witness :
  McpServerGenerator.parameter_items McpServerGenerator.create_order <> []
  /\ _generate_tool_parameters McpServerGenerator.create_order
     = Ok (object_schema
             (JObj (McpServerGenerator.parameter_items McpServerGenerator.create_order))
             (JArr [JStr "id"]))
  /\ List.filter McpServerGenerator.is_required
       (McpServerGenerator.parameter_items McpServerGenerator.create_order)
     = [("id", JObj [("type", JStr "integer"); ("source", JStr "path");
                     ("required", JBool true)]);
        ("qty", JObj [("type", JStr "integer"); ("source", JStr "body")])].
Proof.
  assert (McpServerGenerator.parameter_items McpServerGenerator.create_order <> [])
    as H by done.
  refine (conj H (conj _ eq_refl)).
  exact (schema_required_names McpServerGenerator.create_order H eq_refl).
Defined.

End McpServerFacts.

(** ** Parameters found on the web and the request body *)

Module DiscoveredParameterFacts.

Import ApiDiscovererSpec.

Lemma sourceless_set_loop (k v : json) (d : pdict) :
  sourceless ("", v) = true -> sourceless_values d ->
  sourceless_values (PDict.set_loop k v d).
Proof.
  intros Hv. unfold sourceless_values. induction 1 as [|[k0 v0] d H0 Hd IH]; simpl.
  - by repeat constructor.
  - destruct (Py.key_eqb k0 k); constructor; done.
Qed.

Lemma sourceless_for_each (step : json -> pdict -> result pdict) (xs : list json)
    (d d' : pdict) :
  (forall x d0 d1, step x d0 = Ok d1 -> sourceless_values d0 -> sourceless_values d1) ->
  JsonAnalyzer.for_each step xs d = Ok d' ->
  sourceless_values d -> sourceless_values d'.
Proof.
  intros Hs. revert d. induction xs as [|x xs IH]; intros d; simpl.
  - by intros [= <-].
  - destruct (step x d) as [d1|] eqn:E; [|done]. simpl.
    intros H Hd. eapply IH; [done|]. by eapply Hs.
Qed.

Lemma parameter_step_sourceless x d0 d1 :
  parameter_step x d0 = Ok d1 -> sourceless_values d0 -> sourceless_values d1.
Proof.
  unfold parameter_step, PDict.set. repeat case_match; try done;
    intros [= <-]; [|done]. by apply sourceless_set_loop.
Qed.

Lemma field_step_sourceless x d0 d1 :
  field_step x d0 = Ok d1 -> sourceless_values d0 -> sourceless_values d1.
Proof.
  unfold field_step, PDict.set. repeat case_match; try done;
    intros [= <-]; [|done]. by apply sourceless_set_loop.
Qed.

Lemma to_dict_sourceless (d : pdict) (ps : dict) :
  PDict.to_dict d = Some ps -> sourceless_values d -> forallb sourceless ps = true.
Proof.
  revert ps. induction d as [|[k v] d IH]; intros ps; simpl.
  - by intros [= <-].
  - destruct k; try done. destruct (PDict.to_dict d) as [r|]; [|done].
    intros [= <-] [Hv Hd]%Forall_cons. simpl in *.
    apply andb_true_iff. split; [exact Hv|by apply IH].
Qed.

Lemma sourceless_body_params (ps : dict) :
  forallb sourceless ps = true -> McpServerGenerator.body_params ps = Ok [].
Proof.
  induction ps as [|[n v] ps IH]; [done|]. cbn [forallb].
  intros [Hv Hr]%andb_true_iff. destruct v as [| | | | |d]; try discriminate.
  cbn [McpServerGenerator.body_params Py.get_attr mbind result_bind].
  rewrite (IH Hr). cbn [mbind result_bind].
  unfold sourceless, Py.mem in Hv. cbn [snd] in Hv. unfold Py.get.
  by destruct (Py.lookup "source" d).
Qed.

(** X19. The parameters that [api_discoverer.py] extracts from a fetched
    specification or from a form carry no [source]; the tool generated
    for an endpoint with such parameters prepares no request body,
    whatever its method is. *)
Theorem discovered_parameters_send_no_body (details : json) (extracted : pdict)
    (ps : dict) (endpoint : APIEndpoint) :
  _extract_parameters details = Ok (Some extracted)
  \/ _extract_form_parameters details = Ok (Some extracted) ->
  PDict.to_dict extracted = Some ps ->
  parameters endpoint = Some ps ->
  forallb sourceless ps = true
  /\ McpServerGenerator.data_prep_lines endpoint = Ok [].
Proof.
  intros Hx Hd Hp.
  assert (sourceless_values extracted) as Hs.
  { destruct Hx as [H|H]; revert H.
    - unfold _extract_parameters, mbind, result_bind.
      repeat case_match; try done.
      match goal with
      | |- context [JsonAnalyzer.for_each ?f ?xs ?d0] =>
          destruct (JsonAnalyzer.for_each f xs d0) as [d1|] eqn:E; [|done]
      end.
      intros [= <-]. eapply sourceless_for_each;
        [apply parameter_step_sourceless|exact E|constructor].
    - unfold _extract_form_parameters, mbind, result_bind.
      repeat case_match; try done.
      match goal with
      | |- context [JsonAnalyzer.for_each ?f ?xs ?d0] =>
          destruct (JsonAnalyzer.for_each f xs d0) as [d1|] eqn:E; [|done]
      end.
      intros [= <-]. eapply sourceless_for_each;
        [apply field_step_sourceless|exact E|constructor]. }
  pose proof (to_dict_sourceless _ _ Hd Hs) as Hall. split; [done|].
  unfold McpServerGenerator.data_prep_lines, McpServerGenerator.parameter_items.
  rewrite Hp. destruct ps as [|p ps]; [done|].
  by rewrite (sourceless_body_params _ Hall).
Qed.

Lemma discovered_parameters_send_no_body_witness :
  exists (extracted : pdict) (ps : dict),
    _extract_parameters
      (JObj [("parameters",
              JArr [JObj [("name", JStr "order"); ("in", JStr "body");
                          ("required", JBool true)]])])
    = Ok (Some extracted)
    /\ PDict.to_dict extracted = Some ps
    /\ McpServerGenerator.data_prep_lines
         (mkAPIEndpoint "/orders" POST None (Some ps) None None false [])
       = Ok [].
Proof.
  eexists _, _. refine (conj eq_refl (conj eq_refl _)).
  exact (proj2 (discovered_parameters_send_no_body
                  (JObj [("parameters",
                          JArr [JObj [("name", JStr "order"); ("in", JStr "body");
                                      ("required", JBool true)]])])
                  _ _ (mkAPIEndpoint "/orders" POST None _ None None false [])
                  (or_introl eq_refl) eq_refl eq_refl)).
Defined.

Lemma lower_app (a b : string) :
  PyStr.lower (a +:+ b) = PyStr.lower a +:+ PyStr.lower b.
Proof.
  unfold PyStr.lower. induction a as [|c a IH]; [done|].
  rewrite append_cons_eq. cbn [PyStr.map]. by rewrite IH, append_cons_eq.
Qed.

Lemma contains_middle (a p b : string) : PyStr.contains (a +:+ p +:+ b) p = true.
Proof.
  induction a as [|c a IH].
  - rewrite append_nil_l. destruct (p +:+ b) eqn:E; cbn [PyStr.contains];
      rewrite <- E, ToolNameFacts.prefix_app_self; done.
  - rewrite append_cons_eq. cbn [PyStr.contains]. rewrite IH.
    by destruct (String.prefix p _).
Qed.

(** X20. A URL is taken for an API as soon as one of the seven
    indicators occurs anywhere in it, in any case and also inside a
    longer word. *)
Theorem looks_like_api_anywhere (before word after : string) :
  PyStr.str_in_list (PyStr.lower word) api_indicators = true ->
  _looks_like_api (before +:+ word +:+ after) = true.
Proof.
  intros Hw. unfold _looks_like_api. apply existsb_exists.
  apply existsb_exists in Hw as (indicator & Hin & Heq%String.eqb_eq).
  exists indicator. split; [done|]. rewrite <- Heq.
  rewrite !lower_app. apply contains_middle.
Qed.

Lemma looks_like_api_anywhere_witness :
  PyStr.str_in_list (PyStr.lower "API") api_indicators = true
  /\ _looks_like_api ("/c" +:+ "API" +:+ "tal") = true.
Proof.
  refine (conj eq_refl _).
  exact (looks_like_api_anywhere "/c" "API" "tal" eq_refl).
Defined.

End DiscoveredParameterFacts.

(** ** The name of the repository *)

Module RepoNameFacts.

Import RepoName.

Lemma split_slash_app (current a b : string) :
  PdfAnalyzer.split_slash current (a +:+ String "/" b)
  = PdfAnalyzer.split_slash current a ++ PdfAnalyzer.split_slash "" b.
Proof.
  revert current. induction a as [|c a IH]; intros current.
  - rewrite append_nil_l. reflexivity.
  - rewrite append_cons_eq. cbn [PdfAnalyzer.split_slash].
    destruct (Ascii.eqb c "/"); [by rewrite IH|apply IH].
Qed.

Lemma split_slash_plain (current s : string) :
  PyStr.contains_char "/" s = false ->
  PdfAnalyzer.split_slash current s = [current +:+ s].
Proof.
  revert current. induction s as [|c s IH]; intros current.
  - intros _. cbn. f_equal. clear. induction current as [|x a IH]; [done|].
    by rewrite append_cons_eq, <- IH.
  - cbn [PyStr.contains_char PdfAnalyzer.split_slash].
    intros [-> H]%orb_false_iff. rewrite (IH _ H).
    by rewrite PlaceholderFacts.append_assoc_char.
Qed.

Lemma rstrip_char_plain (c : ascii) (s : string) :
  s <> "" -> PyStr.contains_char c s = false -> PyStr.rstrip_char c s = s.
Proof.
  induction s as [|a s IH]; [done|]. intros _.
  cbn [PyStr.contains_char PyStr.rstrip_char]. intros [Ha Hs]%orb_false_iff.
  destruct s as [|b s]; [by rewrite Ha|].
  rewrite IH by done. reflexivity.
Qed.

Lemma rstrip_char_app (c : ascii) (a s : string) :
  PyStr.rstrip_char c s <> "" ->
  PyStr.rstrip_char c (a +:+ s) = a +:+ PyStr.rstrip_char c s.
Proof.
  intros Hs. induction a as [|x a IH]; [done|].
  rewrite !append_cons_eq. cbn [PyStr.rstrip_char]. rewrite IH.
  destruct (a +:+ PyStr.rstrip_char c s) eqn:E; [|done].
  destruct a; [|done]. rewrite append_nil_l in E. done.
Qed.

Lemma endswith_app (a p : string) : PdfAnalyzer.endswith (a +:+ p) p = true.
Proof.
  induction a as [|c a IH].
  - rewrite append_nil_l. destruct p; cbn [PdfAnalyzer.endswith];
      by rewrite String.eqb_refl.
  - rewrite append_cons_eq. cbn [PdfAnalyzer.endswith]. rewrite IH.
    by destruct (String.eqb _ p).
Qed.

Lemma endswith_after_slash (a r p : string) :
  PyStr.contains_char "/" p = false ->
  PdfAnalyzer.endswith (a +:+ String "/" r) p = PdfAnalyzer.endswith r p.
Proof.
  intros Hp.
  assert (forall t, PyStr.contains_char "/" t = true -> String.eqb t p = false) as Hne.
  { intros t Ht. apply String.eqb_neq. intros ->. congruence. }
  induction a as [|c a IH].
  - rewrite append_nil_l. cbn [PdfAnalyzer.endswith].
    rewrite Hne; [done|]. cbn. done.
  - rewrite append_cons_eq. cbn [PdfAnalyzer.endswith].
    rewrite Hne; [done|].
    rewrite <- append_cons_eq. apply ApiDiscovererFacts.contains_char_app.
Qed.

Lemma substring_prefix (a b : string) :
  String.substring 0 (String.length a) (a +:+ b) = a.
Proof.
  induction a as [|c a IH]; [by destruct b|].
  rewrite append_cons_eq. cbn. by rewrite IH.
Qed.

Lemma length_app (a b : string) :
  String.length (a +:+ b) = String.length a + String.length b.
Proof.
  induction a as [|c a IH]; [done|]. rewrite append_cons_eq. cbn. by rewrite IH.
Qed.

Lemma drop_last4_git (a : string) : drop_last4 (a +:+ ".git") = a.
Proof.
  unfold drop_last4. rewrite length_app.
  replace (String.length a + String.length ".git" - 4) with (String.length a)
    by (cbn; lia).
  apply substring_prefix.
Qed.

Lemma append_assoc (a b c : string) : (a +:+ b) +:+ c = a +:+ (b +:+ c).
Proof.
  induction a as [|x a IH]; [done|]. rewrite !append_cons_eq. by rewrite IH.
Qed.

Lemma append_nil_r (a : string) : a +:+ "" = a.
Proof. induction a as [|x a IH]; [done|]. by rewrite append_cons_eq, IH. Qed.

Lemma repo_name_plain (base owner repo : string) :
  PyStr.contains_char "/" owner = false ->
  PyStr.contains_char "/" repo = false ->
  repo <> "" ->
  PdfAnalyzer.endswith repo ".git" = false ->
  _extract_repo_name (base +:+ String "/" (owner +:+ String "/" repo))
  = owner +:+ "_" +:+ repo.
Proof.
  intros Ho Hr Hne Hg. unfold _extract_repo_name.
  rewrite endswith_after_slash by done.
  assert (PdfAnalyzer.endswith (owner +:+ String "/" repo) ".git" = false) as ->.
  { by rewrite endswith_after_slash. }
  assert (PyStr.rstrip_char "/" (base +:+ String "/" (owner +:+ String "/" repo))
          = base +:+ String "/" (owner +:+ String "/" repo)) as ->.
  { replace (base +:+ String "/" (owner +:+ String "/" repo))
      with ((base +:+ String "/" (owner +:+ "/")) +:+ repo).
    - rewrite rstrip_char_app; rewrite rstrip_char_plain; done.
    - rewrite append_assoc, append_cons_eq. f_equal. f_equal.
      rewrite append_assoc. reflexivity. }
  rewrite !split_slash_app, (split_slash_plain "" owner Ho),
    (split_slash_plain "" repo Hr), !append_nil_l.
  by rewrite !rev_app_distr.
Qed.

Lemma substring_plain (c : ascii) (n : nat) (s : string) :
  PyStr.contains_char c s = false ->
  PyStr.contains_char c (String.substring 0 n s) = false.
Proof.
  revert n. induction s as [|a s IH]; intros n; [by destruct n|].
  cbn [PyStr.contains_char]. intros [Ha Hs]%orb_false_iff.
  destruct n as [|n]; [done|]. cbn [String.substring PyStr.contains_char].
  by rewrite Ha, IH.
Qed.

Lemma rstrip_char_absent (c : ascii) (s : string) :
  PyStr.contains_char c s = false -> PyStr.rstrip_char c s = s.
Proof.
  destruct s as [|a s]; [done|]. by apply rstrip_char_plain.
Qed.

Lemma repo_name_no_slash (text : string) :
  PyStr.contains_char "/" text = false -> _extract_repo_name text = "unknown_repo".
Proof.
  intros H. unfold _extract_repo_name.
  assert (forall s, PyStr.contains_char "/" s = false ->
            match rev (PdfAnalyzer.split_slash "" (PyStr.rstrip_char "/" s)) with
            | repo :: owner :: _ => owner +:+ "_" +:+ repo
            | _ => "unknown_repo"
            end = "unknown_repo") as Hs.
  { intros s Hs. rewrite rstrip_char_absent by done.
    by rewrite split_slash_plain. }
  destruct (PdfAnalyzer.endswith text ".git"); apply Hs; [|done].
  by apply substring_plain.
Qed.

(** X21. From a URL that ends in an owner and a repository name, with
    or without the suffix [.git], the repository name read is the owner,
    an underscore and the repository; every text without a slash gives
    [unknown_repo]. *)
Theorem repo_name_round_trip :
  (forall (base owner repo : string) (git : bool),
      PyStr.contains_char "/" owner = false ->
      PyStr.contains_char "/" repo = false ->
      repo <> "" ->
      PdfAnalyzer.endswith repo ".git" = false ->
      _extract_repo_name
        (base +:+ "/" +:+ owner +:+ "/" +:+ repo +:+ (if git then ".git" else ""))
      = owner +:+ "_" +:+ repo)
  /\ (forall text : string,
         PyStr.contains_char "/" text = false ->
         _extract_repo_name text = "unknown_repo").
Proof.
  split; [|exact repo_name_no_slash].
  intros base owner repo git Ho Hr Hne Hg.
  rewrite !append_cons_eq, !append_nil_l. destruct git.
  + replace (base +:+ String "/" (owner +:+ String "/" (repo +:+ ".git")))
      with ((base +:+ String "/" (owner +:+ String "/" repo)) +:+ ".git").
    * pose proof (repo_name_plain base owner repo Ho Hr Hne Hg) as Hp.
      revert Hp. unfold _extract_repo_name at 2.
      rewrite endswith_app, drop_last4_git.
      unfold _extract_repo_name.
      rewrite endswith_after_slash by done.
      assert (PdfAnalyzer.endswith (owner +:+ String "/" repo) ".git" = false)
        as -> by by rewrite endswith_after_slash.
      done.
    * rewrite append_assoc, append_cons_eq. f_equal. f_equal.
      by rewrite append_assoc, append_cons_eq.
  + rewrite append_nil_r. by apply repo_name_plain.
Qed.

Lemma repo_name_round_trip_witness :
  _extract_repo_name
    ("https://github.com" +:+ "/" +:+ "octo" +:+ "/" +:+ "hello-world" +:+ ".git")
  = "octo" +:+ "_" +:+ "hello-world"
  /\ _extract_repo_name "x.git" = "unknown_repo"
  /\ _extract_repo_name "" = "unknown_repo".
Proof.
  assert ("hello-world" <> "") as Hne by discriminate.
  split; [|split].
  - exact (proj1 repo_name_round_trip "https://github.com" "octo" "hello-world" true
             eq_refl eq_refl Hne eq_refl).
  - exact (proj2 repo_name_round_trip "x.git" eq_refl).
  - exact (proj2 repo_name_round_trip "" eq_refl).
Defined.

End RepoNameFacts.

(** ** The parser of Insomnia exports *)

Module InsomniaFacts.

Import JsonAnalyzer InsomniaParser Operations.

Lemma split_slash_not_nil (current s : string) :
  PdfAnalyzer.split_slash current s <> [].
Proof.
  revert current. induction s as [|c s IH]; intros current; [done|].
  cbn [PdfAnalyzer.split_slash]. destruct (Ascii.eqb c "/"); [done|apply IH].
Qed.

(** Splitting a text at the slashes and joining the parts with slashes
    gives the text back. *)
Lemma join_split_slash (current s : string) :
  PyStr.join "/" (PdfAnalyzer.split_slash current s) = current +:+ s.
Proof.
  revert current. induction s as [|c s IH]; intros current.
  - cbn. by rewrite RepoNameFacts.append_nil_r.
  - cbn [PdfAnalyzer.split_slash]. destruct (Ascii.eqb_spec c "/") as [->|Hc].
    + pose proof (split_slash_not_nil "" s) as Hn. specialize (IH "").
      destruct (PdfAnalyzer.split_slash "" s) as [|x l]; [done|].
      cbn [PyStr.join] in *. rewrite IH. by rewrite append_nil_l.
    + rewrite IH. by rewrite PlaceholderFacts.append_assoc_char.
Qed.

Lemma replace_absent (old new s : string) :
  old <> "" -> PyStr.contains s old = false -> PyStr.replace old new s = s.
Proof.
  intros Hold. unfold PyStr.replace. induction s as [|c s IH].
  - intros _. by destruct old.
  - cbn [PyStr.contains PyStr.replace_from].
    destruct (String.prefix old (String c s)); [done|].
    intros H. by rewrite IH.
Qed.

Lemma replace_from_skip (old new a s : string) :
  PyStr.replace_from old new (String.length a) (a +:+ s)
  = PyStr.replace_from old new 0 s.
Proof.
  induction a as [|c a IH]; [done|]. rewrite append_cons_eq. exact IH.
Qed.

Lemma replace_leading (old new s : string) :
  old <> "" -> PyStr.replace old new (old +:+ s) = new +:+ PyStr.replace old new s.
Proof.
  intros Hold. unfold PyStr.replace. destruct old as [|o old]; [done|].
  rewrite append_cons_eq. cbn [PyStr.replace_from].
  pose proof (ToolNameFacts.prefix_app_self (String o old) s) as Hp.
  rewrite append_cons_eq in Hp. rewrite Hp.
  by rewrite replace_from_skip.
Qed.

Lemma contains_char_app_r (c : ascii) (a b : string) :
  PyStr.contains_char c b = true -> PyStr.contains_char c (a +:+ b) = true.
Proof.
  intros Hb. induction a as [|x a IH]; [done|].
  rewrite append_cons_eq. cbn. by rewrite IH, orb_true_r.
Qed.

Lemma url_path_of_rooted (url : string) :
  PyStr.startswith (url_path_of url) "/" = true.
Proof.
  unfold url_path_of. repeat case_match; try done;
    apply (ToolNameFacts.prefix_app_self "/").
Qed.

(** The path of a URL without a scheme. *)
Lemma url_path_of_host (host rest : string) :
  PyStr.contains_char "/" host = false ->
  PyStr.startswith (host +:+ String "/" rest) "{{" = false ->
  PyStr.contains (host +:+ String "/" rest) "https://" = false ->
  PyStr.contains (host +:+ String "/" rest) "http://" = false ->
  url_path_of (host +:+ String "/" rest) = String "/" rest.
Proof.
  intros Hh Hv Hs1 Hs2. unfold url_path_of. rewrite Hv.
  rewrite (replace_absent "https://") by done.
  rewrite (replace_absent "http://") by done.
  rewrite contains_char_app_r by (cbn; done).
  rewrite RepoNameFacts.split_slash_app, (RepoNameFacts.split_slash_plain "" host Hh).
  cbn [app List.tl]. rewrite join_split_slash. reflexivity.
Qed.

(** X22. The path the Insomnia parser takes from an absolute URL is the
    part of the URL after the host, for [https], for [http] and for a
    URL without a scheme, when neither scheme occurs again inside the
    URL and the host is no template variable. *)
Theorem insomnia_path_of_url (scheme host rest : string) :
  scheme ∈ schemes ->
  PyStr.contains_char "/" host = false ->
  PyStr.startswith (host +:+ String "/" rest) "{{" = false ->
  PyStr.contains (host +:+ String "/" rest) "https://" = false ->
  PyStr.contains (host +:+ String "/" rest) "http://" = false ->
  url_path_of (scheme +:+ host +:+ String "/" rest) = String "/" rest.
Proof.
  intros Hsch Hh Hv Hs1 Hs2.
  pose proof (url_path_of_host host rest Hh Hv Hs1 Hs2) as Hp.
  unfold schemes in Hsch. rewrite !elem_of_cons in Hsch.
  destruct Hsch as [->|[->|[->|Hn]]]; [| |done|by apply elem_of_nil in Hn].
  - revert Hp. unfold url_path_of. rewrite Hv.
    assert (PyStr.startswith ("https://" +:+ host +:+ String "/" rest) "{{" = false)
      as -> by reflexivity.
    rewrite (replace_leading "https://") by done.
    by rewrite append_nil_l.
  - revert Hp. unfold url_path_of. rewrite Hv.
    assert (PyStr.startswith ("http://" +:+ host +:+ String "/" rest) "{{" = false)
      as -> by reflexivity.
    assert (PyStr.replace "https://" "" ("http://" +:+ host +:+ String "/" rest)
            = "http://" +:+ PyStr.replace "https://" "" (host +:+ String "/" rest))
      as ->.
    { unfold PyStr.replace. rewrite !append_cons_eq, append_nil_l. reflexivity. }
    rewrite (replace_leading "http://") by done.
    by rewrite append_nil_l.
Qed.

Lemma insomnia_path_of_url_witness :
  url_path_of ("https://" +:+ "api.example.com" +:+ String "/" "users/{id}")
  = String "/" "users/{id}".
Proof.
  assert ("https://" ∈ schemes) as H.
  { apply (bool_decide_unpack _). vm_compute. exact I. }
  exact (insomnia_path_of_url "https://" "api.example.com" "users/{id}" H
           eq_refl eq_refl eq_refl eq_refl).
Defined.

Section Records.

Variable py_str : json -> string.
Variable new_APIEndpoint :
  string -> HTTPMethod -> json -> pdict -> json -> result APIEndpoint.
Hypothesis Hnew : keeps_identity new_APIEndpoint.

Lemma resource_step_rooted resource endpoints endpoints' :
  resource_step py_str new_APIEndpoint resource endpoints = Ok endpoints' ->
  Forall (fun e => PyStr.startswith (url e) "/" = true) endpoints ->
  Forall (fun e => PyStr.startswith (url e) "/" = true) endpoints'.
Proof.
  unfold resource_step, mbind, result_bind.
  repeat case_match; try done; try by intros [= <-].
  all: intros [= <-] Hall; apply Forall_app; split; [done|]; repeat constructor.
  all: match goal with
       | H : _ = Ok _ |- _ => destruct (Hnew _ _ _ _ _ _ H) as [Hu Hm]
       end; rewrite Hu; apply url_path_of_rooted.
Qed.

Lemma resources_loop_rooted resources endpoints endpoints' :
  resources_loop py_str new_APIEndpoint resources endpoints = Ok endpoints' ->
  Forall (fun e => PyStr.startswith (url e) "/" = true) endpoints ->
  Forall (fun e => PyStr.startswith (url e) "/" = true) endpoints'.
Proof.
  revert endpoints. induction resources as [|r resources IH]; intros endpoints.
  - by intros [= <-].
  - cbn [resources_loop]. unfold mbind, result_bind.
    destruct (resource_step _ _ r endpoints) as [e1|] eqn:E1; [|done].
    intros H Hall. eapply IH; [done|]. by eapply resource_step_rooted.
Qed.

End Records.

Lemma parse_insomnia_rooted
    (py_str : json -> string)
    (new_APIEndpoint : string -> HTTPMethod -> json -> pdict -> json -> result APIEndpoint)
    (new_APIDiscovery : json -> list APIEndpoint -> option AuthenticationInfo ->
                        json -> list json -> result APIDiscovery)
    (json_data : json) (disc : APIDiscovery) :
  keeps_identity new_APIEndpoint ->
  keeps_endpoints new_APIDiscovery ->
  _parse_insomnia_collection py_str new_APIEndpoint new_APIDiscovery json_data
  = Ok disc ->
  Forall (fun e => PyStr.startswith (url e) "/" = true) (endpoints disc).
Proof.
  intros Hnew Hdisc. unfold _parse_insomnia_collection, mbind, result_bind.
  destruct (Py.get_attr json_data "resources" (JArr [])) as [rs|]; [|done].
  destruct (Py.iter rs) as [items|]; [|done].
  destruct (resources_loop _ _ items []) as [eps|] eqn:El; [|done].
  intros Hd. rewrite (Hdisc _ _ _ _ _ _ Hd).
  by eapply resources_loop_rooted.
Qed.

End InsomniaFacts.

(** ** The fallback parser *)

Module GenericParserFacts.

Import JsonAnalyzer GenericParser Operations.

(** Induction on a value, with the hypothesis for every element of a
    list and every value of a [dict]. *)
Lemma json_nested_ind (P : json -> Prop) :
  P JNull -> (forall b, P (JBool b)) -> (forall n, P (JNum n)) ->
  (forall s, P (JStr s)) ->
  (forall l, Forall P l -> P (JArr l)) ->
  (forall d, Forall (fun kv => P (snd kv)) d -> P (JObj d)) ->
  forall v, P v.
Proof.
  intros Hnull Hbool Hnum Hstr Harr Hobj. fix IH 1. intros [|b|n|s|l|d].
  - exact Hnull.
  - apply Hbool.
  - apply Hnum.
  - apply Hstr.
  - apply Harr. induction l as [|x l IHl]; constructor; [apply IH|exact IHl].
  - apply Hobj. induction d as [|[k x] d IHd]; constructor; [apply IH|exact IHd].
Qed.

Section Records.

Variable new_APIEndpoint :
  string -> HTTPMethod -> json -> pdict -> json -> result APIEndpoint.
Hypothesis Hnew : keeps_identity new_APIEndpoint.

Abbreviation rooted := (fun e : APIEndpoint => PyStr.startswith (url e) "/" = true).

Lemma created_endpoint_rooted data path_prefix endpoint :
  _create_endpoint_from_dict new_APIEndpoint data path_prefix = Some endpoint ->
  rooted endpoint.
Proof.
  unfold _create_endpoint_from_dict. repeat case_match; try done.
  all: intros [= <-];
    match goal with
    | H : _ = Ok _ |- _ => destruct (Hnew _ _ _ _ _ _ H) as [Hu Hm]
    end; rewrite Hu; first [done | apply ToolNameFacts.prefix_app_self].
Qed.

Lemma extracted_rooted (data : json) :
  forall path_prefix endpoints,
    Forall rooted endpoints ->
    Forall rooted
      (_extract_endpoints_recursively new_APIEndpoint data path_prefix endpoints).
Proof.
  induction data as [|b|n|s|l IH|d IH] using json_nested_ind;
    intros path_prefix endpoints Hall; try done.
  - cbn [_extract_endpoints_recursively]. revert endpoints Hall.
    induction IH as [|x l Hx _ IHl]; intros endpoints Hall; [done|].
    apply IHl, Hx, Hall.
  - cbn [_extract_endpoints_recursively].
    destruct (_looks_like_endpoint d).
    + destruct (_create_endpoint_from_dict new_APIEndpoint d path_prefix)
        as [e|] eqn:E; [|done].
      apply Forall_app. split; [done|]. repeat constructor.
      by eapply created_endpoint_rooted.
    + revert endpoints Hall.
      induction IH as [|[k x] d' Hx _ IHd]; intros endpoints Hall; [done|].
      apply IHd, Hx, Hall.
Qed.

Lemma created_from_method_keys data path_prefix endpoint :
  Py.mem "method" data = false ->
  _create_endpoint_from_dict new_APIEndpoint data path_prefix = Some endpoint ->
  method endpoint = GET.
Proof.
  intros Hm. unfold _create_endpoint_from_dict.
  assert (Py.get data "method" (JStr "GET") = JStr "GET") as ->.
  { unfold Py.get, Py.mem in *. by destruct (Py.lookup "method" data). }
  change (HTTPMethod_of_value (PyStr.upper "GET")) with (@Ok HTTPMethod GET).
  repeat case_match; try done.
  all: intros [= <-];
    match goal with
    | H : Ok GET = Ok _ |- _ => injection H as <-
    end;
    match goal with
    | H : _ = Ok _ |- _ => by destruct (Hnew _ _ _ _ _ _ H) as [Hu ->]
    end.
Qed.

End Records.

(** X23. A [dict] that has no key [method] and some key naming an HTTP
    method, such as a path item with its operations, is taken for one
    endpoint and not searched further: the fallback parser adds at most
    one record for it, and the method of that record is GET whatever the
    keys name. *)
Theorem method_keys_give_one_get
    (new_APIEndpoint : string -> HTTPMethod -> json -> pdict -> json -> result APIEndpoint)
    (data : dict) (path_prefix : string) (endpoints : list APIEndpoint) :
  keeps_identity new_APIEndpoint ->
  Py.mem "method" data = false ->
  has_method_key data = true ->
  exists found : list APIEndpoint,
    _extract_endpoints_recursively new_APIEndpoint (JObj data) path_prefix endpoints
    = endpoints ++ found
    /\ length found <= 1
    /\ Forall (fun e => method e = GET) found.
Proof.
  intros Hnew Hm Hk. cbn [_extract_endpoints_recursively].
  unfold _looks_like_endpoint. rewrite Hk, orb_true_r.
  destruct (_create_endpoint_from_dict new_APIEndpoint data path_prefix)
    as [e|] eqn:E.
  - exists [e]. split; [done|]. split; [cbn; lia|]. repeat constructor.
    by eapply created_from_method_keys.
  - exists []. split; [by rewrite app_nil_r|]. split; [cbn; lia|constructor].
Qed.

Lemma method_keys_give_one_get_witness :
  exists found : list APIEndpoint,
    _extract_endpoints_recursively pydantic2_APIEndpoint orders_item "" []
    = [] ++ found
    /\ (url <$> found, method <$> found) = (["/orders"], [GET]).
Proof.
  destruct (method_keys_give_one_get pydantic2_APIEndpoint
              [("post", JObj [("summary", JStr "Create an order")]);
               ("delete", JObj [])]
              "orders" [] ParserFacts.pydantic2_keeps_identity eq_refl eq_refl)
    as (found & Hf & _).
  exists found. split; [exact Hf|].
  cbn in Hf. by rewrite <- Hf.
Defined.

End GenericParserFacts.

(** ** The parser of Postman collections *)

Module PostmanFacts.

Import JsonAnalyzer PostmanParser Operations.

Section Records.

Variable py_str : json -> string.
Variable json_loads : string -> option json.
Variable new_APIEndpoint :
  string -> HTTPMethod -> json -> pdict -> json -> result APIEndpoint.
Hypothesis Hnew : keeps_identity new_APIEndpoint.

Abbreviation rooted_path := (fun e : APIEndpoint => PyStr.startswith (url e) "/" = true).
Abbreviation parse :=
  (_parse_postman_items py_str json_loads new_APIEndpoint).

Abbreviation keeps := (keeps_rooted py_str json_loads new_APIEndpoint).

Lemma request_step_rooted item request folder_path endpoints endpoints' :
  request_step py_str json_loads new_APIEndpoint item request folder_path endpoints
  = Ok endpoints' ->
  Forall rooted_path endpoints -> Forall rooted_path endpoints'.
Proof.
  unfold request_step, mbind, result_bind.
  repeat case_match; try done; try by intros [= <-].
  all: intros [= <-] Hall; apply Forall_app; split; [done|]; repeat constructor.
  all: match goal with
       | H : _ = Ok _ |- _ => destruct (Hnew _ _ _ _ _ _ H) as [Hu Hm]
       end; rewrite Hu;
       first [ apply ToolNameFacts.prefix_app_self
             | match goal with
               | H : negb _ = false |- _ => by apply negb_false_iff in H
               end ].
Qed.

Lemma folder_lookup (f : json -> result (list APIEndpoint)) (kvs : dict) :
  (fix folder (kvs : list (string * json)) : option (result (list APIEndpoint)) :=
     match kvs with
     | [] => None
     | (k, v) :: r => if String.eqb k "item" then Some (f v) else folder r
     end) kvs
  = f <$> Py.lookup "item" kvs.
Proof.
  induction kvs as [|[k v] r IH]; [done|]. cbn [Py.lookup].
  destruct (String.eqb k "item"); [done|exact IH].
Qed.

Lemma lookup_value (k : string) (d : dict) (v : json) :
  Py.lookup k d = Some v -> exists k', (k', v) ∈ d.
Proof.
  induction d as [|[k0 v0] d IH]; [done|]. cbn [Py.lookup].
  destruct (String.eqb k0 k).
  - intros [= <-]. exists k0. left.
  - intros H. destruct (IH H) as [k' Hin]. exists k'. by right.
Qed.

Lemma parse_items_rooted (items : json) :
  keeps items
  /\ forall d, items = JObj d -> Forall (fun kv => keeps (snd kv)) d.
Proof.
  induction items as [|b|n|s|l IH|d IH] using GenericParserFacts.json_nested_ind.
  - split; [|done]. by intros ? ? ?.
  - split; [|done]. by intros ? ? ?.
  - split; [|done]. by intros ? ? ?.
  - split; [|done]. intros fp eps eps'. cbn [_parse_postman_items].
    unfold mbind, result_bind. destruct (plain_items _); [|done]. by intros [= <-].
  - split; [|done]. intros fp eps eps'. cbn [_parse_postman_items].
    revert eps. induction IH as [|item l Hitem _ IHl]; intros eps.
    + by intros [= <-].
    + destruct item as [| | | | |d].
      1-5: unfold mbind, result_bind; destruct (plain_item _); [|done]; apply IHl.
      destruct Hitem as [_ Hd]. specialize (Hd d eq_refl).
      pose proof (folder_lookup
                    (fun v => parse v (new_folder_path py_str fp
                                         (Py.get d "name" (JStr ""))) eps) d) as Hf.
      cbv beta in Hf. rewrite Hf. clear Hf.
      destruct (Py.lookup "item" d) as [v|] eqn:Ev; cbn [fmap option_fmap option_map].
      * apply lookup_value in Ev as [k' Ev]. rewrite Forall_forall in Hd.
        specialize (Hd _ Ev). cbn [snd] in Hd.
        unfold mbind, result_bind.
        destruct (parse v _ eps) as [eps1|] eqn:Ei; [|done].
        intros H Hall. eapply IHl; [exact H|]. by eapply Hd.
      * destruct (Py.lookup "request" d) as [request|]; [|apply IHl].
        unfold mbind, result_bind.
        destruct (request_step _ _ _ d request fp eps) as [eps1|] eqn:Er; [|done].
        intros H Hall. eapply IHl; [exact H|]. by eapply request_step_rooted.
  - split.
    + intros fp eps eps'. cbn [_parse_postman_items].
      unfold mbind, result_bind. destruct (plain_items _); [|done]. by intros [= <-].
    + intros d' [= <-]. eapply Forall_impl; [exact IH|]. by intros kv [H _].
Qed.

Lemma parse_postman_rooted new_APIDiscovery json_data disc :
  keeps_endpoints new_APIDiscovery ->
  _parse_postman_collection py_str json_loads new_APIEndpoint new_APIDiscovery
    json_data = Ok disc ->
  Forall rooted_path (endpoints disc).
Proof.
  intros Hdisc. unfold _parse_postman_collection, mbind, result_bind.
  repeat case_match; try done. intros Hd. rewrite (Hdisc _ _ _ _ _ _ Hd).
  match goal with
  | H : _parse_postman_items _ _ _ _ _ _ = Ok _ |- _ =>
      eapply (proj1 (parse_items_rooted _)); [exact H|constructor]
  end.
Qed.

End Records.

End PostmanFacts.

(** ** Paths of the records of the JSON analyzer *)

Module AnalyzeJsonFacts.

Import JsonAnalyzer Operations.

(** X24. Every record that the parsers of the custom format, of Postman
    collections, of Insomnia exports and of the fallback format return
    has a path that starts with a slash: a path written without one
    gets it.  The constructors are taken to keep the path and the
    endpoints they are given. *)
Theorem collection_paths_rooted
    (py_str : json -> string) (json_loads : string -> option json)
    (new_APIEndpoint : string -> HTTPMethod -> json -> pdict -> json -> result APIEndpoint)
    (new_APIDiscovery : json -> list APIEndpoint -> option AuthenticationInfo ->
                        json -> list json -> result APIDiscovery)
    (json_data : json) (disc : APIDiscovery) :
  keeps_identity new_APIEndpoint ->
  keeps_endpoints new_APIDiscovery ->
  _parse_custom_endpoints new_APIEndpoint new_APIDiscovery json_data = Ok disc
  \/ PostmanParser._parse_postman_collection py_str json_loads new_APIEndpoint
       new_APIDiscovery json_data = Ok disc
  \/ InsomniaParser._parse_insomnia_collection py_str new_APIEndpoint
       new_APIDiscovery json_data = Ok disc
  \/ GenericParser._parse_generic_json new_APIEndpoint new_APIDiscovery json_data
     = Ok disc ->
  Forall (fun e => PyStr.startswith (url e) "/" = true) (endpoints disc).
Proof.
  intros Hnew Hdisc [H|[H|[H|H]]].
  - by eapply ParserFacts.parse_custom_rooted.
  - by eapply PostmanFacts.parse_postman_rooted.
  - by eapply InsomniaFacts.parse_insomnia_rooted.
  - unfold GenericParser._parse_generic_json in H.
    rewrite (Hdisc _ _ _ _ _ _ H). by apply GenericParserFacts.extracted_rooted.
Qed.

Lemma collection_paths_rooted_witness :
  exists disc : APIDiscovery,
    PostmanParser._parse_postman_collection Py.str_scalar (fun _ => None)
      pydantic2_APIEndpoint pydantic2_APIDiscovery PostmanParser.nested_collection
    = Ok disc
    /\ (url <$> endpoints disc, tags <$> endpoints disc)
       = (["/users/:id"], [["Users"; "Admin"]])
    /\ Forall (fun e => PyStr.startswith (url e) "/" = true) (endpoints disc).
Proof.
  eexists. refine (conj eq_refl (conj eq_refl _)).
  exact (collection_paths_rooted Py.str_scalar (fun _ => None)
           pydantic2_APIEndpoint pydantic2_APIDiscovery
           PostmanParser.nested_collection _
           ParserFacts.pydantic2_keeps_identity ParserFacts.pydantic2_keeps_endpoints
           (or_intror (or_introl eq_refl))).
Defined.

(** X25. Whatever [analyze_json] returns for a document that is detected
    as neither OpenAPI 3 nor Swagger 2, the path of every record starts
    with a slash.  The constructors are taken to keep the path and the
    endpoints they are given. *)
Theorem analyze_json_paths_rooted
    (py_str : json -> string) (json_loads : string -> option json)
    (new_APIEndpoint : string -> HTTPMethod -> json -> pdict -> json -> result APIEndpoint)
    (new_APIDiscovery : json -> list APIEndpoint -> option AuthenticationInfo ->
                        json -> list json -> result APIDiscovery)
    (json_data : json) (disc : APIDiscovery) :
  keeps_identity new_APIEndpoint ->
  keeps_endpoints new_APIDiscovery ->
  analyze_json py_str new_APIEndpoint new_APIDiscovery
    (PostmanParser.parse_other_format py_str json_loads new_APIEndpoint
       new_APIDiscovery)
    json_data = Ok disc ->
  _detect_json_format json_data <> Ok "openapi" ->
  _detect_json_format json_data <> Ok "swagger" ->
  Forall (fun e => PyStr.startswith (url e) "/" = true) (endpoints disc).
Proof.
  intros Hnew Hdisc. unfold analyze_json, mbind, result_bind.
  destruct (_detect_json_format json_data) as [format|]; [|done].
  destruct (String.eqb_spec format "openapi") as [->|_]; [done|].
  destruct (String.eqb_spec format "swagger") as [->|_]; [done|].
  intros H _ _. revert H.
  destruct (String.eqb format "custom_endpoints").
  - by apply ParserFacts.parse_custom_rooted.
  - unfold PostmanParser.parse_other_format.
    destruct (String.eqb format "postman");
      [by apply PostmanFacts.parse_postman_rooted|].
    destruct (String.eqb format "insomnia");
      [by apply InsomniaFacts.parse_insomnia_rooted|].
    unfold GenericParser._parse_generic_json. intros H.
    rewrite (Hdisc _ _ _ _ _ _ H). by apply GenericParserFacts.extracted_rooted.
Qed.

Lemma analyze_json_paths_rooted_witness :
  exists disc : APIDiscovery,
    analyze_json Py.str_scalar pydantic2_APIEndpoint pydantic2_APIDiscovery
      (PostmanParser.parse_other_format Py.str_scalar (fun _ => None)
         pydantic2_APIEndpoint pydantic2_APIDiscovery)
      orders_routes = Ok disc
    /\ url <$> endpoints disc = ["/orders"]
    /\ Forall (fun e => PyStr.startswith (url e) "/" = true) (endpoints disc).
Proof.
  eexists. refine (conj eq_refl (conj eq_refl _)).
  assert (_detect_json_format orders_routes <> Ok "openapi") as H1 by discriminate.
  assert (_detect_json_format orders_routes <> Ok "swagger") as H2 by discriminate.
  exact (analyze_json_paths_rooted Py.str_scalar (fun _ => None)
           pydantic2_APIEndpoint pydantic2_APIDiscovery orders_routes _
           ParserFacts.pydantic2_keeps_identity ParserFacts.pydantic2_keeps_endpoints
           eq_refl H1 H2).
Defined.

End AnalyzeJsonFacts.

(** ** From the collections to the generated tools *)

Module PipelineFacts.

Import JsonAnalyzer Sources.

Lemma typed_set_loop (k v : json) (d : pdict) :
  typed_entry v = true -> entries_typed d = true ->
  entries_typed (PDict.set_loop k v d) = true.
Proof.
  intros Hv. unfold entries_typed. induction d as [|[k0 v0] d IH]; simpl.
  - by rewrite Hv.
  - intros [H0 Hd]%andb_true_iff. destruct (Py.key_eqb k0 k); simpl.
    + by rewrite Hv, Hd.
    + by rewrite H0, IH.
Qed.

Lemma keeps_typed_set (k v : json) :
  typed_entry v = true -> keeps_typed (PDict.set k v).
Proof.
  intros Hv d d'. unfold PDict.set. destruct (Py.hashable k); [|done].
  intros [= <-]. by apply typed_set_loop.
Qed.

Lemma keeps_typed_ok : keeps_typed Ok.
Proof. by intros d d' [= <-]. Qed.

Lemma keeps_typed_for_each {A : Type} (step : A -> pdict -> result pdict)
    (xs : list A) :
  (forall x, keeps_typed (step x)) -> keeps_typed (for_each step xs).
Proof.
  intros Hs. induction xs as [|x xs IH]; intros d d'; simpl.
  - by intros [= <-].
  - destruct (step x d) as [d1|] eqn:E; [|done]. simpl.
    intros H Hd. eapply IH; [done|]. by eapply Hs.
Qed.

(** Opens the binds and the tests of a step until what remains is a
    store of a text-typed entry, a return or a loop over steps. *)
Ltac open_typed_step :=
  intros ? ?; unfold mbind, result_bind; repeat case_match; try done;
  first [ by apply keeps_typed_set | apply keeps_typed_ok | idtac ].

Lemma keeps_typed_put n : keeps_typed (put_path_param n).
Proof. unfold put_path_param. open_typed_step. Qed.

Lemma keeps_typed_postman_query py_str param :
  keeps_typed (postman_query_step py_str param).
Proof. unfold postman_query_step. open_typed_step. Qed.

Lemma keeps_typed_postman_header py_str header :
  keeps_typed (postman_header_step py_str header).
Proof. unfold postman_header_step. open_typed_step. Qed.

Lemma keeps_typed_postman_body_key kv : keeps_typed (postman_body_key_step kv).
Proof. unfold postman_body_key_step. open_typed_step. Qed.

Lemma keeps_typed_postman_raw_body json_loads body :
  keeps_typed (postman_raw_body json_loads body).
Proof.
  unfold postman_raw_body. open_typed_step.
  apply keeps_typed_for_each, keeps_typed_postman_body_key.
Qed.

Lemma keeps_typed_insomnia_query py_str param :
  keeps_typed (insomnia_query_step py_str param).
Proof. unfold insomnia_query_step. open_typed_step. Qed.

Lemma keeps_typed_insomnia_header py_str header :
  keeps_typed (insomnia_header_step py_str header).
Proof. unfold insomnia_header_step. open_typed_step. Qed.

Lemma postman_entries_typed py_str json_loads data path parameters :
  _extract_postman_parameters py_str json_loads data path = Ok parameters ->
  entries_typed parameters = true.
Proof.
  unfold _extract_postman_parameters, mbind, result_bind.
  destruct (postman_query py_str data) as [d0|] eqn:E0; [|done].
  destruct (for_each put_path_param _ d0) as [d1|] eqn:E1; [|done].
  assert (entries_typed d0 = true) as H0.
  { revert E0. unfold postman_query, mbind, result_bind.
    repeat case_match; try done; try by intros [= <-].
    intros Hq.
    eapply keeps_typed_for_each; [apply keeps_typed_postman_query|done|done]. }
  assert (entries_typed d1 = true) as H1.
  { eapply keeps_typed_for_each; [apply keeps_typed_put|done|done]. }
  unfold postman_header_body, mbind, result_bind.
  destruct (Py.get_attr data "header" (JArr [])) as [h|]; [|done].
  destruct (Py.iter h) as [hs|]; [|done].
  destruct (for_each (postman_header_step py_str) hs d1) as [d2|] eqn:E2; [|done].
  assert (entries_typed d2 = true) as H2.
  { eapply keeps_typed_for_each; [apply keeps_typed_postman_header|done|done]. }
  repeat case_match; try done.
  - intros Hb. by eapply keeps_typed_postman_raw_body.
  - by intros [= <-].
Qed.

Lemma insomnia_entries_typed py_str data path parameters :
  _extract_insomnia_parameters py_str data path = Ok parameters ->
  entries_typed parameters = true.
Proof.
  unfold _extract_insomnia_parameters, insomnia_query, insomnia_headers,
    mbind, result_bind.
  repeat case_match; try done. intros Hb.
  eapply keeps_typed_for_each; [apply keeps_typed_insomnia_header|done|].
  eapply keeps_typed_for_each; [apply keeps_typed_put|done|].
  eapply keeps_typed_for_each; [apply keeps_typed_insomnia_query|done|done].
Qed.

Lemma generic_entries_typed (data : dict) :
  entries_typed (GenericParser._extract_generic_parameters data) = true.
Proof.
  unfold GenericParser._extract_generic_parameters.
  assert (forall keys d, entries_typed d = true ->
            entries_typed
              (fold_left
                 (fun parameters key =>
                    match Py.lookup key data with
                    | Some (JObj param_data) =>
                        fold_left
                          (fun parameters kv =>
                             PDict.set_loop (JStr (fst kv))
                               (GenericParser.generic_entry key (fst kv)) parameters)
                          param_data parameters
                    | _ => parameters
                    end) keys d) = true) as H; [|by apply H].
  induction keys as [|key keys IH]; intros d Hd; [done|].
  cbn [fold_left]. apply IH.
  destruct (Py.lookup key data) as [[| | | | |pd]|]; try done.
  revert d Hd. induction pd as [|kv pd IHp]; intros d Hd; [done|].
  cbn [fold_left]. apply IHp. by apply typed_set_loop.
Qed.

Lemma to_dict_processable (d : pdict) (ps : dict) :
  PDict.to_dict d = Some ps -> entries_typed d = true ->
  forallb McpServerGenerator.processable ps = true.
Proof.
  revert ps. induction d as [|[k v] d IH]; intros ps; simpl.
  - by intros [= <-].
  - destruct k; try done. destruct (PDict.to_dict d) as [r|]; [|done].
    intros [= <-] [Hv Hd]%andb_true_iff. simpl.
    apply andb_true_iff. split; [exact Hv|by apply IH].
Qed.

(** X26. The parameters that the extractors of Postman collections, of
    Insomnia exports and of the fallback format return can all be
    processed by the tool generator: for an endpoint that carries them,
    generation of the tool returns. *)
Theorem collection_parameters_generate
    (py_str : json -> string) (json_loads : string -> option json)
    (data : json) (path : string) (extracted : pdict) (ps : dict)
    (endpoint : APIEndpoint) (production_base_url : option string) :
  _extract_postman_parameters py_str json_loads data path = Ok extracted
  \/ _extract_insomnia_parameters py_str data path = Ok extracted
  \/ (exists d, extracted = GenericParser._extract_generic_parameters d) ->
  PDict.to_dict extracted = Some ps ->
  parameters endpoint = Some ps ->
  forallb McpServerGenerator.processable ps = true
  /\ is_ok (McpServerGenerator._generate_fastmcp_tool py_str endpoint
              production_base_url) = true.
Proof.
  intros Hx Hd Hp.
  assert (entries_typed extracted = true) as Ht.
  { destruct Hx as [H|[H|(d & ->)]].
    - by eapply postman_entries_typed.
    - by eapply insomnia_entries_typed.
    - apply generic_entries_typed. }
  pose proof (to_dict_processable _ _ Hd Ht) as Hall. split; [done|].
  rewrite McpServerGeneratorFacts.generation_is_ok.
  unfold McpServerGenerator.parameter_items. by rewrite Hp.
Qed.

Lemma collection_parameters_generate_witness :
  exists (parameters : pdict) (ps : dict),
    _extract_postman_parameters Py.str_scalar (fun _ => None) postman_request
      "/users/:id" = Ok parameters
    /\ PDict.to_dict parameters = Some ps
    /\ is_ok (McpServerGenerator._generate_fastmcp_tool Py.str_scalar
                (mkAPIEndpoint "/users/:id" GET None (Some ps) None None false [])
                None) = true.
Proof.
  eexists _, _. refine (conj eq_refl (conj eq_refl _)).
  exact (proj2 (collection_parameters_generate Py.str_scalar (fun _ => None)
                  postman_request "/users/:id" _ _
                  (mkAPIEndpoint "/users/:id" GET None _ None None false []) None
                  (or_introl eq_refl) eq_refl eq_refl)).
Defined.

End PipelineFacts.
